(** * excelorm: records to spreadsheet sheets

    A shallow embedding of the Go package [excelorm], in its version on
    excelize v2 ([GetSheetIndex] answers -1 for a sheet that does not
    exist): [write], [setNoDataSheetHeaders], the option functions,
    [appendRow], [coordinatesToCellName], [columnNumberToName]; the
    properties of it that the specification states; and what the code
    shows besides about whole runs: where rows and headers end up, which
    sheets and cells a run leaves, when a run succeeds and how it fails.

    Conventions of the embedding.
    - Go's [int] is modelled by [Z]; every integer the package computes
      (a field position, a line number) stays far from the 64-bit bounds.
    - A Go [error] is [option string]: [None] is [nil], [Some msg] carries
      the message of [errors.New] / [fmt.Errorf].
    - A function returning [(T, error)] returns a pair, so that the value
      returned next to a non-nil error stays visible.
    - A function of the engine that can fail or panic returns an [outcome].
    - [reflect] is replaced by explicit descriptions of a value's kind and
      dynamic type.
    - An [Option] is a function value that is not nil, and [write] is the
      run on such overrides; a nil one makes the run panic when the loop
      over the overrides calls it, before a file is created
      ([writeNilable]).
    - The container finds a sheet by its name without regard to case (it
      compares names with [strings.EqualFold]), while the package itself
      compares and counts sheet names exactly; the folding of names is
      left open ([foldSheetName]).
    - The cell store of a file records the value that [SetCellValue] was
      called with; how the container encodes it afterwards (it keeps at
      most 32767 characters of a text) is outside. *)

From Stdlib Require Import ZArith String Ascii List Lia Bool.
From Stdlib Require Import DecimalString DecimalZ.
From stdpp Require Import gmap strings list fin_maps.

Local Open Scope string_scope.
Local Open Scope Z_scope.

(** ** The pieces of Go's standard library the package calls *)

Module strconv.

(** [strconv.Itoa]: the decimal text of an integer. *)
Definition Itoa (i : Z) : string := NilZero.string_of_int (Z.to_int i).

(** [strconv.FormatInt(i, 10)] and [strconv.FormatUint(i, 10)]. *)
Definition FormatInt (i : Z) : string := Itoa i.
Definition FormatUint (i : Z) : string := Itoa i.

End strconv.

(** The Go [error] interface value. *)
Abbreviation error := (option string).

(** ** Coordinate translation *)

Definition totalRows : Z := 1048576.
Definition minColumns : Z := 1.
Definition maxColumns : Z := 16384.

(** [string(rune((num-1)%26+65))]: Go's [%] truncates, hence [Z.rem]; the
    code point is below 128 whenever [num > 0], so the text is one byte. *)
Definition columnLetter (num : Z) : ascii :=
  ascii_of_N (Z.to_N (Z.rem (num - 1) 26 + 65)).

(** The loop [for num > 0 { col = letter + col; num = (num - 1) / 26 }].
    [fuel] bounds the number of iterations; [columnLoop_fuel] shows that
    [Z.to_nat num] iterations always suffice. *)
Fixpoint columnLoop (fuel : nat) (num : Z) (col : string) : string :=
  match fuel with
  | O => col
  | S fuel' =>
      if 0 <? num
      then columnLoop fuel' (Z.quot (num - 1) 26) (String (columnLetter num) col)
      else col
  end.

Definition columnNumberToName (num : Z) : string * error :=
  if (num <? minColumns) || (maxColumns <? num)
  then ("",
        Some ("the column number must be greater than or equal to "
              ++ strconv.Itoa minColumns
              ++ " and less than or equal to " ++ strconv.Itoa maxColumns))
  else (columnLoop (Z.to_nat num) num "", None).

Definition coordinatesToCellName (col row : Z) : string * error :=
  if (col <? 1) || (row <? 1)
  then ("",
        Some ("invalid cell reference [" ++ strconv.Itoa col ++ ", "
              ++ strconv.Itoa row ++ "]"))
  else if totalRows <? row
  then ("", Some "row number exceeds maximum limit")
  else
    let '(colName, err) := columnNumberToName col in
    (colName ++ strconv.Itoa row, err).

(** The domain of the translation. *)
Definition inDomain (col row : Z) : Prop :=
  1 <= col <= maxColumns /\ 1 <= row <= totalRows.

(** ** Outcomes of the engine's functions *)

(** A call returns normally with a value, returns a non-nil error, or
    panics (a nil interface method call, [NumField] on a non-struct type,
    [Interface] on an unexported field). *)
Inductive outcome (A : Type) : Type :=
| Ok (a : A)
| Err (msg : string)
| Panic.

Arguments Ok {A} a.
Arguments Err {A} msg.
Arguments Panic {A}.

(** ** Values as [reflect] sees them *)

Module reflect.

Inductive Kind : Set :=
| Invalid | Bool | Int | Int8 | Int16 | Int32 | Int64
| Uint | Uint8 | Uint16 | Uint32 | Uint64 | Uintptr
| Float32 | Float64 | Complex64 | Complex128
| Array | Chan | Func | Interface | Map | Pointer | Slice | String
| Struct | UnsafePointer.

(** [Kind.String], what [%s] prints for a kind. *)
Definition Kind_String (k : Kind) : string :=
  match k with
  | Invalid => "invalid" | Bool => "bool" | Int => "int" | Int8 => "int8"
  | Int16 => "int16" | Int32 => "int32" | Int64 => "int64"
  | Uint => "uint" | Uint8 => "uint8" | Uint16 => "uint16"
  | Uint32 => "uint32" | Uint64 => "uint64" | Uintptr => "uintptr"
  | Float32 => "float32" | Float64 => "float64"
  | Complex64 => "complex64" | Complex128 => "complex128"
  | Array => "array" | Chan => "chan" | Func => "func"
  | Interface => "interface" | Map => "map" | Pointer => "ptr"
  | Slice => "slice" | String => "string" | Struct => "struct"
  | UnsafePointer => "unsafe.Pointer"
  end.

End reflect.

(** The predeclared signed and unsigned integer types. *)
Inductive IntType : Set := TInt | TInt8 | TInt16 | TInt32 | TInt64.
Inductive UintType : Set := TUint | TUint8 | TUint16 | TUint32 | TUint64.

(** A floating-point number, by the bit pattern of its [float64] form (for a
    [float32] field, of the exact widening [float64(value)]). *)
Record Float : Set := mkFloat { floatBits : Z }.

(** A [time.Time] instant. *)
Record Time : Set := mkTime { unixNano : Z; zoneName : string }.

(** The value of a struct field.  [VOther typeName k] stands for a value of
    any dynamic type that the type switch of [appendRow] does not list: a
    defined type ([type Age int] has kind [Int] but is not [int]), a struct
    other than [time.Time], a map, a slice and so on; [typeName] is what
    [%T] prints.  A pointer is [VNilPointer] or [VPointer elem], [elem] the
    pointed-to value; [VOther] is never used at kind [Pointer]. *)
Inductive Value : Type :=
| VInt (t : IntType) (n : Z)
| VUint (t : UintType) (n : Z)
| VString (s : string)
| VBool (b : bool)
| VFloat32 (x : Float)
| VFloat64 (x : Float)
| VTime (t : Time)
| VNilPointer
| VPointer (elem : Value)
| VOther (typeName : string) (k : reflect.Kind).

Definition IntType_Kind (t : IntType) : reflect.Kind :=
  match t with
  | TInt => reflect.Int | TInt8 => reflect.Int8 | TInt16 => reflect.Int16
  | TInt32 => reflect.Int32 | TInt64 => reflect.Int64
  end.

Definition UintType_Kind (t : UintType) : reflect.Kind :=
  match t with
  | TUint => reflect.Uint | TUint8 => reflect.Uint8 | TUint16 => reflect.Uint16
  | TUint32 => reflect.Uint32 | TUint64 => reflect.Uint64
  end.

(** [field.Type.Kind()] and [fieldValue.Kind()]. *)
Definition Value_Kind (v : Value) : reflect.Kind :=
  match v with
  | VInt t _ => IntType_Kind t
  | VUint t _ => UintType_Kind t
  | VString _ => reflect.String
  | VBool _ => reflect.Bool
  | VFloat32 _ => reflect.Float32
  | VFloat64 _ => reflect.Float64
  | VTime _ => reflect.Struct
  | VNilPointer | VPointer _ => reflect.Pointer
  | VOther _ k => k
  end.

(** One field of a struct, as [reflect.Type.Field(i)] and
    [reflect.Value.Field(i)] give it: its name, the value of the
    [excel_header] key of its tag (empty when the tag has none), whether it
    is exported, and its value. *)
Record StructField : Type := mkField {
  Name : string;
  excel_header : string;
  IsExported : bool;
  Val : Value
}.

(** ** Records *)

(** How the method [SheetName] is declared: on the struct type, and then
    the pointer type has it too, or on the pointer type only. *)
Inductive Receiver : Set := ValueReceiver | PointerReceiver.

(** A value of the interface type [SheetModel]: the nil interface; a
    struct; a pointer to a struct ([None]: a nil pointer); a value of a
    defined type that is neither a struct nor a pointer (a defined integer
    type, a map type, ...), [k] being its kind; a pointer to such a value,
    nil or not.  [sheetName] is what the method [SheetName()] returns. *)
Inductive SheetModel : Type :=
| NilModel
| StructModel (sheetName : string) (fields : list StructField)
| PtrModel (receiver : Receiver) (sheetName : string)
    (elem : option (list StructField))
| OtherModel (sheetName : string) (k : reflect.Kind)
| PtrOtherModel (receiver : Receiver) (sheetName : string) (isNil : bool).

Definition SheetName (m : SheetModel) : string :=
  match m with
  | NilModel => ""
  | StructModel n _ | PtrModel _ n _ | OtherModel n _ | PtrOtherModel _ n _ => n
  end.

(** The call [sheetModel.SheetName()]: it panics on the nil interface, and
    on a nil pointer when the method is declared on the pointed-to type
    (the call then loads the value through the pointer). *)
Definition callSheetName (m : SheetModel) : outcome string :=
  match m with
  | NilModel => Panic
  | PtrModel ValueReceiver _ None => Panic
  | PtrOtherModel ValueReceiver _ true => Panic
  | _ => Ok (SheetName m)
  end.

(** [reflect.TypeOf(sheetModel).Kind()] of a non-nil record. *)
Definition SheetModel_Kind (m : SheetModel) : reflect.Kind :=
  match m with
  | NilModel => reflect.Invalid
  | StructModel _ _ => reflect.Struct
  | PtrModel _ _ _ | PtrOtherModel _ _ _ => reflect.Pointer
  | OtherModel _ k => k
  end.

(** ** Configuration *)

Record options : Type := mkOptions {
  timeFormatLayout : string;
  floatPrecision : Z;
  floatFmt : ascii;
  ifNullValue : string;
  sheetHeaders : list SheetModel;
  trueValue : option string;
  falseValue : option string;
  integerAsString : bool;
  headless : bool
}.

(** The type [Option] of the package is a function that updates the
    configuration it is handed. *)
Definition Option : Type := options -> options.

Definition WithTimeFormatLayout (layout : string) : Option := fun o =>
  mkOptions layout (floatPrecision o) (floatFmt o) (ifNullValue o)
    (sheetHeaders o) (trueValue o) (falseValue o) (integerAsString o) (headless o).

Definition WithFloatPrecision (precision : Z) : Option := fun o =>
  mkOptions (timeFormatLayout o) precision (floatFmt o) (ifNullValue o)
    (sheetHeaders o) (trueValue o) (falseValue o) (integerAsString o) (headless o).

Definition WithFloatFmt (fmt : ascii) : Option := fun o =>
  mkOptions (timeFormatLayout o) (floatPrecision o) fmt (ifNullValue o)
    (sheetHeaders o) (trueValue o) (falseValue o) (integerAsString o) (headless o).

Definition WithIfNullValue (value : string) : Option := fun o =>
  mkOptions (timeFormatLayout o) (floatPrecision o) (floatFmt o) value
    (sheetHeaders o) (trueValue o) (falseValue o) (integerAsString o) (headless o).

Definition WithSheetHeaders (headers : list SheetModel) : Option := fun o =>
  mkOptions (timeFormatLayout o) (floatPrecision o) (floatFmt o) (ifNullValue o)
    headers (trueValue o) (falseValue o) (integerAsString o) (headless o).

Definition WithBoolValueAs (trueValue' falseValue' : string) : Option := fun o =>
  mkOptions (timeFormatLayout o) (floatPrecision o) (floatFmt o) (ifNullValue o)
    (sheetHeaders o) (Some trueValue') (Some falseValue') (integerAsString o)
    (headless o).

Definition WithIntegerAsString : Option := fun o =>
  mkOptions (timeFormatLayout o) (floatPrecision o) (floatFmt o) (ifNullValue o)
    (sheetHeaders o) (trueValue o) (falseValue o) true (headless o).

Definition WithHeadless : Option := fun o =>
  mkOptions (timeFormatLayout o) (floatPrecision o) (floatFmt o) (ifNullValue o)
    (sheetHeaders o) (trueValue o) (falseValue o) (integerAsString o) true.

(** The [options] literal at the head of [write]; the fields it leaves out
    take Go's zero values. *)
Definition defaultOptions : options :=
  {| timeFormatLayout := "2006-01-02 15:04:05";
     floatPrecision := 2;
     floatFmt := "f"%char;
     ifNullValue := "";
     sheetHeaders := [];
     trueValue := None;
     falseValue := None;
     integerAsString := false;
     headless := false |}.

(** [for _, opt := range opts { opt(options) }]. *)
Definition applyOptions (opts : list Option) (o : options) : options :=
  fold_left (fun acc opt => opt acc) opts o.

Definition resolveOptions (opts : list Option) : options :=
  applyOptions opts defaultOptions.

(** The overrides the package exports, and when two of them set the same
    option. *)
Inductive exportedOption : Option -> Prop :=
| ex_time layout : exportedOption (WithTimeFormatLayout layout)
| ex_precision p : exportedOption (WithFloatPrecision p)
| ex_fmt c : exportedOption (WithFloatFmt c)
| ex_null v : exportedOption (WithIfNullValue v)
| ex_headers hs : exportedOption (WithSheetHeaders hs)
| ex_bool t f : exportedOption (WithBoolValueAs t f)
| ex_intstr : exportedOption WithIntegerAsString
| ex_headless : exportedOption WithHeadless.

Inductive sameOption : Option -> Option -> Prop :=
| same_time a b : sameOption (WithTimeFormatLayout a) (WithTimeFormatLayout b)
| same_precision a b : sameOption (WithFloatPrecision a) (WithFloatPrecision b)
| same_fmt a b : sameOption (WithFloatFmt a) (WithFloatFmt b)
| same_null a b : sameOption (WithIfNullValue a) (WithIfNullValue b)
| same_headers a b : sameOption (WithSheetHeaders a) (WithSheetHeaders b)
| same_bool t f t' f' : sameOption (WithBoolValueAs t f) (WithBoolValueAs t' f')
| same_intstr : sameOption WithIntegerAsString WithIntegerAsString
| same_headless : sameOption WithHeadless WithHeadless.

(** ** The sheet container

    The spreadsheet file [excelize.File] is an external collaborator of the
    package; this is a model of the contract the package relies on: an
    ordered list of sheet names, a store of cells addressed by sheet and
    cell name, look-up or creation of a sheet by name, writing one cell,
    deleting a sheet.  What [SetCellValue] receives is a [CellValue]. *)

(** What is left open of the container: its validation of a sheet name
    ([None]: accepted; the engine surfaces its errors unchanged, whatever
    they are), and the case folding of names.  The container finds a sheet
    with [strings.EqualFold], so two names are the same sheet for it
    exactly when their foldings are equal. *)
Record SheetNames : Type := mkSheetNames {
  checkSheetName : string -> error;
  foldSheetName : string -> string
}.

(** The two formatted texts stand for the strings that
    [strconv.FormatFloat(x, fmt, prec, bitSize)] and [t.Format(layout)]
    return; the formatters themselves are not modelled. *)
Inductive CellValue : Type :=
| CInt (n : Z)
| CUint (n : Z)
| CString (s : string)
| CBool (b : bool)
| CFormatFloat (x : Float) (fmt : ascii) (prec : Z) (bitSize : Z)
| CFormatTime (t : Time) (layout : string).

(** The names of the sheets as they were given when the sheets were
    created, and the cells: a cell is kept under the folding of the name of
    its sheet and its cell name, and holds the value [SetCellValue] was
    last called with for it. *)
Record File : Type := mkFile {
  sheetList : list string;
  cellStore : gmap (string * string) CellValue
}.

(** [excelize.NewFile()]: one empty sheet named [Sheet1]. *)
Definition NewFile : File := mkFile ["Sheet1"] ∅.

(** The position, counted from [i], of the first name of a list that the
    container takes for [name], or [-1]. *)
Fixpoint indexOf (sn : SheetNames) (name : string) (l : list string) (i : Z) : Z :=
  match l with
  | [] => -1
  | x :: rest =>
      if String.eqb (foldSheetName sn x) (foldSheetName sn name) then i
      else indexOf sn name rest (i + 1)
  end.

(** The cell a sheet holds at a cell name, if any; the sheet is found by
    its name as the container finds it. *)
Definition GetCell (sn : SheetNames) (f : File) (sheet cell : string)
  : option CellValue :=
  cellStore f !! (foldSheetName sn sheet, cell).

Section Engine.

Variable sn : SheetNames.

Definition GetSheetIndex (f : File) (sheet : string) : Z * error :=
  match checkSheetName sn sheet with
  | Some e => (-1, Some e)
  | None => (indexOf sn sheet (sheetList f) 0, None)
  end.

(** [f.NewSheet(sheet)]: the file afterwards, and the call's results. *)
Definition NewSheet (f : File) (sheet : string) : File * (Z * error) :=
  match checkSheetName sn sheet with
  | Some e => (f, (-1, Some e))
  | None =>
      let idx := indexOf sn sheet (sheetList f) 0 in
      if idx =? -1
      then (mkFile (sheetList f ++ [sheet]) (cellStore f),
            (Z.of_nat (length (sheetList f)), None))
      else (f, (idx, None))
  end.

(** [f.SetCellValue(sheet, cell, value)]. *)
Definition SetCellValue (f : File) (sheet cell : string) (value : CellValue)
  : File * error :=
  if indexOf sn sheet (sheetList f) 0 =? -1
  then (f, Some ("sheet " ++ sheet ++ " does not exist"))
  else (mkFile (sheetList f)
               (<[(foldSheetName sn sheet, cell) := value]> (cellStore f)),
        None).

(** [f.DeleteSheet(sheet)]: no effect on the only sheet of a file or on an
    absent one; otherwise the sheet the container takes for [sheet] goes,
    with its cells. *)
Definition DeleteSheet (f : File) (sheet : string) : File * error :=
  match checkSheetName sn sheet with
  | Some e => (f, Some e)
  | None =>
      if (length (sheetList f) =? 1)%nat || (indexOf sn sheet (sheetList f) 0 =? -1)
      then (f, None)
      else (mkFile (filter (fun n => foldSheetName sn n <> foldSheetName sn sheet)
                           (sheetList f))
                   (filter (fun kv : string * string * CellValue =>
                              kv.1.1 <> foldSheetName sn sheet)
                           (cellStore f)),
            None)
  end.

(** ** Field value conversion *)

(** The [switch fieldKind] of [appendRow] with its [goto unAddrTo]: the
    value [SetCellValue] is called with, or the error returned.  The jump
    re-enters the switch on the pointed-to value, here a recursive call. *)
Fixpoint fieldCell (opt : options) (exported : bool) (fieldValue : Value)
  : outcome CellValue :=
  match Value_Kind fieldValue with
  | reflect.Pointer =>
      match fieldValue with
      | VPointer elem => fieldCell opt exported elem
      | _ => Ok (CString (ifNullValue opt))
      end
  | reflect.Struct
  | reflect.Uint | reflect.Uint8 | reflect.Uint16 | reflect.Uint32 | reflect.Uint64
  | reflect.String | reflect.Bool
  | reflect.Int | reflect.Int8 | reflect.Int16 | reflect.Int32 | reflect.Int64
  | reflect.Float32 | reflect.Float64 =>
      if negb exported then Panic
      else
        match fieldValue with
        | VInt _ n =>
            if integerAsString opt
            then Ok (CString (strconv.FormatInt n))
            else Ok (CInt n)
        | VUint _ n =>
            if integerAsString opt
            then Ok (CString (strconv.FormatUint n))
            else Ok (CUint n)
        | VString value => Ok (CString value)
        | VBool value =>
            match trueValue opt, value with
            | Some t, true => Ok (CString t)
            | _, _ =>
                match falseValue opt, value with
                | Some f, false => Ok (CString f)
                | _, _ => Ok (CBool value)
                end
            end
        | VFloat32 value =>
            Ok (CFormatFloat value (floatFmt opt) (floatPrecision opt) 32)
        | VFloat64 value =>
            Ok (CFormatFloat value (floatFmt opt) (floatPrecision opt) 64)
        | VTime value => Ok (CFormatTime value (timeFormatLayout opt))
        | VOther typeName _ => Err ("unsupported type " ++ typeName)
        | VNilPointer | VPointer _ => Panic
        end
  | k => Err ("unsupported type " ++ reflect.Kind_String k)
  end.

(** ** Rows *)

(** The header text of a field in [appendRow]. *)
Definition headerOf (field : StructField) : string :=
  if String.eqb (excel_header field) "" then Name field else excel_header field.

(** The header loop of [appendRow], from field index [i] on. *)
Fixpoint appendHeaders (f : File) (sheetName : string) (i : Z)
  (fields : list StructField) : outcome File :=
  match fields with
  | [] => Ok f
  | field :: rest =>
      let header := headerOf field in
      let '(cellName, err) := coordinatesToCellName (i + 1) 1 in
      match err with
      | Some e => Err e
      | None =>
          match SetCellValue f sheetName cellName (CString header) with
          | (_, Some e) => Err e
          | (f', None) => appendHeaders f' sheetName (i + 1) rest
          end
      end
  end.

(** The data loop of [appendRow], from field index [i] on. *)
Fixpoint appendCells (f : File) (sheetName : string) (line : Z) (opt : options)
  (i : Z) (fields : list StructField) : outcome File :=
  match fields with
  | [] => Ok f
  | field :: rest =>
      let '(cellName, err) := coordinatesToCellName (i + 1) line in
      match err with
      | Some e => Err e
      | None =>
          match fieldCell opt (IsExported field) (Val field) with
          | Ok value =>
              match SetCellValue f sheetName cellName value with
              | (_, Some e) => Err e
              | (f', None) => appendCells f' sheetName line opt (i + 1) rest
              end
          | Err e => Err e
          | Panic => Panic
          end
      end
  end.

(** The pointer check shared by [appendRow] and [setNoDataSheetHeaders],
    and the [NumField] that follows: the fields of the struct the record is
    or points to.  A nil pointer is refused, whatever it points to.  The
    dereferenced value is asserted to be a [SheetModel], which panics when
    only the pointer type has the method; [NumField] panics on a type that
    is not a struct. *)
Definition modelFields (sheetModel : SheetModel) : outcome (list StructField) :=
  match sheetModel with
  | PtrModel ValueReceiver _ (Some fields) => Ok fields
  | PtrModel PointerReceiver _ (Some fields) => Panic
  | PtrModel _ _ None => Err "nil reference row append is not allowed"
  | PtrOtherModel _ _ true => Err "nil reference row append is not allowed"
  | PtrOtherModel _ _ false => Panic
  | StructModel _ fields => Ok fields
  | NilModel | OtherModel _ _ => Panic
  end.

(** The row the data of a record goes to: [line++], and once more past the
    header. *)
Definition dataLine (line : Z) (opt : options) : Z :=
  if (line + 1 =? 1) && negb (headless opt) then line + 1 + 1 else line + 1.

Definition appendRow (f : File) (sheetModel : SheetModel) (line : Z)
  (opt : options) : outcome File :=
  match callSheetName sheetModel with
  | Err e => Err e
  | Panic => Panic
  | Ok sheetName =>
      let '(idx, err) := GetSheetIndex f sheetName in
      match err with
      | Some e => Err e
      | None =>
          let '(f1, (_, err1)) :=
            if idx =? -1 then NewSheet f sheetName else (f, (idx, None)) in
          match err1 with
          | Some e => Err e
          | None =>
              match modelFields sheetModel with
              | Err e => Err e
              | Panic => Panic
              | Ok fields =>
                  let line := line + 1 in
                  if (line =? 1) && negb (headless opt)
                  then
                    match appendHeaders f1 sheetName 0 fields with
                    | Ok f2 => appendCells f2 sheetName (line + 1) opt 0 fields
                    | other => other
                    end
                  else appendCells f1 sheetName line opt 0 fields
              end
          end
      end
  end.

(** ** Headers of sheets without data *)

(** The field loop of [setNoDataSheetHeaders], from field index [i] on.  A
    tag equal to "-" is not empty, so the test that skips the field is made
    first and [headerOf] gives the text of the other fields. *)
Fixpoint setHeaders (f : File) (sheetName : string) (i : Z)
  (fields : list StructField) : outcome File :=
  match fields with
  | [] => Ok f
  | field :: rest =>
      if String.eqb (excel_header field) "-"
      then setHeaders f sheetName (i + 1) rest
      else
        let header := headerOf field in
        let '(cellName, err) := coordinatesToCellName (i + 1) 1 in
        match err with
        | Some e => Err e
        | None =>
            match SetCellValue f sheetName cellName (CString header) with
            | (_, Some e) => Err e
            | (f', None) => setHeaders f' sheetName (i + 1) rest
            end
        end
  end.

(** One iteration of the loop over the declared prototypes. *)
Definition setNoDataSheetHeader (f : File) (model : SheetModel) : outcome File :=
  match callSheetName model with
  | Err e => Err e
  | Panic => Panic
  | Ok sheetName =>
      let '(idx, err) := GetSheetIndex f sheetName in
      match err with
      | Some e => Err e
      | None =>
          if negb (idx =? -1) then Ok f
          else
            match NewSheet f sheetName with
            | (_, (_, Some e)) => Err e
            | (f1, (_, None)) =>
                match modelFields model with
                | Ok fields => setHeaders f1 sheetName 0 fields
                | Err e => Err e
                | Panic => Panic
                end
            end
      end
  end.

Fixpoint setNoDataSheetHeadersLoop (f : File) (models : list SheetModel)
  : outcome File :=
  match models with
  | [] => Ok f
  | model :: rest =>
      match setNoDataSheetHeader f model with
      | Ok f' => setNoDataSheetHeadersLoop f' rest
      | other => other
      end
  end.

Definition setNoDataSheetHeaders (f : File) (opt : options) : outcome File :=
  let models := sheetHeaders opt in
  if (length models =? 0)%nat then Ok f
  else setNoDataSheetHeadersLoop f models.

(** ** The run *)

(** [sheetLinesCount[sheetName]]: a missing key reads as zero. *)
Definition linesOf (sheetLinesCount : gmap string Z) (sheetName : string) : Z :=
  default 0 (sheetLinesCount !! sheetName).

(** The body of the loop of [write] over the records: the file and the line
    counter after one record. *)
Definition writeRecord (opt : options) (st : File * gmap string Z)
  (sheetModel : SheetModel) : outcome (File * gmap string Z) :=
  let '(f, sheetLinesCount) := st in
  match sheetModel with
  | NilModel => Err "nil reference row append is not allowed"
  | _ =>
      match callSheetName sheetModel with
      | Err e => Err e
      | Panic => Panic
      | Ok sheetName =>
          if String.eqb sheetName "" then Err "sheetModel must have a sheet name"
          else
            match SheetModel_Kind sheetModel with
            | reflect.Struct =>
                let l := linesOf sheetLinesCount sheetName in
                match appendRow f sheetModel l opt with
                | Err e => Err e
                | Panic => Panic
                | Ok f' =>
                    let count1 :=
                      <[sheetName := linesOf sheetLinesCount sheetName + 1]>
                        sheetLinesCount in
                    if (l =? 0) && negb (headless opt)
                    then Ok (f', <[sheetName := linesOf count1 sheetName + 1]> count1)
                    else Ok (f', count1)
                end
            | _ => Err "sheetModel must be struct"
            end
      end
  end.

Fixpoint writeLoop (opt : options) (st : File * gmap string Z)
  (sheetModels : list SheetModel) : outcome (File * gmap string Z) :=
  match sheetModels with
  | [] => Ok st
  | sheetModel :: rest =>
      match writeRecord opt st sheetModel with
      | Ok st' => writeLoop opt st' rest
      | other => other
      end
  end.

(** The two loops of [write] that look for the name [Sheet1].  They run
    after every record and every prototype had its [SheetName] called
    without a panic, so the calls are read off directly. *)
Definition containsModelSheetNameEqSheet1 (sheetModels : list SheetModel)
  (opt : options) : bool :=
  existsb (fun m => String.eqb (SheetName m) "Sheet1") sheetModels
  || existsb (fun m => String.eqb (SheetName m) "Sheet1") (sheetHeaders opt).

Definition write (sheetModels : list SheetModel) (opts : list Option)
  : outcome File :=
  let opt := resolveOptions opts in
  match writeLoop opt (NewFile, ∅) sheetModels with
  | Err e => Err e
  | Panic => Panic
  | Ok (f, _) =>
      match setNoDataSheetHeaders f opt with
      | Err e => Err e
      | Panic => Panic
      | Ok f' =>
          if negb (containsModelSheetNameEqSheet1 sheetModels opt)
          then
            match DeleteSheet f' "Sheet1" with
            | (_, Some e) => Err e
            | (f'', None) => Ok f''
            end
          else Ok f'
      end
  end.

(** A Go value of the function type [Option] is a function or nil, here
    [None].  [nonNil] gives the functions of a list of such values when
    none of them is nil. *)
Fixpoint nonNil (opts : list (option Option)) : option (list Option) :=
  match opts with
  | [] => Some []
  | None :: _ => None
  | Some opt :: rest =>
      match nonNil rest with
      | Some fs => Some (opt :: fs)
      | None => None
      end
  end.

(** [write] called with overrides some of which may be nil: the loop
    [for _, opt := range opts { opt(options) }] at its head calls each of
    them, and the call of a nil function panics, before the record loop.
    [write] above is the run on overrides that are functions. *)
Definition writeNilable (sheetModels : list SheetModel)
  (opts : list (option Option)) : outcome File :=
  match nonNil opts with
  | Some fs => write sheetModels fs
  | None => Panic
  end.

End Engine.

(** ** Notions used to state the properties *)

(** The column name [columnNumberToName] computes for a column in range. *)
Definition columnName (num : Z) : string := columnLoop (Z.to_nat num) num "".

Definition charCode (c : ascii) : Z := Z.of_N (N_of_ascii c).

Definition isUpperLetter (c : ascii) : bool :=
  (65 <=? charCode c) && (charCode c <=? 90).

Definition isDigit (c : ascii) : bool :=
  (48 <=? charCode c) && (charCode c <=? 57).

Fixpoint allChars (p : ascii -> bool) (s : string) : bool :=
  match s with
  | EmptyString => true
  | String c rest => p c && allChars p rest
  end.

(** The cell name of a coordinate. *)
Definition cellAt (col row : Z) : string := fst (coordinatesToCellName col row).

(** The common shape of the three field loops ([appendHeaders],
    [appendCells], [setHeaders]): a field is passed over when [skip] says
    so; otherwise its cell name is computed, then its cell value, and the
    cell is written. *)
Fixpoint writeFields (sn : SheetNames) (skip : StructField -> bool)
  (value : StructField -> outcome CellValue) (f : File) (sheetName : string)
  (line : Z) (i : Z) (fields : list StructField) : outcome File :=
  match fields with
  | [] => Ok f
  | field :: rest =>
      if skip field then writeFields sn skip value f sheetName line (i + 1) rest
      else
        let '(cellName, err) := coordinatesToCellName (i + 1) line in
        match err with
        | Some e => Err e
        | None =>
            match value field with
            | Ok v =>
                match SetCellValue sn f sheetName cellName v with
                | (_, Some e) => Err e
                | (f', None) =>
                    writeFields sn skip value f' sheetName line (i + 1) rest
                end
            | Err e => Err e
            | Panic => Panic
            end
        end
  end.

Definition noSkip (field : StructField) : bool := false.
Definition skipDash (field : StructField) : bool := String.eqb (excel_header field) "-".
Definition headerCell (field : StructField) : outcome CellValue :=
  Ok (CString (headerOf field)).
Definition dataCell (opt : options) (field : StructField) : outcome CellValue :=
  fieldCell opt (IsExported field) (Val field).

(** The line counter a run of the record loop ends with, read at a sheet. *)
Definition counterAfter (r : outcome (File * gmap string Z)) (sheetName : string)
  : option Z :=
  match r with
  | Ok (_, sheetLinesCount) => Some (linesOf sheetLinesCount sheetName)
  | _ => None
  end.

(** The cell a run ends with at a sheet and cell name. *)
Definition cellAfter (sn : SheetNames) (r : outcome File) (sheet cell : string)
  : option CellValue :=
  match r with
  | Ok f => GetCell sn f sheet cell
  | _ => None
  end.

(** The value of a call that returned normally, [d] otherwise. *)
Definition okOr {A : Type} (d : A) (r : outcome A) : A :=
  match r with
  | Ok a => a
  | _ => d
  end.

(** How many of the records go to a sheet. *)
Definition recordsOf (sheetName : string) (sheetModels : list SheetModel) : Z :=
  Z.of_nat (length (filter (fun m => SheetName m = sheetName) sheetModels)).

(** The lines a sheet holds once [n] records went to it. *)
Definition expectedLines (opt : options) (n : Z) : Z :=
  if n =? 0 then 0 else if headless opt then n else n + 1.

(** The sheets of a file as the container tells them apart: the foldings
    of their names; and the foldings of the sheet names of records. *)
Definition sheetKeys (sn : SheetNames) (f : File) : list string :=
  map (foldSheetName sn) (sheetList f).

Definition modelKeys (sn : SheetNames) (sheetModels : list SheetModel)
  : list string :=
  map (fun m => foldSheetName sn (SheetName m)) sheetModels.

(** The container finds a sheet under the name [sheet]. *)
Definition hasSheet (sn : SheetNames) (f : File) (sheet : string) : Prop :=
  foldSheetName sn sheet ∈ sheetKeys sn f.

(** Every cell of a file lies in one of its sheets. *)
Definition wfFile (sn : SheetNames) (f : File) : Prop :=
  forall (key cell : string) (v : CellValue),
    cellStore f !! (key, cell) = Some v -> key ∈ sheetKeys sn f.

(** The records of a list that the container sends to the sheet of [m]
    have the sheet name of [m]: none of them has a name that differs from
    it by the case of letters only. *)
Definition ownSheet (sn : SheetNames) (m : SheetModel)
  (sheetModels : list SheetModel) : Prop :=
  forall m', m' ∈ sheetModels ->
    foldSheetName sn (SheetName m') = foldSheetName sn (SheetName m) ->
    SheetName m' = SheetName m.


(** A name that the container takes for the default sheet is [Sheet1]
    itself. *)
Definition defaultByName (sn : SheetNames) (sheetName : string) : Prop :=
  foldSheetName sn sheetName = foldSheetName sn "Sheet1" -> sheetName = "Sheet1".

(** [v] at [cell] is the header of a field of [fields] that is not skipped,
    at the field's position in row 1. *)
Definition headerRowCell (fields : list StructField) (cell : string)
  (v : CellValue) : Prop :=
  exists (k : nat) (field : StructField),
    fields !! k = Some field
    /\ skipDash field = false
    /\ cell = cellAt (Z.of_nat k + 1) 1
    /\ v = CString (headerOf field).

(** The values [appendRow] converts: the predeclared integer types,
    [string], [bool], the two float types, [time.Time], and pointers to
    them at any depth, nil or not. *)
Fixpoint supportedValue (v : Value) : bool :=
  match v with
  | VInt _ _ | VUint _ _ | VString _ | VBool _
  | VFloat32 _ | VFloat64 _ | VTime _ | VNilPointer => true
  | VPointer elem => supportedValue elem
  | VOther _ _ => false
  end.

(** The value a chain of pointers ends in. *)
Fixpoint pointee (v : Value) : Value :=
  match v with
  | VPointer elem => pointee elem
  | _ => v
  end.

(** [reflect.Indirect] on a field value: the value a pointer that is not
    nil points to, the value itself when it is no pointer. *)
Definition Indirect (v : Value) : Value :=
  match v with
  | VPointer elem => elem
  | _ => v
  end.

(** How many times the switch of [appendRow] takes the branch that
    replaces the field value by [reflect.Indirect] of it and jumps back:
    once for each pointer of the chain that is not nil. *)
Fixpoint dereferences (fieldValue : Value) : nat :=
  match fieldValue with
  | VPointer elem => S (dereferences elem)
  | _ => 0
  end.

(** The fields a struct can be written with: each exported and of a
    supported type, at most as many as there are columns. *)
Definition writableFields (fields : list StructField) : Prop :=
  Z.of_nat (length fields) <= maxColumns
  /\ Forall (fun field => IsExported field = true
                          /\ supportedValue (Val field) = true) fields.

(** A record [write] accepts whatever comes before it: a struct with a
    non-empty sheet name that the container accepts, and writable fields. *)
Definition writableRecord (sn : SheetNames) (m : SheetModel) : Prop :=
  exists name fields,
    m = StructModel name fields
    /\ name <> ""
    /\ checkSheetName sn name = None
    /\ writableFields fields.

(** A prototype whose headers can be declared: a struct, or a pointer to a
    struct whose type has the method, with a sheet name that the container
    accepts and at most as many fields as there are columns. *)
Definition declarablePrototype (sn : SheetNames) (m : SheetModel) : Prop :=
  exists fields,
    modelFields m = Ok fields
    /\ checkSheetName sn (SheetName m) = None
    /\ Z.of_nat (length fields) <= maxColumns.

(** The kinds listed in the second case of the [switch fieldKind] of
    [appendRow], whose values go through the type switch. *)
Definition typeSwitchKind (k : reflect.Kind) : bool :=
  match k with
  | reflect.Struct
  | reflect.Uint | reflect.Uint8 | reflect.Uint16 | reflect.Uint32 | reflect.Uint64
  | reflect.String | reflect.Bool
  | reflect.Int | reflect.Int8 | reflect.Int16 | reflect.Int32 | reflect.Int64
  | reflect.Float32 | reflect.Float64 => true
  | _ => false
  end.

(** A column name read as a numeral in base 26 with the digits A = 1 to
    Z = 26, most significant digit first, continuing from [acc]. *)
Fixpoint columnNumber (acc : Z) (name : string) : Z :=
  match name with
  | EmptyString => acc
  | String c rest => columnNumber (acc * 26 + (charCode c - 64)) rest
  end.

(** The fields of [options], and which of them each exported override
    assigns ([WithBoolValueAs] assigns the two boolean texts together). *)
Inductive optionField : Set :=
| FTimeFormatLayout | FFloatPrecision | FFloatFmt | FIfNullValue
| FSheetHeaders | FBoolValues | FIntegerAsString | FHeadless.

Inductive setsField : Option -> optionField -> Prop :=
| sets_time layout : setsField (WithTimeFormatLayout layout) FTimeFormatLayout
| sets_precision p : setsField (WithFloatPrecision p) FFloatPrecision
| sets_fmt c : setsField (WithFloatFmt c) FFloatFmt
| sets_null v : setsField (WithIfNullValue v) FIfNullValue
| sets_headers hs : setsField (WithSheetHeaders hs) FSheetHeaders
| sets_bool t f : setsField (WithBoolValueAs t f) FBoolValues
| sets_intstr : setsField WithIntegerAsString FIntegerAsString
| sets_headless : setsField WithHeadless FHeadless.

(** Two configurations agree on an option. *)
Definition sameField (k : optionField) (a b : options) : Prop :=
  match k with
  | FTimeFormatLayout => timeFormatLayout a = timeFormatLayout b
  | FFloatPrecision => floatPrecision a = floatPrecision b
  | FFloatFmt => floatFmt a = floatFmt b
  | FIfNullValue => ifNullValue a = ifNullValue b
  | FSheetHeaders => sheetHeaders a = sheetHeaders b
  | FBoolValues => trueValue a = trueValue b /\ falseValue a = falseValue b
  | FIntegerAsString => integerAsString a = integerAsString b
  | FHeadless => headless a = headless b
  end.

(** [v] at [cell] comes from the record [m] of a run, [pre] being the
    records before it: it is the value of a field of [m] in the row of [m],
    or the header of a field in row 1 when [m] is the first record of its
    sheet and headers are written. *)
Definition recordCell (opt : options) (pre : list SheetModel) (m : SheetModel)
  (cell : string) (v : CellValue) : Prop :=
  exists (fields : list StructField) (k : nat) (field : StructField),
    modelFields m = Ok fields
    /\ fields !! k = Some field
    /\ ((cell = cellAt (Z.of_nat k + 1)
                  (recordsOf (SheetName m) pre + 1 + (if headless opt then 0 else 1))
         /\ fieldCell opt (IsExported field) (Val field) = Ok v)
        \/ (headless opt = false
            /\ recordsOf (SheetName m) pre = 0
            /\ cell = cellAt (Z.of_nat k + 1) 1
            /\ v = CString (headerOf field))).

(** ** Sample data *)

(** The case folding of the letters A to Z; on a name of ASCII characters
    it is the folding under which [strings.EqualFold] compares. *)
Definition foldLetter (c : ascii) : ascii :=
  if isUpperLetter c then ascii_of_N (N_of_ascii c + 32) else c.

Fixpoint foldAscii (s : string) : string :=
  match s with
  | EmptyString => EmptyString
  | String c rest => String (foldLetter c) (foldAscii rest)
  end.

(** A container that accepts every sheet name and folds the letters A to
    Z. *)
Definition acceptAll : SheetNames := mkSheetNames (fun _ => None) foldAscii.

(** The struct of the package documentation and one record of it whose
    [DeletedAt] is nil. *)
Definition Foo (id : Z) (name : string) (createdAt : Time) (deletedAt : Value)
  : SheetModel :=
  StructModel "foo sheet name"
    [ mkField "ID" "id" true (VInt TInt64 id);
      mkField "Name" "name" true (VString name);
      mkField "CreatedAt" "created_at" true (VTime createdAt);
      mkField "DeletedAt" "deleted_at" true deletedAt ].

Definition bar2 : SheetModel :=
  Foo 2 "Bar2" (mkTime 1704207845000000000 "Local") VNilPointer.

(** A struct with a skipped field, an untagged one and a boolean one. *)
Definition Item (code : string) (label : string) (done : bool) : SheetModel :=
  StructModel "items"
    [ mkField "Code" "-" true (VString code);
      mkField "Label" "" true (VString label);
      mkField "Done" "done" true (VBool done) ].

(** * Properties *)

(** ** Strings *)

Lemma append_cons (x : ascii) (a b : string) : String x a ++ b = String x (a ++ b).
Proof. reflexivity. Qed.

Lemma append_nil_l (b : string) : "" ++ b = b.
Proof. reflexivity. Qed.

Lemma append_assoc (a b c : string) : (a ++ b) ++ c = a ++ (b ++ c).
Proof.
  induction a as [|x a IH]; [reflexivity|].
  rewrite !append_cons. now f_equal.
Qed.

Lemma append_snoc_inj (a b : string) (x y : ascii) :
  a ++ String x "" = b ++ String y "" -> a = b /\ x = y.
Proof.
  revert b. induction a as [|c a IH]; intros [|d b];
    rewrite ?append_cons, ?append_nil_l; intros H.
  - now inversion H.
  - inversion H as [[H1 H2]]. destruct b; discriminate.
  - inversion H as [[H1 H2]]. destruct a; discriminate.
  - inversion H as [[H1 H2]]. destruct (IH _ H2) as [-> ->]. auto.
Qed.

Lemma allChars_app p a b : allChars p (a ++ b) = allChars p a && allChars p b.
Proof.
  induction a as [|c a IH]; [reflexivity|].
  rewrite append_cons. simpl. now rewrite IH, andb_assoc.
Qed.

(** ** Column names *)

Lemma quot26_bound num : 0 < num -> 0 <= Z.quot (num - 1) 26 < num.
Proof.
  intros H. rewrite Z.quot_div_nonneg by lia.
  split; [apply Z.div_pos; lia|].
  apply Z.le_lt_trans with (num - 1); [|lia].
  apply Z.div_le_upper_bound; lia.
Qed.

Lemma columnLoop_fuel (f1 f2 : nat) (num : Z) (col : string) :
  (Z.to_nat num <= f1)%nat -> (Z.to_nat num <= f2)%nat ->
  columnLoop f1 num col = columnLoop f2 num col.
Proof.
  revert f2 num col. induction f1 as [|f1 IH]; intros f2 num col H1 H2.
  - destruct f2 as [|f2]; simpl; [reflexivity|].
    destruct (0 <? num) eqn:E; [apply Z.ltb_lt in E; lia | reflexivity].
  - simpl. destruct (0 <? num) eqn:E.
    + apply Z.ltb_lt in E. destruct f2 as [|f2]; [lia|]. simpl.
      apply Z.ltb_lt in E as E'. rewrite E'.
      pose proof (quot26_bound num E). apply IH; lia.
    + destruct f2; simpl; [reflexivity | now rewrite E].
Qed.

Lemma columnLoop_acc (fuel : nat) (num : Z) (col : string) :
  columnLoop fuel num col = columnLoop fuel num "" ++ col.
Proof.
  revert num col. induction fuel as [|fuel IH]; intros num col; simpl; [reflexivity|].
  destruct (0 <? num); [|reflexivity].
  rewrite IH. rewrite (IH _ (String _ "")). now rewrite append_assoc.
Qed.

Lemma columnName_zero : columnName 0 = "".
Proof. reflexivity. Qed.

Lemma columnName_step (num : Z) :
  0 < num ->
  columnName num = columnName (Z.quot (num - 1) 26) ++ String (columnLetter num) "".
Proof.
  intros H. unfold columnName.
  destruct (Z.to_nat num) as [|fuel] eqn:E; [lia|]. simpl.
  apply Z.ltb_lt in H as H'. rewrite H'.
  rewrite columnLoop_acc. f_equal.
  pose proof (quot26_bound num H). apply columnLoop_fuel; lia.
Qed.

Lemma columnLetter_code (num : Z) :
  0 < num -> charCode (columnLetter num) = Z.rem (num - 1) 26 + 65.
Proof.
  intros H. unfold charCode, columnLetter.
  assert (0 <= Z.rem (num - 1) 26 < 26) by (apply Z.rem_bound_pos; lia).
  rewrite N_ascii_embedding by lia. lia.
Qed.

Lemma columnName_inj (n1 n2 : Z) :
  0 <= n1 -> 0 <= n2 -> columnName n1 = columnName n2 -> n1 = n2.
Proof.
  intros H1. revert n2. pattern n1. apply Zlt_0_ind; [|exact H1].
  clear n1 H1. intros n1 IH H1 n2 H2 E.
  destruct (Z.eq_dec n1 0) as [->|N1], (Z.eq_dec n2 0) as [->|N2]; [reflexivity| | |].
  - rewrite columnName_zero, (columnName_step n2) in E by lia.
    destruct (columnName _); discriminate.
  - rewrite columnName_zero, (columnName_step n1) in E by lia.
    destruct (columnName _); discriminate.
  - rewrite (columnName_step n1), (columnName_step n2) in E by lia.
    apply append_snoc_inj in E as [Eq El].
    pose proof (quot26_bound n1 ltac:(lia)). pose proof (quot26_bound n2 ltac:(lia)).
    apply IH in Eq; [|lia|lia].
    apply (f_equal charCode) in El. rewrite !columnLetter_code in El by lia.
    pose proof (Z.quot_rem' (n1 - 1) 26). pose proof (Z.quot_rem' (n2 - 1) 26). lia.
Qed.

Lemma columnName_upper (num : Z) : 0 <= num -> allChars isUpperLetter (columnName num) = true.
Proof.
  intros H. pattern num. apply Zlt_0_ind; [|exact H].
  clear num H. intros n IH H.
  destruct (Z.eq_dec n 0) as [->|N]; [reflexivity|].
  rewrite columnName_step, allChars_app by lia.
  pose proof (quot26_bound n ltac:(lia)).
  rewrite IH by lia. simpl. unfold isUpperLetter. rewrite columnLetter_code by lia.
  assert (0 <= Z.rem (n - 1) 26 < 26) by (apply Z.rem_bound_pos; lia).
  rewrite andb_true_r. apply andb_true_intro; split; apply Z.leb_le; lia.
Qed.

(** ** Decimal text *)

Lemma uint_digits (d : Decimal.uint) : allChars isDigit (NilEmpty.string_of_uint d) = true.
Proof. induction d; simpl; auto. Qed.

Lemma Itoa_digits (i : Z) : 0 <= i -> allChars isDigit (strconv.Itoa i) = true.
Proof.
  intros H. unfold strconv.Itoa. destruct i as [|p|p]; [reflexivity| |lia].
  simpl. unfold NilZero.string_of_uint.
  destruct (Pos.to_uint p) eqn:E; try (rewrite <- E; apply uint_digits).
  reflexivity.
Qed.

Lemma to_int_nonnil (i : Z) : Z.to_int i <> Decimal.Pos Decimal.Nil /\ Z.to_int i <> Decimal.Neg Decimal.Nil.
Proof.
  destruct i as [|p|p]; simpl; split; try discriminate;
    intros [= E]; exact (DecimalPos.Unsigned.to_uint_nonnil p E).
Qed.

Lemma Itoa_inj (i j : Z) : strconv.Itoa i = strconv.Itoa j -> i = j.
Proof.
  unfold strconv.Itoa. intros H. apply DecimalZ.to_int_inj.
  destruct (to_int_nonnil i) as [Hi1 Hi2], (to_int_nonnil j) as [Hj1 Hj2].
  pose proof (NilZero.isi _ Hi1 Hi2) as Ei. pose proof (NilZero.isi _ Hj1 Hj2) as Ej.
  rewrite H in Ei. congruence.
Qed.

(** ** Cell names *)

Lemma upper_not_digit (c : ascii) : isUpperLetter c = true -> isDigit c = true -> False.
Proof.
  unfold isUpperLetter, isDigit. intros H1 H2.
  apply andb_prop in H1 as [H1 _]. apply andb_prop in H2 as [_ H2].
  apply Z.leb_le in H1, H2. lia.
Qed.

Lemma letters_digits_split (a1 a2 d1 d2 : string) :
  allChars isUpperLetter a1 = true -> allChars isUpperLetter a2 = true ->
  allChars isDigit d1 = true -> allChars isDigit d2 = true ->
  a1 ++ d1 = a2 ++ d2 -> a1 = a2 /\ d1 = d2.
Proof.
  revert a2. induction a1 as [|c a1 IH]; intros [|c2 a2] U1 U2 D1 D2;
    rewrite ?append_cons, ?append_nil_l; intros E.
  - auto.
  - subst d1. simpl in D1, U2.
    apply andb_prop in D1 as [D1 _]. apply andb_prop in U2 as [U2 _].
    destruct (upper_not_digit _ U2 D1).
  - subst d2. simpl in D2, U1.
    apply andb_prop in D2 as [D2 _]. apply andb_prop in U1 as [U1 _].
    destruct (upper_not_digit _ U1 D2).
  - inversion E as [[Ec Er]]. simpl in U1, U2.
    apply andb_prop in U1 as [_ U1]. apply andb_prop in U2 as [_ U2].
    destruct (IH _ U1 U2 D1 D2 Er) as [-> ->]. auto.
Qed.

Lemma columnNumberToName_ok (num : Z) :
  1 <= num <= maxColumns -> columnNumberToName num = (columnName num, None).
Proof.
  intros [H1 H2]. unfold columnNumberToName, minColumns in *.
  destruct (num <? 1) eqn:E1; [apply Z.ltb_lt in E1; lia|].
  destruct (maxColumns <? num) eqn:E2; [apply Z.ltb_lt in E2; lia|].
  reflexivity.
Qed.

Lemma coordinatesToCellName_ok (col row : Z) :
  inDomain col row ->
  coordinatesToCellName col row = (columnName col ++ strconv.Itoa row, None).
Proof.
  intros [[C1 C2] [R1 R2]]. unfold coordinatesToCellName.
  destruct (col <? 1) eqn:E1; [apply Z.ltb_lt in E1; lia|].
  destruct (row <? 1) eqn:E2; [apply Z.ltb_lt in E2; lia|].
  destruct (totalRows <? row) eqn:E3; [apply Z.ltb_lt in E3; lia|].
  simpl. now rewrite columnNumberToName_ok.
Qed.

Lemma coordinatesToCellName_domain (col row : Z) (name : string) :
  coordinatesToCellName col row = (name, None) -> inDomain col row.
Proof.
  unfold coordinatesToCellName, columnNumberToName, inDomain, minColumns.
  destruct (col <? 1) eqn:E1; [discriminate|].
  destruct (row <? 1) eqn:E2; [discriminate|].
  destruct (totalRows <? row) eqn:E3; [discriminate|]. simpl.
  destruct (maxColumns <? col) eqn:E4; [discriminate|]. intros _.
  apply Z.ltb_ge in E1, E2, E3, E4. lia.
Qed.

Lemma coordinatesToCellName_inj (c1 r1 c2 r2 : Z) :
  inDomain c1 r1 -> inDomain c2 r2 ->
  fst (coordinatesToCellName c1 r1) = fst (coordinatesToCellName c2 r2) ->
  c1 = c2 /\ r1 = r2.
Proof.
  intros D1 D2. rewrite !coordinatesToCellName_ok by assumption. simpl. intros E.
  destruct D1 as [[? ?] [? ?]], D2 as [[? ?] [? ?]].
  apply letters_digits_split in E as [Ec Er];
    try (apply columnName_upper; lia); try (apply Itoa_digits; lia).
  split; [apply columnName_inj; [lia|lia|assumption] | now apply Itoa_inj].
Qed.

Lemma coordinatesToCellName_out (col row : Z) :
  col < 1 \/ row < 1 \/ totalRows < row ->
  exists e, coordinatesToCellName col row = ("", Some e).
Proof.
  intros H. unfold coordinatesToCellName.
  destruct (col <? 1) eqn:E1; [simpl; eauto|].
  destruct (row <? 1) eqn:E2; [simpl; eauto|].
  destruct (totalRows <? row) eqn:E3; [simpl; eauto|].
  apply Z.ltb_ge in E1, E2, E3. lia.
Qed.

(** C4: on columns 1..16384 and rows 1..1048576 the translation succeeds
    with the column letters followed by the decimal row, and it is
    injective; the letters come from the repeated 1-based remainder and
    division by 26 (1 is A, 26 is Z, 27 is AA); (1,1) is A1, (27,1) is AA1,
    (16384,1048576) succeeds, (16385,1) and (1,1048577) fail. *)
Theorem coordinate_translation_injective (c1 r1 c2 r2 : Z) :
  inDomain c1 r1 -> inDomain c2 r2 ->
  coordinatesToCellName c1 r1 = (columnName c1 ++ strconv.Itoa r1, None)
  /\ (coordinatesToCellName c1 r1 = coordinatesToCellName c2 r2 ->
      c1 = c2 /\ r1 = r2)
  /\ columnName c1
     = columnName (Z.quot (c1 - 1) 26) ++ String (columnLetter c1) ""
  /\ charCode (columnLetter c1) = Z.rem (c1 - 1) 26 + charCode "A"
  /\ columnNumberToName 1 = ("A", None)
  /\ columnNumberToName 26 = ("Z", None)
  /\ columnNumberToName 27 = ("AA", None)
  /\ coordinatesToCellName 1 1 = ("A1", None)
  /\ coordinatesToCellName 27 1 = ("AA1", None)
  /\ coordinatesToCellName 16384 1048576 = ("XFD1048576", None)
  /\ snd (coordinatesToCellName 16385 1)
     = Some "the column number must be greater than or equal to 1 and less than or equal to 16384"
  /\ snd (coordinatesToCellName 1 1048577) = Some "row number exceeds maximum limit".
Proof.
  intros D1 D2.
  split; [now apply coordinatesToCellName_ok|].
  split; [intros E; apply coordinatesToCellName_inj; [assumption..|now rewrite E]|].
  destruct D1 as [[? ?] _].
  split; [apply columnName_step; lia|].
  split; [apply columnLetter_code; lia|].
  repeat split; vm_compute; reflexivity.
Qed.

Lemma coordinate_translation_injective_witness :
  coordinatesToCellName 28 2 = (columnName 28 ++ strconv.Itoa 2, None)
  /\ (coordinatesToCellName 28 2 = coordinatesToCellName 28 2 -> 28 = 28 /\ 2 = 2)
  /\ columnName 28 = columnName (Z.quot (28 - 1) 26) ++ String (columnLetter 28) ""
  /\ coordinatesToCellName 28 2 = ("AB2", None).
Proof.
  assert (D : inDomain 28 2) by (unfold inDomain, maxColumns, totalRows; lia).
  destruct (coordinate_translation_injective 28 2 28 2 D D) as (H1 & H2 & H3 & _).
  split; [exact H1|]. split; [exact H2|]. split; [exact H3|]. reflexivity.
Defined.

(** C5: a column above 16384 with a row in range makes the translation
    return the decimal row text next to the error, not the empty string. *)
Theorem coordinate_error_keeps_row_text :
  coordinatesToCellName 16385 1
  = ("1",
     Some "the column number must be greater than or equal to 1 and less than or equal to 16384").
Proof. vm_compute. reflexivity. Qed.

(** ** Configuration *)

Lemma applyOptions_app (xs ys : list Option) (o : options) :
  applyOptions (xs ++ ys) o = applyOptions ys (applyOptions xs o).
Proof. unfold applyOptions. apply fold_left_app. Qed.

Lemma applyOptions_cons (x : Option) (xs : list Option) (o : options) :
  applyOptions (x :: xs) o = applyOptions xs (x o).
Proof. reflexivity. Qed.

Lemma sameOption_overwrites (o1 o2 : Option) (s : options) :
  sameOption o1 o2 -> o2 (o1 s) = o2 s.
Proof. intros H. destruct H; reflexivity. Qed.

Lemma sameOption_exported_agree (o1 o2 m : Option) (s s' : options) :
  sameOption o1 o2 -> exportedOption m -> o2 s = o2 s' -> o2 (m s) = o2 (m s').
Proof.
  intros H Hm E. destruct s, s'.
  destruct H; destruct Hm; cbv in E |- *; congruence.
Qed.

Lemma sameOption_agree_all (o1 o2 : Option) (mid : list Option) :
  sameOption o1 o2 -> Forall exportedOption mid ->
  forall s s', o2 s = o2 s' -> o2 (applyOptions mid s) = o2 (applyOptions mid s').
Proof.
  intros H Hmid. induction Hmid as [|m mid Hm _ IH]; intros s s' E; [exact E|].
  rewrite !applyOptions_cons. apply IH. now apply sameOption_exported_agree with o1.
Qed.

Lemma later_option_wins (pre mid post : list Option) (o1 o2 : Option) :
  sameOption o1 o2 -> Forall exportedOption mid ->
  resolveOptions (pre ++ o1 :: mid ++ o2 :: post)
  = resolveOptions (pre ++ mid ++ o2 :: post).
Proof.
  intros H Hmid. unfold resolveOptions.
  rewrite !applyOptions_app, !applyOptions_cons, !applyOptions_app, !applyOptions_cons.
  f_equal. apply sameOption_agree_all with o1; [assumption..|].
  now apply sameOption_overwrites.
Qed.

Lemma setsField_frame (o : Option) (k k' : optionField) (s : options) :
  setsField o k -> k' <> k -> sameField k' (o s) s.
Proof.
  intros H N. destruct H; destruct k'; try contradiction; simpl; auto.
Qed.

Lemma setsField_value (o : Option) (k : optionField) (s s' : options) :
  setsField o k -> sameField k (o s) (o s').
Proof. intros H. destruct H; simpl; auto. Qed.

Lemma sameField_trans (k : optionField) (a b c : options) :
  sameField k a b -> sameField k b c -> sameField k a c.
Proof. destruct k; simpl; intuition congruence. Qed.

Lemma applyOptions_frame (k : optionField) (post : list Option) (s : options) :
  Forall (fun o => exists k', setsField o k' /\ k' <> k) post ->
  sameField k (applyOptions post s) s.
Proof.
  intros Hpost. revert s. induction Hpost as [|o post (k' & Ho & N) _ IH]; intros s.
  - destruct k; simpl; auto.
  - rewrite applyOptions_cons. apply sameField_trans with (o s); [apply IH|].
    apply setsField_frame with k'; [assumption|congruence].
Qed.

(** The last override of an option decides on it, whatever comes before. *)
Lemma last_override_decides (pre post : list Option) (o : Option)
  (k : optionField) (s : options) :
  setsField o k ->
  Forall (fun o' => exists k', setsField o' k' /\ k' <> k) post ->
  sameField k (resolveOptions (pre ++ o :: post)) (o s).
Proof.
  intros Ho Hpost. unfold resolveOptions.
  rewrite applyOptions_app, applyOptions_cons.
  apply sameField_trans with (o (applyOptions pre defaultOptions)).
  - now apply applyOptions_frame.
  - now apply setsField_value.
Qed.

(** C8: the configuration starts from the defaults of [write] (time layout
    2006-01-02 15:04:05, precision 2, format f, empty null text, no boolean
    texts, native integers, headers on, no prototypes); the overrides are
    applied in the order given; each override assigns its own option the
    value it was built with and leaves the other options as they are, so
    the last override of an option decides on it and an earlier one of the
    same option has no effect; any precision and any format byte are
    stored as given and handed to the float formatter unchanged. *)
Theorem options_resolution (pre mid post : list Option) (o1 o2 : Option) :
  sameOption o1 o2 -> Forall exportedOption mid ->
  resolveOptions []
  = mkOptions "2006-01-02 15:04:05" 2 "f" "" [] None None false false
  /\ (forall opts opt, resolveOptions (opts ++ [opt]) = opt (resolveOptions opts))
  /\ resolveOptions (pre ++ o1 :: mid ++ o2 :: post)
     = resolveOptions (pre ++ mid ++ o2 :: post)
  /\ (forall opts precision fmt x,
        let opt := resolveOptions (opts ++ [WithFloatPrecision precision; WithFloatFmt fmt]) in
        floatPrecision opt = precision
        /\ floatFmt opt = fmt
        /\ fieldCell opt true (VFloat64 x) = Ok (CFormatFloat x fmt precision 64)
        /\ fieldCell opt true (VFloat32 x) = Ok (CFormatFloat x fmt precision 32))
  /\ (forall x, fieldCell (resolveOptions [WithFloatPrecision 0]) true (VFloat64 x)
                = Ok (CFormatFloat x "f" 0 64))
  /\ (forall opts,
        (forall layout,
            timeFormatLayout (resolveOptions (opts ++ [WithTimeFormatLayout layout]))
            = layout)
        /\ (forall precision,
              floatPrecision (resolveOptions (opts ++ [WithFloatPrecision precision]))
              = precision)
        /\ (forall fmt, floatFmt (resolveOptions (opts ++ [WithFloatFmt fmt])) = fmt)
        /\ (forall value,
              ifNullValue (resolveOptions (opts ++ [WithIfNullValue value])) = value)
        /\ (forall headers,
              sheetHeaders (resolveOptions (opts ++ [WithSheetHeaders headers]))
              = headers)
        /\ (forall t f,
              trueValue (resolveOptions (opts ++ [WithBoolValueAs t f])) = Some t
              /\ falseValue (resolveOptions (opts ++ [WithBoolValueAs t f])) = Some f)
        /\ integerAsString (resolveOptions (opts ++ [WithIntegerAsString])) = true
        /\ headless (resolveOptions (opts ++ [WithHeadless])) = true)
  /\ (forall o k k' s, setsField o k -> k' <> k -> sameField k' (o s) s)
  /\ (forall before after o k s,
        setsField o k ->
        Forall (fun o' => exists k', setsField o' k' /\ k' <> k) after ->
        sameField k (resolveOptions (before ++ o :: after)) (o s)).
Proof.
  intros H Hmid.
  assert (Hlast : forall opts opt, resolveOptions (opts ++ [opt]) = opt (resolveOptions opts)).
  { intros opts opt. unfold resolveOptions. now rewrite applyOptions_app. }
  split; [reflexivity|].
  split; [exact Hlast|].
  split; [now apply later_option_wins|].
  split.
  { intros opts precision fmt x opt. subst opt. unfold resolveOptions.
    rewrite applyOptions_app. simpl. auto. }
  split; [reflexivity|].
  split.
  { intros opts. repeat split; intros; rewrite Hlast; reflexivity. }
  split; [exact setsField_frame|].
  intros before after o k s. apply last_override_decides.
Qed.

Lemma options_resolution_witness :
  resolveOptions ([] ++ WithFloatPrecision 3 :: [WithHeadless] ++ WithFloatPrecision 0 :: [])
  = resolveOptions ([] ++ [WithHeadless] ++ WithFloatPrecision 0 :: []).
Proof.
  refine (proj1 (proj2 (proj2
    (options_resolution [] [WithHeadless] [] (WithFloatPrecision 3)
       (WithFloatPrecision 0) _ _)))).
  - apply same_precision.
  - repeat constructor.
Defined.

(** ** The field loops *)

Lemma appendHeaders_writeFields (sn : SheetNames) (f : File) (sheetName : string) (i : Z)
  (fields : list StructField) :
  appendHeaders sn f sheetName i fields = writeFields sn noSkip headerCell f sheetName 1 i fields.
Proof.
  revert f i. induction fields as [|field rest IH]; intros f i; simpl; [reflexivity|].
  destruct (coordinatesToCellName (i + 1) 1) as [cellName [e|]]; [reflexivity|].
  destruct (SetCellValue sn f sheetName cellName _) as [f' [e|]]; [reflexivity|]. apply IH.
Qed.

Lemma appendCells_writeFields (sn : SheetNames) (f : File) (sheetName : string) (line : Z)
  (opt : options) (i : Z) (fields : list StructField) :
  appendCells sn f sheetName line opt i fields
  = writeFields sn noSkip (dataCell opt) f sheetName line i fields.
Proof.
  revert f i. induction fields as [|field rest IH]; intros f i; simpl; [reflexivity|].
  destruct (coordinatesToCellName (i + 1) line) as [cellName [e|]]; [reflexivity|].
  unfold dataCell at 1.
  destruct (fieldCell opt _ _) as [v|e|]; [|reflexivity..].
  destruct (SetCellValue sn f sheetName cellName v) as [f' [e|]]; [reflexivity|]. apply IH.
Qed.

Lemma setHeaders_writeFields (sn : SheetNames) (f : File) (sheetName : string) (i : Z)
  (fields : list StructField) :
  setHeaders sn f sheetName i fields = writeFields sn skipDash headerCell f sheetName 1 i fields.
Proof.
  revert f i. induction fields as [|field rest IH]; intros f i; simpl; [reflexivity|].
  unfold skipDash at 1. destruct (String.eqb _ "-"); [apply IH|].
  destruct (coordinatesToCellName (i + 1) 1) as [cellName [e|]]; [reflexivity|].
  destruct (SetCellValue sn f sheetName cellName _) as [f' [e|]]; [reflexivity|]. apply IH.
Qed.

Lemma SetCellValue_ok (sn : SheetNames) (f f' : File) (sheet cell : string) (v : CellValue) :
  SetCellValue sn f sheet cell v = (f', None) ->
  f' = mkFile (sheetList f) (<[(foldSheetName sn sheet, cell) := v]> (cellStore f))
  /\ indexOf sn sheet (sheetList f) 0 <> -1.
Proof.
  unfold SetCellValue. destruct (indexOf sn sheet (sheetList f) 0 =? -1) eqn:E.
  - discriminate.
  - intros [= <-]. split; [reflexivity|]. now apply Z.eqb_neq in E.
Qed.

Section WriteFields.

Variable sn : SheetNames.
Variable skip : StructField -> bool.
Variable value : StructField -> outcome CellValue.
Variable sheetName : string.
Variable line : Z.

(** One successful iteration on a field that is not passed over. *)
Lemma writeFields_cons_inv (f f' : File) (i : Z) (field : StructField)
  (rest : list StructField) :
  writeFields sn skip value f sheetName line i (field :: rest) = Ok f' ->
  skip field = false ->
  exists v,
    value field = Ok v
    /\ inDomain (i + 1) line
    /\ indexOf sn sheetName (sheetList f) 0 <> -1
    /\ writeFields sn skip value
         (mkFile (sheetList f)
            (<[(foldSheetName sn sheetName, cellAt (i + 1) line) := v]> (cellStore f)))
         sheetName line (i + 1) rest = Ok f'.
Proof.
  simpl. intros H Hs. rewrite Hs in H. unfold cellAt.
  destruct (coordinatesToCellName (i + 1) line) as [cellName [e|]] eqn:Ec; [discriminate|].
  destruct (value field) as [v|e|]; [|discriminate..].
  destruct (SetCellValue sn f sheetName cellName v) as [f1 [e|]] eqn:Es; [discriminate|].
  apply SetCellValue_ok in Es as [-> Hi].
  exists v. repeat split; try assumption.
  all: try (apply coordinatesToCellName_domain in Ec; apply Ec).
Qed.

Lemma writeFields_sheets (fields : list StructField) (f f' : File) (i : Z) :
  writeFields sn skip value f sheetName line i fields = Ok f' ->
  sheetList f' = sheetList f.
Proof.
  revert f i. induction fields as [|field rest IH]; intros f i H.
  - now inversion H.
  - destruct (skip field) eqn:Hs.
    + simpl in H. rewrite Hs in H. now apply IH in H.
    + apply writeFields_cons_inv in H as (v & _ & _ & _ & H); [|assumption].
      now apply IH in H.
Qed.

Lemma writeFields_domain (fields : list StructField) (f f' : File) (i : Z) :
  writeFields sn skip value f sheetName line i fields = Ok f' ->
  forall (k : nat) (field : StructField),
    fields !! k = Some field -> skip field = false ->
    inDomain (i + Z.of_nat k + 1) line.
Proof.
  revert f i. induction fields as [|fld rest IH]; intros f i H k field Hk Hsk.
  - discriminate.
  - destruct k as [|k]; simpl in Hk.
    + injection Hk as ->.
      apply writeFields_cons_inv in H as (v & _ & D & _ & _); [|assumption].
      now replace (i + Z.of_nat 0 + 1) with (i + 1) by lia.
    + replace (i + Z.of_nat (S k) + 1) with ((i + 1) + Z.of_nat k + 1) by lia.
      destruct (skip fld) eqn:Hs.
      * simpl in H. rewrite Hs in H. eapply IH; eassumption.
      * apply writeFields_cons_inv in H as (v & _ & _ & _ & H); [|assumption].
        eapply IH; eassumption.
Qed.

(** A cell that no field of the loop addresses keeps its content. *)
Lemma writeFields_frame (fields : list StructField) (f f' : File) (i : Z)
  (key : string * string) :
  writeFields sn skip value f sheetName line i fields = Ok f' ->
  (forall (k : nat) (field : StructField),
      fields !! k = Some field -> skip field = false ->
      key <> (foldSheetName sn sheetName, cellAt (i + Z.of_nat k + 1) line)) ->
  cellStore f' !! key = cellStore f !! key.
Proof.
  revert f i. induction fields as [|fld rest IH]; intros f i H Hkey.
  - now inversion H.
  - assert (Hrest : forall (k : nat) (field : StructField),
               rest !! k = Some field -> skip field = false ->
               key <> (foldSheetName sn sheetName, cellAt (i + 1 + Z.of_nat k + 1) line)).
    { intros k field Hk Hsk.
      replace (i + 1 + Z.of_nat k + 1) with (i + Z.of_nat (S k) + 1) by lia.
      now apply Hkey with field. }
    destruct (skip fld) eqn:Hs.
    + simpl in H. rewrite Hs in H. now apply IH with (i + 1).
    + apply writeFields_cons_inv in H as (v & _ & _ & _ & H); [|assumption].
      rewrite (IH _ _ H Hrest). simpl.
      apply lookup_insert_ne. intros E. apply (Hkey 0%nat fld); [reflexivity|assumption|].
      rewrite <- E. now replace (i + Z.of_nat 0 + 1) with (i + 1) by lia.
Qed.

(** Every field that is not passed over has its value in its cell. *)
Lemma writeFields_written (fields : list StructField) (f f' : File) (i : Z) :
  writeFields sn skip value f sheetName line i fields = Ok f' ->
  forall (k : nat) (field : StructField),
    fields !! k = Some field -> skip field = false ->
    exists v,
      value field = Ok v
      /\ cellStore f' !! (foldSheetName sn sheetName, cellAt (i + Z.of_nat k + 1) line) = Some v.
Proof.
  revert f i. induction fields as [|fld rest IH]; intros f i H k field Hk Hsk.
  - discriminate.
  - destruct k as [|k]; simpl in Hk.
    + injection Hk as ->.
      apply writeFields_cons_inv in H as (v & Hv & D & _ & H); [|assumption].
      exists v. split; [assumption|].
      replace (i + Z.of_nat 0 + 1) with (i + 1) by lia.
      rewrite (writeFields_frame _ _ _ _ _ H).
      * simpl. apply lookup_insert_eq.
      * intros k fld' Hk' Hs' [= E].
        pose proof (writeFields_domain _ _ _ _ H k fld' Hk' Hs') as D'.
        apply coordinatesToCellName_inj in E as [E _]; [lia|assumption..].
    + replace (i + Z.of_nat (S k) + 1) with ((i + 1) + Z.of_nat k + 1) by lia.
      destruct (skip fld) eqn:Hs.
      * simpl in H. rewrite Hs in H. eapply IH; eassumption.
      * apply writeFields_cons_inv in H as (v & _ & _ & _ & H); [|assumption].
        eapply IH; eassumption.
Qed.

End WriteFields.

(** ** One record *)

Lemma callSheetName_ok (m : SheetModel) (n : string) :
  callSheetName m = Ok n -> n = SheetName m.
Proof.
  destruct m as [|n0 fields|[] n0 [fields|]|n0 k|[] n0 []]; simpl; congruence.
Qed.

Lemma indexOf_ge (sn : SheetNames) (name : string) (l : list string) (i : Z) :
  indexOf sn name l i = -1 \/ i <= indexOf sn name l i.
Proof.
  revert i. induction l as [|x l IH]; intros i; simpl; [now left|].
  destruct (String.eqb _ _); [right; lia|].
  destruct (IH (i + 1)); [now left | right; lia].
Qed.

Lemma indexOf_absent (sn : SheetNames) (name : string) (l : list string) (i : Z) :
  0 <= i ->
  (indexOf sn name l i = -1
   <-> foldSheetName sn name ∉ map (foldSheetName sn) l).
Proof.
  revert i. induction l as [|x l IH]; intros i Hi; simpl.
  - split; [intros _; apply not_elem_of_nil | reflexivity].
  - destruct (String.eqb_spec (foldSheetName sn x) (foldSheetName sn name)) as [E|N].
    + split; [lia | intros H; exfalso; apply H; rewrite E; left].
    + rewrite IH by lia. rewrite not_elem_of_cons. intuition congruence.
Qed.

Lemma indexOf_present (sn : SheetNames) (f : File) (name : string) :
  indexOf sn name (sheetList f) 0 <> -1 <-> hasSheet sn f name.
Proof.
  unfold hasSheet, sheetKeys.
  pose proof (indexOf_absent sn name (sheetList f) 0 ltac:(lia)) as H.
  destruct (decide (foldSheetName sn name ∈ map (foldSheetName sn) (sheetList f)));
    intuition.
Qed.

Lemma sheetKeys_new_sheet (sn : SheetNames) (f : File) (sheet key : string) :
  key ∈ sheetKeys sn (mkFile (sheetList f ++ [sheet]) (cellStore f))
  <-> key ∈ sheetKeys sn f \/ key = foldSheetName sn sheet.
Proof.
  unfold sheetKeys. simpl. rewrite map_app, elem_of_app. simpl.
  now rewrite list_elem_of_singleton.
Qed.

Section AppendRow.

Variable sn : SheetNames.

(** The sheet list once [sheet] has been looked up and created if absent. *)
Lemma NewSheet_ok (f f1 : File) (sheet : string) (idx : Z) :
  NewSheet sn f sheet = (f1, (idx, None)) ->
  indexOf sn sheet (sheetList f) 0 = -1 ->
  f1 = mkFile (sheetList f ++ [sheet])%list (cellStore f).
Proof.
  unfold NewSheet. destruct (checkSheetName sn sheet); [discriminate|].
  intros H E. rewrite E in H. simpl in H. now inversion H.
Qed.

(** What a successful [appendRow] did, step by step. *)
Lemma appendRow_inv (f f' : File) (sheetModel : SheetModel) (line : Z) (opt : options) :
  appendRow sn f sheetModel line opt = Ok f' ->
  exists (fields : list StructField) (f1 : File),
    modelFields sheetModel = Ok fields
    /\ checkSheetName sn (SheetName sheetModel) = None
    /\ cellStore f1 = cellStore f
    /\ sheetList f1
       = (if indexOf sn (SheetName sheetModel) (sheetList f) 0 =? -1
          then (sheetList f ++ [SheetName sheetModel])%list else sheetList f)
    /\ (if (line + 1 =? 1) && negb (headless opt)
        then exists f2,
            writeFields sn noSkip headerCell f1 (SheetName sheetModel) 1 0 fields = Ok f2
            /\ writeFields sn noSkip (dataCell opt) f2 (SheetName sheetModel)
                 (line + 1 + 1) 0 fields = Ok f'
        else writeFields sn noSkip (dataCell opt) f1 (SheetName sheetModel)
               (line + 1) 0 fields = Ok f').
Proof.
  intros Hstep. set (name := SheetName sheetModel).
  unfold appendRow in Hstep.
  destruct (callSheetName sheetModel) as [n|e|] eqn:Ecall; [|discriminate..].
  apply callSheetName_ok in Ecall. fold name in Ecall. subst n.
  unfold GetSheetIndex in Hstep.
  destruct (checkSheetName sn name) as [e|] eqn:Ec; [discriminate|].
  destruct (indexOf sn name (sheetList f) 0 =? -1) eqn:Ei.
  - destruct (NewSheet sn f name) as [f1 [idx [e|]]] eqn:En; [discriminate|].
    apply Z.eqb_eq in Ei. apply NewSheet_ok in En; [|assumption]. subst f1.
    destruct (modelFields sheetModel) as [fields|e|]; [|discriminate..].
    exists fields, (mkFile (sheetList f ++ [name])%list (cellStore f)).
    repeat split.
    destruct ((line + 1 =? 1) && negb (headless opt)).
    + rewrite appendHeaders_writeFields in Hstep.
      destruct (writeFields sn noSkip headerCell _ name 1 0 fields) as [f2|e|] eqn:Eh;
        [|discriminate..].
      exists f2. split; [reflexivity|]. now rewrite <- appendCells_writeFields.
    + now rewrite <- appendCells_writeFields.
  - destruct (modelFields sheetModel) as [fields|e|]; [|discriminate..].
    exists fields, f. repeat split.
    destruct ((line + 1 =? 1) && negb (headless opt)).
    + rewrite appendHeaders_writeFields in Hstep.
      destruct (writeFields sn noSkip headerCell _ name 1 0 fields) as [f2|e|] eqn:Eh;
        [|discriminate..].
      exists f2. split; [reflexivity|]. now rewrite <- appendCells_writeFields.
    + now rewrite <- appendCells_writeFields.
Qed.

(** After [appendRow], the sheet of the record exists and no other sheet
    was added. *)
Lemma appendRow_sheets (f f' : File) (sheetModel : SheetModel) (line : Z) (opt : options) :
  appendRow sn f sheetModel line opt = Ok f' ->
  sheetList f'
  = (if indexOf sn (SheetName sheetModel) (sheetList f) 0 =? -1
     then (sheetList f ++ [SheetName sheetModel])%list else sheetList f).
Proof.
  intros H. apply appendRow_inv in H as (fields & f1 & _ & _ & _ & Hs & H).
  rewrite <- Hs. destruct ((line + 1 =? 1) && negb (headless opt)).
  - destruct H as (f2 & H1 & H2).
    apply writeFields_sheets in H1, H2. congruence.
  - now apply writeFields_sheets in H.
Qed.

(** The data row: every field's converted value is in the cell of the
    field's position, on the line [dataLine] names. *)
Lemma appendRow_cells (f f' : File) (sheetModel : SheetModel) (line : Z) (opt : options) :
  appendRow sn f sheetModel line opt = Ok f' ->
  exists fields,
    modelFields sheetModel = Ok fields
    /\ forall (k : nat) (field : StructField),
        fields !! k = Some field ->
        exists v,
          fieldCell opt (IsExported field) (Val field) = Ok v
          /\ GetCell sn f' (SheetName sheetModel)
               (cellAt (Z.of_nat k + 1) (dataLine line opt)) = Some v.
Proof.
  intros H. apply appendRow_inv in H as (fields & f1 & Hm & _ & _ & _ & H).
  exists fields. split; [assumption|]. intros k field Hk.
  unfold dataLine, GetCell. destruct ((line + 1 =? 1) && negb (headless opt)).
  - destruct H as (f2 & _ & H).
    apply (writeFields_written _ _ _ _ _ _ _ _ _ H k field Hk eq_refl).
  - apply (writeFields_written _ _ _ _ _ _ _ _ _ H k field Hk eq_refl).
Qed.

(** The header row of a sheet's first record, unless headers are
    suppressed. *)
Lemma appendRow_header_cells (f f' : File) (sheetModel : SheetModel) (opt : options) :
  appendRow sn f sheetModel 0 opt = Ok f' ->
  headless opt = false ->
  exists fields,
    modelFields sheetModel = Ok fields
    /\ forall (k : nat) (field : StructField),
        fields !! k = Some field ->
        GetCell sn f' (SheetName sheetModel) (cellAt (Z.of_nat k + 1) 1)
        = Some (CString (headerOf field)).
Proof.
  intros H Hh. apply appendRow_inv in H as (fields & f1 & Hm & _ & _ & _ & H).
  exists fields. split; [assumption|]. intros k field Hk.
  rewrite Hh in H. simpl in H. destruct H as (f2 & H1 & H2).
  unfold GetCell. rewrite (writeFields_frame _ _ _ _ _ _ _ _ _ _ H2).
  - destruct (writeFields_written _ _ _ _ _ _ _ _ _ H1 k field Hk eq_refl) as (v & [= <-] & Hv).
    exact Hv.
  - intros k' field' Hk' _ [= E].
    pose proof (writeFields_domain _ _ _ _ _ _ _ _ _ H1 k field Hk eq_refl) as D1.
    pose proof (writeFields_domain _ _ _ _ _ _ _ _ _ H2 k' field' Hk' eq_refl) as D2.
    apply coordinatesToCellName_inj in E as [_ E]; [lia|assumption..].
Qed.

(** Cells of other sheets are not touched. *)
Lemma appendRow_other_sheet (f f' : File) (sheetModel : SheetModel) (line : Z)
  (opt : options) (sheet cell : string) :
  appendRow sn f sheetModel line opt = Ok f' ->
  foldSheetName sn sheet <> foldSheetName sn (SheetName sheetModel) ->
  GetCell sn f' sheet cell = GetCell sn f sheet cell.
Proof.
  intros H N. apply appendRow_inv in H as (fields & f1 & _ & _ & Hc & _ & H).
  unfold GetCell. rewrite <- Hc.
  destruct ((line + 1 =? 1) && negb (headless opt)).
  - destruct H as (f2 & H1 & H2).
    rewrite (writeFields_frame _ _ _ _ _ _ _ _ _ _ H2), (writeFields_frame _ _ _ _ _ _ _ _ _ _ H1);
      [reflexivity|intros ? ? _ _ [= E _]; contradiction..].
  - rewrite (writeFields_frame _ _ _ _ _ _ _ _ _ _ H);
      [reflexivity|intros ? ? _ _ [= E _]; contradiction].
Qed.

End AppendRow.

Lemma fieldCell_pointee (opt : options) (exported : bool) (v : Value) :
  fieldCell opt exported v = fieldCell opt exported (pointee v).
Proof.
  induction v as [t n|t n|s|b|x|x|t| |elem IH|typeName k]; try reflexivity.
  exact IH.
Qed.

Lemma pointee_dereferences (v : Value) :
  pointee v = Nat.iter (dereferences v) Indirect v.
Proof.
  induction v as [t n|t n|s|b|x|x|t| |elem IH|typeName k]; try reflexivity.
  simpl dereferences. rewrite Nat.iter_succ_r. exact IH.
Qed.

Lemma pointee_no_pointer (v : Value) (elem : Value) : pointee v <> VPointer elem.
Proof.
  induction v as [t n|t n|s|b|x|x|t| |e IH|typeName k]; try discriminate. exact IH.
Qed.

(** C6 (as amended): a nil pointer field puts the configured null text
    (empty by default, the text of the last [WithIfNullValue]) in the cell at the
    field's coordinate; a pointer that is not nil is dereferenced and the
    switch is entered again, once for each pointer of the chain, until a
    value that is no pointer or a nil pointer is reached: the cell holds
    the null text when the chain ends in a nil pointer, and otherwise what
    a field holding the final value directly would give. *)
Theorem pointer_field_cell (sn : SheetNames) (f f' : File)
  (sheetModel : SheetModel) (line : Z) (opt : options)
  (fields : list StructField) (k : nat) (field : StructField) :
  appendRow sn f sheetModel line opt = Ok f' ->
  modelFields sheetModel = Ok fields ->
  fields !! k = Some field ->
  let cell :=
    GetCell sn f' (SheetName sheetModel) (cellAt (Z.of_nat k + 1) (dataLine line opt)) in
  (Val field = VNilPointer -> cell = Some (CString (ifNullValue opt)))
  /\ (forall elem, Val field = VPointer elem ->
        exists v, fieldCell opt (IsExported field) elem = Ok v /\ cell = Some v)
  /\ (exists v,
        fieldCell opt (IsExported field) (pointee (Val field)) = Ok v /\ cell = Some v)
  /\ (pointee (Val field) = VNilPointer -> cell = Some (CString (ifNullValue opt)))
  /\ (forall v : Value,
        pointee v = Nat.iter (dereferences v) Indirect v
        /\ forall elem, pointee v <> VPointer elem)
  /\ (forall exported elem,
        fieldCell opt exported (VPointer elem) = fieldCell opt exported elem)
  /\ (forall exported,
        fieldCell opt exported VNilPointer = Ok (CString (ifNullValue opt)))
  /\ (forall opts value,
        ifNullValue (resolveOptions (opts ++ [WithIfNullValue value])) = value)
  /\ ifNullValue (resolveOptions []) = ""
  /\ ifNullValue (resolveOptions [WithIfNullValue "-"]) = "-".
Proof.
  intros H Hm Hk cell.
  destruct (appendRow_cells _ _ _ _ _ _ H) as (fields' & Hm' & Hcells).
  rewrite Hm in Hm'. injection Hm' as <-.
  destruct (Hcells k field Hk) as (v & Hv & Hc). fold cell in Hc.
  split.
  { intros E. rewrite E in Hv. simpl in Hv. congruence. }
  split.
  { intros elem E. rewrite E in Hv. simpl in Hv. eauto. }
  split.
  { exists v. split; [now rewrite <- fieldCell_pointee|assumption]. }
  split.
  { intros E. rewrite fieldCell_pointee, E in Hv. simpl in Hv. congruence. }
  split.
  { intros v0. split; [apply pointee_dereferences|intros elem; apply pointee_no_pointer]. }
  split; [reflexivity|]. split; [reflexivity|].
  split.
  { intros opts value. unfold resolveOptions, applyOptions.
    rewrite fold_left_app. reflexivity. }
  split; reflexivity.
Qed.

(** C6 as stated fails: a field that is a pointer to a pointer to an
    [int64] is dereferenced twice, not once, before its value is written. *)
Lemma pointer_field_counterexample :
  let v := VPointer (VPointer (VInt TInt64 5)) in
  dereferences v = 2%nat
  /\ Indirect v = VPointer (VInt TInt64 5)
  /\ cellAfter acceptAll
       (appendRow acceptAll NewFile (Foo 1 "n" (mkTime 0 "UTC") v) 0 (resolveOptions []))
       "foo sheet name" "D2"
     = Some (CInt 5).
Proof. repeat split; vm_compute; reflexivity. Qed.

Lemma pointer_field_cell_witness :
  cellAfter acceptAll (appendRow acceptAll NewFile bar2 0 (resolveOptions [WithIfNullValue "-"]))
    "foo sheet name" "D2"
  = Some (CString "-").
Proof.
  destruct (appendRow acceptAll NewFile bar2 0 (resolveOptions [WithIfNullValue "-"]))
    as [f'| |] eqn:E; [|vm_compute in E; discriminate..].
  exact (proj1 (pointer_field_cell acceptAll NewFile f' bar2 0
                  (resolveOptions [WithIfNullValue "-"]) _ 3%nat _ E eq_refl eq_refl)
               eq_refl).
Defined.

(** C7: with both boolean texts configured ([WithBoolValueAs]) the cell of
    a boolean field holds the text matching its value; with none configured
    it holds the boolean itself. *)
Theorem bool_field_cell (sn : SheetNames) (f f' : File)
  (sheetModel : SheetModel) (line : Z) (opt : options)
  (fields : list StructField) (k : nat) (field : StructField) (value : bool) :
  appendRow sn f sheetModel line opt = Ok f' ->
  modelFields sheetModel = Ok fields ->
  fields !! k = Some field ->
  Val field = VBool value ->
  let cell :=
    GetCell sn f' (SheetName sheetModel) (cellAt (Z.of_nat k + 1) (dataLine line opt)) in
  (forall t fl, trueValue opt = Some t -> falseValue opt = Some fl ->
     cell = Some (CString (if value then t else fl)))
  /\ (trueValue opt = None -> falseValue opt = None -> cell = Some (CBool value))
  /\ (forall opts t fl,
        let opt' := resolveOptions (opts ++ [WithBoolValueAs t fl]) in
        trueValue opt' = Some t /\ falseValue opt' = Some fl
        /\ fieldCell opt' true (VBool true) = Ok (CString t)
        /\ fieldCell opt' true (VBool false) = Ok (CString fl))
  /\ fieldCell (resolveOptions [WithBoolValueAs "是" "否"]) true (VBool true)
     = Ok (CString "是")
  /\ (forall b, fieldCell (resolveOptions []) true (VBool b) = Ok (CBool b)).
Proof.
  intros H Hm Hk Hv cell.
  destruct (appendRow_cells _ _ _ _ _ _ H) as (fields' & Hm' & Hcells).
  rewrite Hm in Hm'. injection Hm' as <-.
  destruct (Hcells k field Hk) as (v & Hc & Hcell). fold cell in Hcell.
  rewrite Hv in Hc. simpl in Hc.
  destruct (IsExported field); [simpl in Hc|discriminate].
  split.
  { intros t fl Et Ef. rewrite Et, Ef in Hc. destruct value; congruence. }
  split.
  { intros Et Ef. rewrite Et, Ef in Hc. destruct value; congruence. }
  split.
  { intros opts t fl opt'. subst opt'. unfold resolveOptions.
    rewrite applyOptions_app. simpl. auto. }
  split; [reflexivity|]. intros []; reflexivity.
Qed.

Lemma bool_field_cell_witness :
  cellAfter acceptAll (appendRow acceptAll NewFile (Item "c" "l" true) 0
               (resolveOptions [WithBoolValueAs "是" "否"]))
    "items" "C2"
  = Some (CString "是").
Proof.
  destruct (appendRow acceptAll NewFile (Item "c" "l" true) 0
              (resolveOptions [WithBoolValueAs "是" "否"]))
    as [f'| |] eqn:E; [|vm_compute in E; discriminate..].
  exact (proj1 (bool_field_cell acceptAll NewFile f' (Item "c" "l" true) 0
                  (resolveOptions [WithBoolValueAs "是" "否"]) _ 2%nat _ true
                  E eq_refl eq_refl eq_refl)
               "是" "否" eq_refl eq_refl).
Defined.

(** ** The record loop *)

Section WriteLoop.

Variable sn : SheetNames.
Variable opt : options.

Lemma writeLoop_app (pre rest : list SheetModel) (st : File * gmap string Z) :
  writeLoop sn opt st (pre ++ rest)
  = match writeLoop sn opt st pre with
    | Ok st' => writeLoop sn opt st' rest
    | other => other
    end.
Proof.
  revert st. induction pre as [|m pre IH]; intros st; simpl; [reflexivity|].
  destruct (writeRecord sn opt st m); [apply IH|reflexivity..].
Qed.

Lemma linesOf_insert (cnt : gmap string Z) (name name' : string) (n : Z) :
  linesOf (<[name := n]> cnt) name' = if decide (name = name') then n else linesOf cnt name'.
Proof. unfold linesOf. rewrite lookup_insert. now destruct (decide (name = name')). Qed.

(** A record the loop accepts is a struct with a sheet name, and the loop
    called [appendRow] on it with the sheet's line count. *)
Lemma writeRecord_inv (f f' : File) (cnt cnt' : gmap string Z) (sheetModel : SheetModel) :
  writeRecord sn opt (f, cnt) sheetModel = Ok (f', cnt') ->
  let name := SheetName sheetModel in
  let l := linesOf cnt name in
  (exists fields, sheetModel = StructModel name fields)
  /\ name <> ""
  /\ appendRow sn f sheetModel l opt = Ok f'
  /\ cnt' = <[name := l + 1 + (if (l =? 0) && negb (headless opt) then 1 else 0)]> cnt.
Proof.
  intros H name l. subst name l. unfold writeRecord in H.
  destruct sheetModel as [|n fields|r n elem|n k|r n b]; [discriminate| | | |].
  - cbn [callSheetName SheetName SheetModel_Kind] in *.
    destruct (String.eqb_spec n "") as [->|N]; [discriminate|].
    destruct (appendRow sn f (StructModel n fields) (linesOf cnt n) opt)
      as [f1|e|]; [|discriminate..].
    split; [eauto|]. split; [assumption|].
    destruct ((linesOf cnt n =? 0) && negb (headless opt)); injection H as <- <-.
    + rewrite linesOf_insert.
      destruct (decide (n = n)); [|congruence].
      rewrite insert_insert_eq. split; [reflexivity|]. f_equal; lia.
    + split; [reflexivity|]. f_equal; lia.
  - destruct r, elem; cbn [callSheetName SheetName SheetModel_Kind] in H;
      try discriminate; destruct (String.eqb n ""); discriminate.
  - cbn [callSheetName SheetName SheetModel_Kind] in H.
    destruct (String.eqb n ""); [discriminate|].
    destruct k; try discriminate.
    destruct (appendRow sn f (OtherModel n reflect.Struct) _ opt)
      as [f1|e|] eqn:E; [|discriminate..].
    apply appendRow_inv in E as (fields & _ & Hm & _). discriminate.
  - destruct r, b; cbn [callSheetName SheetName SheetModel_Kind] in H;
      try discriminate; destruct (String.eqb n ""); discriminate.
Qed.

Lemma recordsOf_snoc (name : string) (done : list SheetModel) (m : SheetModel) :
  recordsOf name (done ++ [m])
  = recordsOf name done + (if decide (SheetName m = name) then 1 else 0).
Proof.
  unfold recordsOf. rewrite filter_app, length_app, Nat2Z.inj_add. f_equal.
  rewrite filter_cons, filter_nil. now destruct (decide (SheetName m = name)).
Qed.

Lemma recordsOf_nonneg (name : string) (ms : list SheetModel) : 0 <= recordsOf name ms.
Proof. unfold recordsOf. lia. Qed.

(** The counter of every sheet after the loop: one line per record, and one
    for the header when there is a record and headers are written. *)
Lemma writeLoop_counter (rest done : list SheetModel) (st st' : File * gmap string Z) :
  writeLoop sn opt st rest = Ok st' ->
  (forall name, linesOf st.2 name = expectedLines opt (recordsOf name done)) ->
  forall name, linesOf st'.2 name = expectedLines opt (recordsOf name (done ++ rest)).
Proof.
  revert done st. induction rest as [|m rest IH]; intros done st H Inv name.
  - injection H as <-. now rewrite app_nil_r.
  - simpl in H. destruct (writeRecord sn opt st m) as [st1|e|] eqn:E;
      [|discriminate..].
    replace (done ++ m :: rest)%list with ((done ++ [m]) ++ rest)%list
      by now rewrite <- app_assoc.
    apply (IH _ _ H). clear name. intros name.
    destruct st as [f cnt], st1 as [f1 cnt1].
    apply writeRecord_inv in E as (_ & _ & _ & ->). simpl in *.
    rewrite linesOf_insert, recordsOf_snoc.
    destruct (decide (SheetName m = name)) as [->|N]; [|now rewrite Z.add_0_r].
    rewrite Inv. unfold expectedLines.
    pose proof (recordsOf_nonneg name done).
    destruct (recordsOf name done =? 0) eqn:E0.
    + apply Z.eqb_eq in E0. rewrite E0. simpl. now destruct (headless opt).
    + apply Z.eqb_neq in E0.
      destruct (recordsOf name done + 1 =? 0) eqn:E1; [apply Z.eqb_eq in E1; lia|].
      destruct (headless opt).
      * destruct (recordsOf name done =? 0) eqn:E2; [apply Z.eqb_eq in E2; lia|].
        simpl. lia.
      * destruct (recordsOf name done + 1 =? 0) eqn:E2; [apply Z.eqb_eq in E2; lia|].
        simpl. lia.
Qed.

Lemma linesOf_empty (name : string) : linesOf ∅ name = 0.
Proof. reflexivity. Qed.

Lemma writeLoop_structs (ms : list SheetModel) (st st' : File * gmap string Z) :
  writeLoop sn opt st ms = Ok st' ->
  forall m, m ∈ ms -> exists name fields, m = StructModel name fields.
Proof.
  revert st. induction ms as [|m0 ms IH]; intros st H m Hin.
  - now apply elem_of_nil in Hin.
  - simpl in H. destruct (writeRecord sn opt st m0) as [st1|e|] eqn:E;
      [|discriminate..].
    apply elem_of_cons in Hin as [->|Hin]; [|now apply (IH _ H)].
    destruct st as [f cnt], st1 as [f1 cnt1].
    apply writeRecord_inv in E as ((fields & E) & _). eauto.
Qed.

Lemma writeRecord_pointer (st : File * gmap string Z) (m : SheetModel)
  (sheetName : string) :
  SheetModel_Kind m = reflect.Pointer ->
  callSheetName m = Ok sheetName ->
  writeRecord sn opt st m
  = Err (if String.eqb sheetName ""
         then "sheetModel must have a sheet name"
         else "sheetModel must be struct").
Proof.
  destruct st as [f cnt]. intros Hk Hn. unfold writeRecord.
  destruct m as [|n fields|r n elem|n k|r n b]; [discriminate|discriminate| | |];
    rewrite Hn; cbn [SheetModel_Kind] in *;
    destruct (String.eqb sheetName ""); try reflexivity.
  now rewrite Hk.
Qed.

End WriteLoop.

(** C3 (as amended): the line counter starts empty; a processed record adds
    one to the entry of its sheet, and one more when it is the first record
    of the sheet and headers are not suppressed; its data row is the row
    after the counter, or the second row after it (row 2, below the header)
    in that first case; afterwards the counter equals the row just written,
    so the data rows of a sheet follow one another. *)
Theorem line_counter_rule (sn : SheetNames) (opt : options)
  (done : list SheetModel) (sheetModel : SheetModel)
  (st st' : File * gmap string Z) :
  writeLoop sn opt (NewFile, ∅) done = Ok st ->
  writeRecord sn opt st sheetModel = Ok st' ->
  let name := SheetName sheetModel in
  let l := linesOf st.2 name in
  let first := (l =? 0) && negb (headless opt) in
  (forall s, linesOf ∅ s = 0)
  /\ l = expectedLines opt (recordsOf name done)
  /\ st'.2 = <[name := l + 1 + (if first then 1 else 0)]> st.2
  /\ dataLine l opt = (if first then l + 2 else l + 1)
  /\ linesOf st'.2 name = dataLine l opt
  /\ (exists fields,
        modelFields sheetModel = Ok fields
        /\ (forall (k : nat) (field : StructField),
              fields !! k = Some field ->
              exists v,
                fieldCell opt (IsExported field) (Val field) = Ok v
                /\ GetCell sn st'.1 name (cellAt (Z.of_nat k + 1) (dataLine l opt)) = Some v)
        /\ (first = true ->
            forall (k : nat) (field : StructField),
              fields !! k = Some field ->
              GetCell sn st'.1 name (cellAt (Z.of_nat k + 1) 1)
              = Some (CString (headerOf field)))).
Proof.
  intros Hdone Hrec name l first.
  destruct st as [f cnt], st' as [f' cnt'].
  pose proof (writeLoop_counter _ _ _ [] _ _ Hdone (fun s => eq_refl) name) as Hl.
  simpl in Hl. fold l in Hl.
  apply writeRecord_inv in Hrec as (_ & _ & Hrow & Hcnt). simpl in *.
  fold name l first in Hrow, Hcnt.
  split; [reflexivity|]. split; [exact Hl|]. split; [exact Hcnt|].
  assert (Hline : dataLine l opt = (if first then l + 2 else l + 1)).
  { unfold dataLine, first. replace (l + 1 =? 1) with (l =? 0).
    - destruct ((l =? 0) && negb (headless opt)); lia.
    - destruct (l =? 0) eqn:E0.
      + apply Z.eqb_eq in E0. subst l. now rewrite E0.
      + apply Z.eqb_neq in E0. symmetry. apply Z.eqb_neq. lia. }
  split; [exact Hline|].
  split.
  { rewrite Hcnt, linesOf_insert, Hline.
    destruct (decide (name = name)); [|congruence]. destruct first; lia. }
  destruct (appendRow_cells _ _ _ _ _ _ Hrow) as (fields & Hm & Hcells).
  exists fields. split; [assumption|]. split; [exact Hcells|].
  intros Hfirst k field Hk. unfold first in Hfirst.
  apply andb_prop in Hfirst as [E0 Eh]. apply Z.eqb_eq in E0.
  apply negb_true_iff in Eh. rewrite E0 in Hrow.
  destruct (appendRow_header_cells _ _ _ _ _ Hrow Eh) as (fields' & Hm' & Hhead).
  rewrite Hm in Hm'. injection Hm' as <-. now apply Hhead.
Qed.

Lemma line_counter_rule_witness :
  let st := okOr (NewFile, ∅) (writeLoop acceptAll defaultOptions (NewFile, ∅) [bar2]) in
  let st' := okOr (NewFile, ∅) (writeRecord acceptAll defaultOptions st bar2) in
  linesOf st'.2 "foo sheet name" = 3.
Proof.
  intros st st'.
  assert (H1 : writeLoop acceptAll defaultOptions (NewFile, ∅) [bar2] = Ok st)
    by (vm_compute; reflexivity).
  assert (H2 : writeRecord acceptAll defaultOptions st bar2 = Ok st')
    by (vm_compute; reflexivity).
  destruct (line_counter_rule acceptAll defaultOptions [bar2] bar2 st st' H1 H2)
    as (_ & _ & _ & _ & H & _).
  simpl in H. rewrite H. vm_compute. reflexivity.
Defined.

(** C3 as stated fails: with headers suppressed the first record of a sheet
    adds one line, not two; with headers written its data is in row 2 while
    the counter it was processed at is 0. *)
Lemma line_counter_counterexample :
  counterAfter (writeLoop acceptAll (resolveOptions [WithHeadless]) (NewFile, ∅) [bar2])
    "foo sheet name" = Some 1
  /\ counterAfter (writeLoop acceptAll (resolveOptions []) (NewFile, ∅) [])
       "foo sheet name" = Some 0
  /\ cellAfter acceptAll (appendRow acceptAll NewFile bar2 0 (resolveOptions []))
       "foo sheet name" "A1" = Some (CString "id")
  /\ cellAfter acceptAll (appendRow acceptAll NewFile bar2 0 (resolveOptions []))
       "foo sheet name" "A2" = Some (CInt 2).
Proof. repeat split; vm_compute; reflexivity. Qed.

(** C9 (as amended): a record of pointer kind with a non-empty sheet name
    makes the record loop fail at it with "sheetModel must be struct", so
    the run returns that error when the records before it were accepted;
    the loop hands only structs to [appendRow], and no run that succeeds
    holds a record of another kind. *)
Theorem pointer_record_rejected (sn : SheetNames)
  (pre post : list SheetModel) (opts : list Option) (sheetModel : SheetModel)
  (sheetName : string) (st : File * gmap string Z) :
  writeLoop sn (resolveOptions opts) (NewFile, ∅) pre = Ok st ->
  SheetModel_Kind sheetModel = reflect.Pointer ->
  callSheetName sheetModel = Ok sheetName ->
  sheetName <> "" ->
  write sn (pre ++ sheetModel :: post) opts
  = Err "sheetModel must be struct"
  /\ (forall opt st0,
        writeRecord sn opt st0 sheetModel
        = Err "sheetModel must be struct")
  /\ (forall opt st0 m st1,
        writeRecord sn opt st0 m = Ok st1 ->
        exists name fields, m = StructModel name fields)
  /\ (forall ms opts' f,
        write sn ms opts' = Ok f ->
        forall m, m ∈ ms -> exists name fields, m = StructModel name fields).
Proof.
  intros Hpre Hkind Hcall Hname.
  assert (Hrec : forall opt st0,
             writeRecord sn opt st0 sheetModel
             = Err "sheetModel must be struct").
  { intros opt st0. rewrite (writeRecord_pointer _ _ _ _ sheetName Hkind Hcall).
    now destruct (String.eqb_spec sheetName ""). }
  split.
  { unfold write. rewrite writeLoop_app, Hpre. simpl. now rewrite Hrec. }
  split; [exact Hrec|].
  split.
  { intros opt [f0 cnt0] m [f1 cnt1] H.
    apply writeRecord_inv in H as ((fields & E) & _). eauto. }
  intros ms opts' f H. unfold write in H.
  destruct (writeLoop sn (resolveOptions opts') (NewFile, ∅) ms)
    as [st1|e|] eqn:E; [|discriminate..].
  now apply (writeLoop_structs _ _ _ _ _ E).
Qed.

Lemma pointer_record_rejected_witness :
  write acceptAll
    ([bar2] ++ PtrModel ValueReceiver "foo sheet name" (Some []) :: [bar2]) []
  = Err "sheetModel must be struct".
Proof.
  refine (proj1 (pointer_record_rejected acceptAll [bar2] [bar2] []
                   (PtrModel ValueReceiver "foo sheet name" (Some []))
                   "foo sheet name"
                   (okOr (NewFile, ∅)
                      (writeLoop acceptAll (resolveOptions []) (NewFile, ∅) [bar2]))
                   _ _ _ _)).
  - vm_compute. reflexivity.
  - reflexivity.
  - reflexivity.
  - discriminate.
Defined.

(** C9 as stated fails: a pointer record whose sheet name is empty is
    refused by the earlier check, with another error; and on a nil pointer
    whose method is declared on the struct type the call of [SheetName]
    panics before any check of the kind. *)
Lemma pointer_record_counterexample :
  write acceptAll [PtrModel ValueReceiver "" (Some [])] []
  = Err "sheetModel must have a sheet name"
  /\ write acceptAll [PtrModel PointerReceiver "" None] []
     = Err "sheetModel must have a sheet name"
  /\ write acceptAll [PtrModel ValueReceiver "foo sheet name" None] [] = Panic.
Proof. repeat split; reflexivity. Qed.

(** ** Cells and sheets of a run *)

Lemma columnName_nonempty (col : Z) : 1 <= col -> columnName col <> "".
Proof.
  intros H. rewrite columnName_step by lia.
  destruct (columnName (Z.quot (col - 1) 26)); discriminate.
Qed.

(** A cell name of the domain is not the text returned, next to an error,
    for a column beyond the last one. *)
Lemma cellAt_inj_row (c1 r1 c2 r2 : Z) :
  inDomain c1 r1 -> 1 <= c2 -> 1 <= r2 <= totalRows ->
  cellAt c1 r1 = cellAt c2 r2 -> c1 = c2 /\ r1 = r2.
Proof.
  intros D1 Hc Hr E.
  destruct (Z_le_gt_dec c2 maxColumns) as [Hle|Hgt].
  - apply coordinatesToCellName_inj; [assumption| |exact E].
    unfold inDomain. lia.
  - exfalso. unfold cellAt in E. rewrite (coordinatesToCellName_ok c1 r1 D1) in E.
    unfold coordinatesToCellName, columnNumberToName, minColumns in E.
    destruct (c2 <? 1) eqn:E1; [apply Z.ltb_lt in E1; lia|].
    destruct (r2 <? 1) eqn:E2; [apply Z.ltb_lt in E2; lia|].
    destruct (totalRows <? r2) eqn:E3; [apply Z.ltb_lt in E3; lia|].
    destruct (maxColumns <? c2) eqn:E4; [|apply Z.ltb_ge in E4; lia].
    simpl in E. destruct D1 as [[? ?] [? ?]].
    change (strconv.Itoa r2) with ("" ++ strconv.Itoa r2) in E.
    apply letters_digits_split in E as [E _];
      [|try (apply columnName_upper; lia); try (apply Itoa_digits; lia); reflexivity..].
    now apply (columnName_nonempty c1).
Qed.

Section WriteFieldsOnly.

Variable sn : SheetNames.
Variable skip : StructField -> bool.
Variable value : StructField -> outcome CellValue.
Variable sheetName : string.
Variable line : Z.

(** A cell present after the loop was written by it or was there before. *)
Lemma writeFields_only (fields : list StructField) (f f' : File) (i : Z)
  (key : string * string) (v : CellValue) :
  writeFields sn skip value f sheetName line i fields = Ok f' ->
  cellStore f' !! key = Some v ->
  (exists (k : nat) (field : StructField),
      fields !! k = Some field /\ skip field = false
      /\ key = (foldSheetName sn sheetName, cellAt (i + Z.of_nat k + 1) line)
      /\ value field = Ok v)
  \/ cellStore f !! key = Some v.
Proof.
  revert f i. induction fields as [|fld rest IH]; intros f i H Hv.
  - injection H as <-. now right.
  - assert (Hshift : forall f0,
               writeFields sn skip value f0 sheetName line (i + 1) rest = Ok f' ->
               (exists (k : nat) (field : StructField),
                   (fld :: rest) !! k = Some field /\ skip field = false
                   /\ key = (foldSheetName sn sheetName, cellAt (i + Z.of_nat k + 1) line)
                   /\ value field = Ok v)
               \/ cellStore f0 !! key = Some v).
    { intros f0 H0. destruct (IH _ _ H0 Hv) as [(k & field & Hk & Hs & Hkey & Hval)|Hold];
        [left|now right].
      exists (S k), field. repeat split; try assumption.
      rewrite Hkey. do 2 f_equal. lia. }
    destruct (skip fld) eqn:Hs.
    + simpl in H. rewrite Hs in H. now apply Hshift.
    + apply writeFields_cons_inv in H as (v0 & Hv0 & _ & _ & H); [|assumption].
      destruct (Hshift _ H) as [Hw|Hold]; [now left|]. simpl in Hold.
      rewrite lookup_insert in Hold. destruct (decide _) as [E|N] in Hold; [|now right].
      injection Hold as ->. left. exists 0%nat, fld. repeat split; try assumption.
      rewrite <- E. do 2 f_equal. lia.
Qed.

Lemma writeFields_wf (fields : list StructField) (f f' : File) (i : Z) :
  writeFields sn skip value f sheetName line i fields = Ok f' ->
  wfFile sn f -> wfFile sn f'.
Proof.
  revert f i. induction fields as [|fld rest IH]; intros f i H Hwf.
  - now injection H as <-.
  - destruct (skip fld) eqn:Hs.
    + simpl in H. rewrite Hs in H. now apply (IH _ _ H).
    + apply writeFields_cons_inv in H as (v0 & _ & _ & Hi & H); [|assumption].
      apply (IH _ _ H). intros key cell v. simpl.
      rewrite lookup_insert. destruct (decide _) as [[= <- <-]|N].
      * intros _. now apply indexOf_present in Hi.
      * apply Hwf.
Qed.

End WriteFieldsOnly.

Lemma wfFile_new_sheet (sn : SheetNames) (f : File) (sheet : string) :
  wfFile sn f -> wfFile sn (mkFile (sheetList f ++ [sheet]) (cellStore f)).
Proof.
  intros Hwf key c v H. apply sheetKeys_new_sheet. left. exact (Hwf key c v H).
Qed.

Lemma wfFile_cells_eq (sn : SheetNames) (f f1 : File) :
  cellStore f1 = cellStore f ->
  (forall key, key ∈ sheetKeys sn f -> key ∈ sheetKeys sn f1) ->
  wfFile sn f -> wfFile sn f1.
Proof.
  intros Hc Hs Hwf key c v H. apply Hs. apply (Hwf key c v). now rewrite <- Hc.
Qed.

Lemma wfFile_NewFile (sn : SheetNames) : wfFile sn NewFile.
Proof. intros key c v H. discriminate. Qed.

(** The sheets that are left when the sheet the container takes for
    [sheet] is taken out of a list. *)
Lemma sheetKeys_filter (sn : SheetNames) (sheet key : string) (l : list string) :
  key ∈ map (foldSheetName sn)
          (filter (fun n => foldSheetName sn n <> foldSheetName sn sheet) l)
  <-> key ∈ map (foldSheetName sn) l /\ key <> foldSheetName sn sheet.
Proof.
  induction l as [|x l IH].
  - rewrite filter_nil. simpl. rewrite elem_of_nil. tauto.
  - rewrite filter_cons.
    destruct (decide (foldSheetName sn x <> foldSheetName sn sheet)) as [N|E]; simpl.
    + rewrite !elem_of_cons, IH. intuition congruence.
    + rewrite elem_of_cons, IH. apply dec_stable in E. intuition congruence.
Qed.

Section RunFacts.

Variable sn : SheetNames.

Lemma appendRow_wf (f f' : File) (sheetModel : SheetModel) (line : Z) (opt : options) :
  appendRow sn f sheetModel line opt = Ok f' -> wfFile sn f -> wfFile sn f'.
Proof.
  intros H Hwf. apply appendRow_inv in H as (fields & f1 & _ & _ & Hc & Hs & H).
  assert (Hwf1 : wfFile sn f1).
  { apply (wfFile_cells_eq sn f f1 Hc); [|assumption].
    intros key Hin. unfold sheetKeys. rewrite Hs. destruct (_ =? -1); [|assumption].
    rewrite map_app. apply elem_of_app. now left. }
  destruct ((line + 1 =? 1) && negb (headless opt)).
  - destruct H as (f2 & H1 & H2).
    apply (writeFields_wf _ _ _ _ _ _ _ _ _ H2). now apply (writeFields_wf _ _ _ _ _ _ _ _ _ H1).
  - now apply (writeFields_wf _ _ _ _ _ _ _ _ _ H).
Qed.

(** After [appendRow] the container finds the sheet of the record, and no
    other sheet was added. *)
Lemma appendRow_sheet_elem (f f' : File) (sheetModel : SheetModel) (line : Z)
  (opt : options) (key : string) :
  appendRow sn f sheetModel line opt = Ok f' ->
  key ∈ sheetKeys sn f'
  <-> key ∈ sheetKeys sn f \/ key = foldSheetName sn (SheetName sheetModel).
Proof.
  intros H. unfold sheetKeys at 1. rewrite (appendRow_sheets _ _ _ _ _ _ H).
  destruct (indexOf sn (SheetName sheetModel) (sheetList f) 0 =? -1) eqn:E.
  - exact (sheetKeys_new_sheet sn f (SheetName sheetModel) key).
  - apply Z.eqb_neq, indexOf_present in E. split; [now left|].
    intros [Hin| ->]; assumption.
Qed.

(** The record loop keeps the file well formed and creates no sheet but
    those of its records. *)
Lemma writeLoop_file (opt : options) (ms : list SheetModel)
  (st st' : File * gmap string Z) :
  writeLoop sn opt st ms = Ok st' ->
  wfFile sn st.1 ->
  wfFile sn st'.1
  /\ forall key, key ∈ sheetKeys sn st'.1 ->
       key ∈ sheetKeys sn st.1 \/ key ∈ modelKeys sn ms.
Proof.
  revert st. induction ms as [|m ms IH]; intros st H Hwf.
  - injection H as <-. split; [assumption|]. intros s Hs. now left.
  - simpl in H. destruct (writeRecord sn opt st m) as [st1|e|] eqn:E;
      [|discriminate..].
    destruct st as [f cnt], st1 as [f1 cnt1].
    apply writeRecord_inv in E as (_ & _ & Hrow & _). simpl in *.
    destruct (IH _ H (appendRow_wf _ _ _ _ _ Hrow Hwf)) as [Hwf' Hsheets].
    split; [assumption|]. intros key Hs.
    destruct (Hsheets key Hs) as [Hin|Hin].
    + apply (appendRow_sheet_elem _ _ _ _ _ key Hrow) in Hin as [Hin| ->];
        [now left|right; left].
    + right. now right.
Qed.

(** One prototype: nothing happens when the container finds its sheet;
    otherwise the sheet is created and the header loop runs on it. *)
Lemma setNoDataSheetHeader_inv (f f' : File) (model : SheetModel) :
  setNoDataSheetHeader sn f model = Ok f' ->
  (hasSheet sn f (SheetName model) /\ f' = f)
  \/ (~ hasSheet sn f (SheetName model)
      /\ exists fields,
          modelFields model = Ok fields
          /\ writeFields sn skipDash headerCell
               (mkFile (sheetList f ++ [SheetName model]) (cellStore f))
               (SheetName model) 1 0 fields = Ok f').
Proof.
  intros Hstep. set (name := SheetName model).
  unfold setNoDataSheetHeader in Hstep.
  destruct (callSheetName model) as [n|e|] eqn:Ecall; [|discriminate..].
  apply callSheetName_ok in Ecall. fold name in Ecall. subst n.
  unfold GetSheetIndex in Hstep.
  destruct (checkSheetName sn name) as [e|] eqn:Ec; [discriminate|].
  destruct (indexOf sn name (sheetList f) 0 =? -1) eqn:Ei; simpl in Hstep.
  2:{ apply Z.eqb_neq in Ei. apply indexOf_present in Ei.
      injection Hstep as <-. now left. }
  apply Z.eqb_eq in Ei.
  destruct (NewSheet sn f name) as [f1 [idx [e|]]] eqn:En; [discriminate|].
  apply NewSheet_ok in En; [|assumption]. subst f1.
  right. split; [intros Hh; apply indexOf_present in Hh; contradiction|].
  destruct (modelFields model) as [fields|e|]; [|discriminate..].
  exists fields. split; [reflexivity|]. now rewrite <- setHeaders_writeFields.
Qed.

Lemma setNoDataSheetHeader_file (f f' : File) (model : SheetModel) :
  setNoDataSheetHeader sn f model = Ok f' ->
  wfFile sn f ->
  wfFile sn f'
  /\ (forall key, key ∈ sheetKeys sn f'
        <-> key ∈ sheetKeys sn f \/ key = foldSheetName sn (SheetName model))
  /\ (forall key c, key ∈ sheetKeys sn f ->
        cellStore f' !! (key, c) = cellStore f !! (key, c)).
Proof.
  intros H Hwf. apply setNoDataSheetHeader_inv in H as [[Hin ->]|(Hout & fields & _ & H)].
  - split; [assumption|]. split; [|reflexivity].
    intros key. split; [now left|]. intros [Hs| ->]; assumption.
  - split; [|split].
    + apply (writeFields_wf _ _ _ _ _ _ _ _ _ H). now apply wfFile_new_sheet.
    + intros key. unfold sheetKeys at 1.
      rewrite (writeFields_sheets _ _ _ _ _ _ _ _ _ H).
      exact (sheetKeys_new_sheet sn f (SheetName model) key).
    + intros key c Hs.
      rewrite (writeFields_frame _ _ _ _ _ _ _ _ _ _ H); [reflexivity|].
      intros k field _ _ [= E _]. subst key. contradiction.
Qed.

Lemma setNoDataSheetHeadersLoop_app (f : File) (pre rest : list SheetModel) :
  setNoDataSheetHeadersLoop sn f (pre ++ rest)
  = match setNoDataSheetHeadersLoop sn f pre with
    | Ok f' => setNoDataSheetHeadersLoop sn f' rest
    | other => other
    end.
Proof.
  revert f. induction pre as [|m pre IH]; intros f; simpl; [reflexivity|].
  destruct (setNoDataSheetHeader sn f m); [apply IH|reflexivity..].
Qed.

(** The loop over the prototypes keeps the file well formed, creates no
    sheet but those of the prototypes, and leaves the sheets that exist
    when it starts as they are. *)
Lemma setNoDataSheetHeadersLoop_file (models : list SheetModel) (f f' : File) :
  setNoDataSheetHeadersLoop sn f models = Ok f' ->
  wfFile sn f ->
  wfFile sn f'
  /\ (forall key, key ∈ sheetKeys sn f -> key ∈ sheetKeys sn f')
  /\ (forall key, key ∈ sheetKeys sn f' ->
        key ∈ sheetKeys sn f \/ key ∈ modelKeys sn models)
  /\ (forall key c, key ∈ sheetKeys sn f ->
        cellStore f' !! (key, c) = cellStore f !! (key, c)).
Proof.
  revert f. induction models as [|m models IH]; intros f H Hwf.
  - injection H as <-. repeat split; auto.
  - simpl in H. destruct (setNoDataSheetHeader sn f m) as [f1|e|] eqn:E;
      [|discriminate..].
    destruct (setNoDataSheetHeader_file _ _ _ E Hwf) as (Hwf1 & Hs1 & Hc1).
    destruct (IH _ H Hwf1) as (Hwf' & Hmono & Hsub & Hcells).
    split; [assumption|]. split; [|split].
    + intros s Hs. apply Hmono, Hs1. now left.
    + intros s Hs. destruct (Hsub s Hs) as [Hin|Hin]; [|right; now right].
      apply Hs1 in Hin as [Hin| ->]; [now left|right; now left].
    + intros s c Hs. rewrite Hcells by (apply Hs1; now left). now apply Hc1.
Qed.

(** The sheet of a prototype that is the first of its name and whose sheet
    does not exist yet: it exists afterwards and holds the header row and
    nothing else. *)
Lemma setNoDataSheetHeadersLoop_prototype (pre post : list SheetModel)
  (p : SheetModel) (f f' : File) :
  setNoDataSheetHeadersLoop sn f (pre ++ p :: post) = Ok f' ->
  wfFile sn f ->
  ~ hasSheet sn f (SheetName p) ->
  foldSheetName sn (SheetName p) ∉ modelKeys sn pre ->
  exists fields,
    modelFields p = Ok fields
    /\ hasSheet sn f' (SheetName p)
    /\ (forall (k : nat) (field : StructField),
          fields !! k = Some field -> skipDash field = false ->
          inDomain (Z.of_nat k + 1) 1)
    /\ (forall cell v,
          GetCell sn f' (SheetName p) cell = Some v <-> headerRowCell fields cell v).
Proof.
  intros H Hwf Hout Hpre. rewrite setNoDataSheetHeadersLoop_app in H.
  destruct (setNoDataSheetHeadersLoop sn f pre) as [fa|e|] eqn:Ea;
    [|discriminate..].
  destruct (setNoDataSheetHeadersLoop_file _ _ _ Ea Hwf) as (Hwfa & _ & Hsuba & _).
  assert (Houta : ~ hasSheet sn fa (SheetName p)).
  { intros Hin. destruct (Hsuba _ Hin); contradiction. }
  simpl in H.
  destruct (setNoDataSheetHeader sn fa p) as [fb|e|] eqn:Eb;
    [|discriminate..].
  destruct (setNoDataSheetHeader_file _ _ _ Eb Hwfa) as (Hwfb & Hsb & _).
  destruct (setNoDataSheetHeadersLoop_file _ _ _ H Hwfb) as (_ & Hmono & _ & Hcells).
  assert (Hinb : hasSheet sn fb (SheetName p)) by (apply Hsb; now right).
  apply setNoDataSheetHeader_inv in Eb as [[Hin _]|(_ & fields & Hm & Hw)];
    [contradiction|].
  exists fields. split; [assumption|]. split; [now apply Hmono|].
  split.
  { intros k field Hk Hs.
    now apply (writeFields_domain _ _ _ _ _ _ _ _ _ Hw k field Hk Hs). }
  intros cell v. unfold GetCell. rewrite (Hcells _ cell Hinb). split.
  - intros Hv.
    destruct (writeFields_only _ _ _ _ _ _ _ _ _ _ _ Hw Hv)
      as [(k & field & Hk & Hs & [= ->] & [= <-])|Hold].
    + exists k, field. repeat split; assumption.
    + exfalso. apply Houta. now apply (Hwfa _ cell v).
  - intros (k & field & Hk & Hs & -> & ->).
    destruct (writeFields_written _ _ _ _ _ _ _ _ _ Hw k field Hk Hs) as (v & [= <-] & Hv).
    exact Hv.
Qed.

Lemma DeleteSheet_other (f f' : File) (sheet key : string) :
  DeleteSheet sn f sheet = (f', None) ->
  key <> foldSheetName sn sheet ->
  (key ∈ sheetKeys sn f' <-> key ∈ sheetKeys sn f)
  /\ forall c, cellStore f' !! (key, c) = cellStore f !! (key, c).
Proof.
  unfold DeleteSheet. intros H N.
  destruct (checkSheetName sn sheet); [discriminate|].
  destruct ((length (sheetList f) =? 1)%nat || (indexOf sn sheet (sheetList f) 0 =? -1));
    injection H as <-; [split; reflexivity|].
  split; simpl.
  - unfold sheetKeys. simpl. rewrite sheetKeys_filter. tauto.
  - intros c. apply option_eq. intros v.
    rewrite map_lookup_filter_Some. simpl. tauto.
Qed.

(** The same for a whole run: the prototype is the first the container
    takes for its sheet, no record goes to that sheet, and it is not the
    default one. *)
Lemma write_prototype (sheetModels : list SheetModel) (opts : list Option)
  (pre post : list SheetModel) (p : SheetModel) (out : File) :
  write sn sheetModels opts = Ok out ->
  sheetHeaders (resolveOptions opts) = (pre ++ p :: post)%list ->
  foldSheetName sn (SheetName p) <> foldSheetName sn "Sheet1" ->
  foldSheetName sn (SheetName p) ∉ modelKeys sn sheetModels ->
  foldSheetName sn (SheetName p) ∉ modelKeys sn pre ->
  exists fields,
    modelFields p = Ok fields
    /\ hasSheet sn out (SheetName p)
    /\ (forall (k : nat) (field : StructField),
          fields !! k = Some field -> skipDash field = false ->
          inDomain (Z.of_nat k + 1) 1)
    /\ (forall cell v,
          GetCell sn out (SheetName p) cell = Some v <-> headerRowCell fields cell v).
Proof.
  intros H Hheaders Hdefault Hrecords Hpre. unfold write in H.
  destruct (writeLoop sn (resolveOptions opts) (NewFile, ∅) sheetModels)
    as [[f cnt]|e|] eqn:El; [|discriminate..].
  destruct (writeLoop_file _ _ _ _ El (wfFile_NewFile sn)) as [Hwf Hsheets]. simpl in *.
  assert (Hout : ~ hasSheet sn f (SheetName p)).
  { intros Hin. destruct (Hsheets _ Hin) as [Hs|Hs]; [|contradiction].
    apply list_elem_of_singleton in Hs. contradiction. }
  unfold setNoDataSheetHeaders in H. rewrite Hheaders in H.
  destruct (length (pre ++ p :: post) =? 0)%nat eqn:Elen.
  { apply Nat.eqb_eq in Elen. rewrite length_app in Elen. simpl in Elen. lia. }
  destruct (setNoDataSheetHeadersLoop sn f (pre ++ p :: post))
    as [f1|e|] eqn:Ep; [|discriminate..].
  destruct (setNoDataSheetHeadersLoop_prototype _ _ _ _ _ Ep Hwf Hout Hpre)
    as (fields & Hm & Hin & Hdom & Hcells).
  exists fields. split; [assumption|].
  destruct (negb _) in H.
  - destruct (DeleteSheet sn f1 "Sheet1") as [f2 [e|]] eqn:Ed;
      [discriminate|]. injection H as <-.
    destruct (DeleteSheet_other _ _ _ _ Ed Hdefault) as [Hs Hc].
    split; [now apply Hs|]. split; [assumption|].
    intros cell v. unfold GetCell. rewrite Hc. apply Hcells.
  - injection H as <-. auto.
Qed.

End RunFacts.

(** The pass over the prototypes does not read the [headless] flag. *)
Lemma setNoDataSheetHeaders_ignores_headless (sn : SheetNames)
  (f : File) (opt : options) :
  setNoDataSheetHeaders sn f (WithHeadless opt)
  = setNoDataSheetHeaders sn f opt.
Proof. reflexivity. Qed.

(** With headers suppressed, a prototype whose sheet is not the default one
    and receives no record still has its header row written; sheets are
    told apart as the container tells them apart. *)
Lemma prototype_headers_with_headless (sn : SheetNames)
  (sheetModels : list SheetModel) (opts : list Option)
  (pre post : list SheetModel) (p : SheetModel) (out : File)
  (fields : list StructField) (k : nat) (field : StructField) :
  write sn sheetModels opts = Ok out ->
  headless (resolveOptions opts) = true ->
  sheetHeaders (resolveOptions opts) = (pre ++ p :: post)%list ->
  foldSheetName sn (SheetName p) <> foldSheetName sn "Sheet1" ->
  foldSheetName sn (SheetName p) ∉ modelKeys sn sheetModels ->
  foldSheetName sn (SheetName p) ∉ modelKeys sn pre ->
  modelFields p = Ok fields ->
  fields !! k = Some field ->
  skipDash field = false ->
  GetCell sn out (SheetName p) (cellAt (Z.of_nat k + 1) 1)
  = Some (CString (headerOf field)).
Proof.
  intros H _ Hheaders Hdefault Hrecords Hpre Hm Hk Hs.
  destruct (write_prototype _ _ _ _ _ _ _ H Hheaders Hdefault Hrecords Hpre)
    as (fields' & Hm' & _ & _ & Hcells).
  rewrite Hm in Hm'. injection Hm' as <-.
  apply Hcells. exists k, field. auto.
Qed.

(** C1 (as amended): in a sheet that only has its declared headers, a field
    whose header override is "-" gets no header cell; every other field has
    its header (the override, or the field name without one) at the column
    of its own position, so the column of a skipped field stays empty and
    the later columns do not move; the sheet holds nothing else.  The
    sheet is one that the container does not take for the default sheet,
    for the sheet of a record or for the sheet of an earlier prototype:
    it compares names without regard to case. *)
Theorem skipped_field_in_declared_headers (sn : SheetNames)
  (sheetModels : list SheetModel) (opts : list Option)
  (pre post : list SheetModel) (p : SheetModel) (out : File)
  (fields : list StructField) (k : nat) (field : StructField) :
  write sn sheetModels opts = Ok out ->
  sheetHeaders (resolveOptions opts) = (pre ++ p :: post)%list ->
  foldSheetName sn (SheetName p) <> foldSheetName sn "Sheet1" ->
  foldSheetName sn (SheetName p) ∉ modelKeys sn sheetModels ->
  foldSheetName sn (SheetName p) ∉ modelKeys sn pre ->
  modelFields p = Ok fields ->
  fields !! k = Some field ->
  GetCell sn out (SheetName p) (cellAt (Z.of_nat k + 1) 1)
  = (if String.eqb (excel_header field) "-"
     then None
     else Some (CString (if String.eqb (excel_header field) ""
                         then Name field else excel_header field)))
  /\ (forall cell v,
        GetCell sn out (SheetName p) cell = Some v <-> headerRowCell fields cell v).
Proof.
  intros H Hheaders Hdefault Hrecords Hpre Hm Hk.
  destruct (write_prototype _ _ _ _ _ _ _ H Hheaders Hdefault Hrecords Hpre)
    as (fields' & Hm' & _ & Hdom & Hcells).
  rewrite Hm in Hm'. injection Hm' as <-.
  split; [|exact Hcells].
  destruct (String.eqb (excel_header field) "-") eqn:Es.
  - destruct (GetCell sn out (SheetName p) (cellAt (Z.of_nat k + 1) 1)) as [v|] eqn:Ec;
      [exfalso|reflexivity].
    apply Hcells in Ec as (k' & field' & Hk' & Hs' & E & _).
    apply eq_sym, cellAt_inj_row in E as [E _];
      [|now apply (Hdom k' field')|lia|unfold totalRows; lia].
    assert (k' = k) by lia. subst k'.
    rewrite Hk in Hk'. injection Hk' as <-. unfold skipDash in Hs'. congruence.
  - apply Hcells. exists k, field. repeat split; assumption.
Qed.

Lemma skipped_field_in_declared_headers_witness :
  let out := okOr NewFile (write acceptAll [bar2] [WithSheetHeaders [Item "" "" false]]) in
  GetCell acceptAll out "items" "A1" = None
  /\ GetCell acceptAll out "items" "B1" = Some (CString "Label")
  /\ GetCell acceptAll out "items" "C1" = Some (CString "done").
Proof.
  intros out.
  assert (H : write acceptAll [bar2] [WithSheetHeaders [Item "" "" false]] = Ok out)
    by (vm_compute; reflexivity).
  assert (Hrec : foldSheetName acceptAll "items" ∉ modelKeys acceptAll [bar2]).
  { intros Hin. apply list_elem_of_singleton in Hin. vm_compute in Hin. discriminate. }
  pose proof (fun k field Hk =>
    proj1 (skipped_field_in_declared_headers acceptAll [bar2]
             [WithSheetHeaders [Item "" "" false]] [] [] (Item "" "" false) out
             _ k field H eq_refl ltac:(vm_compute; discriminate) Hrec
             (not_elem_of_nil _)
             eq_refl Hk)) as T.
  split; [exact (T 0%nat _ eq_refl)|].
  split; [exact (T 1%nat _ eq_refl)|exact (T 2%nat _ eq_refl)].
Defined.

(** C1 as stated fails: in a sheet of declared headers the fields after a
    skipped one keep their columns (B1 and C1, A1 stays empty), and in a
    sheet that receives records the field is not skipped at all (A1 holds
    "-", A2 the value). *)
Lemma skipped_field_counterexample :
  let out := write acceptAll [] [WithSheetHeaders [Item "" "" false]] in
  let out' := write acceptAll [Item "c" "l" true] [] in
  cellAfter acceptAll out "items" "A1" = None
  /\ cellAfter acceptAll out "items" "B1" = Some (CString "Label")
  /\ cellAfter acceptAll out "items" "C1" = Some (CString "done")
  /\ cellAfter acceptAll out' "items" "A1" = Some (CString "-")
  /\ cellAfter acceptAll out' "items" "A2" = Some (CString "c")
  /\ cellAfter acceptAll out' "items" "B1" = Some (CString "Label").
Proof. repeat split; vm_compute; reflexivity. Qed.

(** C2: a prototype declared for the default sheet [Sheet1], with no record
    at all: the run succeeds and returns the file as created, whose
    [Sheet1] holds no header cell. *)
Theorem default_sheet_prototype_gets_no_header (fields : list StructField) :
  write acceptAll [] [WithSheetHeaders [StructModel "Sheet1" fields]] = Ok NewFile
  /\ sheetList NewFile = ["Sheet1"]
  /\ forall cell, GetCell acceptAll NewFile "Sheet1" cell = None.
Proof. repeat split. Qed.

(** C10: with headers suppressed as well, the prototype declared for the
    default sheet [Sheet1] gets no header row either. *)
Theorem headless_default_sheet_prototype_gets_no_header (fields : list StructField) :
  write acceptAll [] [WithHeadless; WithSheetHeaders [StructModel "Sheet1" fields]]
  = Ok NewFile
  /\ forall cell, GetCell acceptAll NewFile "Sheet1" cell = None.
Proof. repeat split. Qed.

(** ** Rows of a whole run *)

Lemma dataLine_counter (l : Z) (opt : options) :
  dataLine l opt = l + 1 + (if (l =? 0) && negb (headless opt) then 1 else 0).
Proof.
  unfold dataLine. replace (l + 1 =? 1) with (l =? 0).
  - destruct ((l =? 0) && negb (headless opt)); lia.
  - destruct (l =? 0) eqn:E0.
    + apply Z.eqb_eq in E0. subst l. reflexivity.
    + apply Z.eqb_neq in E0. symmetry. apply Z.eqb_neq. lia.
Qed.

Lemma dataLine_expected (opt : options) (n : Z) :
  0 <= n ->
  dataLine (expectedLines opt n) opt = n + 1 + (if headless opt then 0 else 1).
Proof.
  intros Hn. rewrite dataLine_counter. unfold expectedLines.
  destruct (n =? 0) eqn:E0.
  - apply Z.eqb_eq in E0. subst n. simpl. destruct (headless opt); reflexivity.
  - apply Z.eqb_neq in E0. destruct (headless opt).
    + destruct (n =? 0) eqn:E1; [apply Z.eqb_eq in E1; lia|]. simpl. lia.
    + destruct (n + 1 =? 0) eqn:E1; [apply Z.eqb_eq in E1; lia|]. simpl. lia.
Qed.

Section RunRows.

Variable sn : SheetNames.

(** The coordinates [appendRow] computed are in range. *)
Lemma appendRow_domain (f f' : File) (sheetModel : SheetModel) (line : Z)
  (opt : options) (fields : list StructField) (k : nat) (field : StructField) :
  appendRow sn f sheetModel line opt = Ok f' ->
  modelFields sheetModel = Ok fields ->
  fields !! k = Some field ->
  inDomain (Z.of_nat k + 1) (dataLine line opt)
  /\ ((line =? 0) && negb (headless opt) = true -> inDomain (Z.of_nat k + 1) 1).
Proof.
  intros H Hm Hk. apply appendRow_inv in H as (fields' & f1 & Hm' & _ & _ & _ & H).
  rewrite Hm in Hm'. injection Hm' as <-.
  rewrite dataLine_counter. unfold dataLine in *.
  replace (line + 1 =? 1) with (line =? 0) in H.
  2:{ destruct (line =? 0) eqn:E0.
      - apply Z.eqb_eq in E0. subst line. reflexivity.
      - apply Z.eqb_neq in E0. symmetry. apply Z.eqb_neq. lia. }
  destruct ((line =? 0) && negb (headless opt)).
  - destruct H as (f2 & H1 & H2). split.
    + replace (line + 1 + 1) with (line + 1 + 1) by lia.
      exact (writeFields_domain _ _ _ _ _ _ _ _ _ H2 k field Hk eq_refl).
    + intros _. exact (writeFields_domain _ _ _ _ _ _ _ _ _ H1 k field Hk eq_refl).
  - split; [|discriminate]. rewrite Z.add_0_r.
    exact (writeFields_domain _ _ _ _ _ _ _ _ _ H k field Hk eq_refl).
Qed.

(** [appendRow] writes in the data line, and in line 1 when it writes the
    header; the cells of every other line keep their content. *)
Lemma appendRow_keeps_row (f f' : File) (sheetModel : SheetModel) (line : Z)
  (opt : options) (sheet : string) (c r : Z) :
  appendRow sn f sheetModel line opt = Ok f' ->
  inDomain c r ->
  r <> dataLine line opt ->
  (r <> 1 \/ (line =? 0) && negb (headless opt) = false) ->
  GetCell sn f' sheet (cellAt c r) = GetCell sn f sheet (cellAt c r).
Proof.
  intros H D Hr Hhead.
  destruct (decide (foldSheetName sn sheet = foldSheetName sn (SheetName sheetModel)))
    as [Ek|N]; [|now apply (appendRow_other_sheet _ _ _ _ _ _ _ _ H)].
  pose proof H as H0.
  apply appendRow_inv in H as (fields & f1 & Hm & _ & Hc & _ & H).
  unfold GetCell. rewrite Ek, <- Hc.
  assert (Hframe : forall fa fb ln,
             writeFields sn noSkip (dataCell opt) fa (SheetName sheetModel) ln 0 fields = Ok fb
             \/ writeFields sn noSkip headerCell fa (SheetName sheetModel) ln 0 fields = Ok fb ->
             r <> ln ->
             cellStore fb !! (foldSheetName sn (SheetName sheetModel), cellAt c r)
             = cellStore fa !! (foldSheetName sn (SheetName sheetModel), cellAt c r)).
  { intros fa fb ln [Hw|Hw] Hne;
      apply (writeFields_frame _ _ _ _ _ _ _ _ _ _ Hw);
      intros k field Hk _ [= E];
      pose proof (writeFields_domain _ _ _ _ _ _ _ _ _ Hw k field Hk eq_refl) as D';
      apply coordinatesToCellName_inj in E as [_ E]; try assumption; lia. }
  unfold dataLine in Hr.
  assert (Eq : (line + 1 =? 1) = (line =? 0)).
  { destruct (line =? 0) eqn:E0.
    - apply Z.eqb_eq in E0. subst line. reflexivity.
    - apply Z.eqb_neq in E0. apply Z.eqb_neq. lia. }
  rewrite Eq in H, Hr.
  destruct ((line =? 0) && negb (headless opt)).
  - destruct H as (f2 & H1 & H2).
    rewrite (Hframe f2 f' _ (or_introl H2) Hr).
    apply (Hframe f1 f2 1 (or_intror H1)). destruct Hhead; [assumption|discriminate].
  - apply (Hframe f1 f' _ (or_introl H) Hr).
Qed.

Lemma writeRecord_counter_grows (opt : options) (f f' : File)
  (cnt cnt' : gmap string Z) (m : SheetModel) (s : string) :
  writeRecord sn opt (f, cnt) m = Ok (f', cnt') ->
  0 <= linesOf cnt (SheetName m) ->
  linesOf cnt s <= linesOf cnt' s.
Proof.
  intros H Hl. apply writeRecord_inv in H as (_ & _ & _ & ->).
  rewrite linesOf_insert. destruct (decide (SheetName m = s)) as [<-|N]; [|lia].
  destruct (_ && _); lia.
Qed.

(** Once a line of a sheet is below the counter of the sheet, the records
    that follow do not write in it, provided those of them that the
    container sends to the sheet have the name of the sheet. *)
Lemma writeLoop_keeps_cell (opt : options) (rest : list SheetModel)
  (st st' : File * gmap string Z) (s : string) (c r : Z) :
  writeLoop sn opt st rest = Ok st' ->
  (forall n, 0 <= linesOf st.2 n) ->
  (forall m, m ∈ rest ->
     foldSheetName sn (SheetName m) = foldSheetName sn s -> SheetName m = s) ->
  inDomain c r ->
  r <= linesOf st.2 s ->
  GetCell sn st'.1 s (cellAt c r) = GetCell sn st.1 s (cellAt c r).
Proof.
  revert st. induction rest as [|m rest IH]; intros st H Hpos Hown D Hr.
  - now injection H as <-.
  - simpl in H. destruct (writeRecord sn opt st m) as [st1|e|] eqn:E;
      [|discriminate..].
    destruct st as [f cnt], st1 as [f1 cnt1]. simpl in *.
    pose proof (fun n => writeRecord_counter_grows _ _ _ _ _ _ n E (Hpos _)) as Hgrow.
    rewrite (IH _ H); simpl;
      [|intros n; specialize (Hgrow n); specialize (Hpos n); lia
       |intros m' Hin; apply Hown; now right
       |assumption|specialize (Hgrow s); lia].
    apply writeRecord_inv in E as (_ & _ & Hrow & _).
    destruct (decide (foldSheetName sn s = foldSheetName sn (SheetName m))) as [Ek|N];
      [|now apply (appendRow_other_sheet _ _ _ _ _ _ _ _ Hrow)].
    assert (Es : SheetName m = s) by (apply Hown; [now left|now symmetry]).
    subst s. destruct D as [Dc Dr].
    apply (appendRow_keeps_row _ _ _ _ _ _ _ _ Hrow).
    + now split.
    + rewrite dataLine_counter. destruct (_ && _); lia.
    + destruct (linesOf cnt (SheetName m) =? 0) eqn:E0; [|now right].
      apply Z.eqb_eq in E0. lia.
Qed.

Lemma writeLoop_counter_nonneg (opt : options) (ms : list SheetModel)
  (st : File * gmap string Z) :
  writeLoop sn opt (NewFile, ∅) ms = Ok st ->
  forall n, 0 <= linesOf st.2 n.
Proof.
  intros H n.
  rewrite (writeLoop_counter _ _ _ [] _ _ H (fun s => eq_refl) n). simpl.
  unfold expectedLines. pose proof (recordsOf_nonneg n ms).
  destruct (_ =? 0); [lia|]. destruct (headless opt); lia.
Qed.

Lemma writeLoop_sheets_kept (opt : options) (ms : list SheetModel)
  (st st' : File * gmap string Z) (key : string) :
  writeLoop sn opt st ms = Ok st' ->
  key ∈ sheetKeys sn st.1 -> key ∈ sheetKeys sn st'.1.
Proof.
  revert st. induction ms as [|m ms IH]; intros st H Hs.
  - now injection H as <-.
  - simpl in H. destruct (writeRecord sn opt st m) as [st1|e|] eqn:E;
      [|discriminate..].
    apply (IH _ H). destruct st as [f cnt], st1 as [f1 cnt1].
    apply writeRecord_inv in E as (_ & _ & Hrow & _). simpl in *.
    apply (appendRow_sheet_elem _ _ _ _ _ _ key Hrow). now left.
Qed.

Lemma not_default_sheet (sheetModels : list SheetModel) (opt : options)
  (m : SheetModel) :
  containsModelSheetNameEqSheet1 sheetModels opt = false ->
  m ∈ sheetModels ->
  defaultByName sn (SheetName m) ->
  foldSheetName sn (SheetName m) <> foldSheetName sn "Sheet1".
Proof.
  intros Econ Hin Hdef E. apply Hdef in E.
  unfold containsModelSheetNameEqSheet1 in Econ.
  apply orb_false_elim in Econ as [Econ _].
  assert (existsb (fun m0 => String.eqb (SheetName m0) "Sheet1") sheetModels = true)
    as Ht; [|congruence].
  apply existsb_exists. exists m. split; [now apply list_elem_of_In|].
  now apply String.eqb_eq.
Qed.

(** What the steps of [write] after the record loop keep: the cells of a
    sheet that exists when the loop is over, provided the sheet is named by
    a record and is the default sheet only under the name [Sheet1]. *)
Lemma write_tail_keeps (sheetModels : list SheetModel) (opt : options)
  (f f' out : File) (m : SheetModel) (cell : string) :
  wfFile sn f ->
  m ∈ sheetModels ->
  hasSheet sn f (SheetName m) ->
  defaultByName sn (SheetName m) ->
  setNoDataSheetHeaders sn f opt = Ok f' ->
  (if negb (containsModelSheetNameEqSheet1 sheetModels opt)
   then match DeleteSheet sn f' "Sheet1" with
        | (_, Some e) => Err e
        | (f'', None) => Ok f''
        end
   else Ok f') = Ok out ->
  GetCell sn out (SheetName m) cell = GetCell sn f (SheetName m) cell
  /\ hasSheet sn out (SheetName m).
Proof.
  intros Hwf Hin Hs Hdef Hset Hdel.
  assert (Hf' : GetCell sn f' (SheetName m) cell = GetCell sn f (SheetName m) cell
                /\ hasSheet sn f' (SheetName m)).
  { unfold setNoDataSheetHeaders in Hset.
    destruct (length (sheetHeaders opt) =? 0)%nat; [now injection Hset as <-|].
    destruct (setNoDataSheetHeadersLoop_file _ _ _ _ Hset Hwf) as (_ & Hmono & _ & Hc).
    split; [now apply Hc|now apply Hmono]. }
  destruct Hf' as [Hc' Hs'].
  destruct (negb (containsModelSheetNameEqSheet1 sheetModels opt)) eqn:Econ.
  - destruct (DeleteSheet sn f' "Sheet1") as [f2 [e|]] eqn:Ed; [discriminate|].
    injection Hdel as <-. apply negb_true_iff in Econ.
    pose proof (not_default_sheet _ _ _ Econ Hin Hdef) as N.
    destruct (DeleteSheet_other _ _ _ _ _ Ed N) as [Hsl Hcl].
    unfold GetCell in *. rewrite Hcl. split; [assumption|now apply Hsl].
  - injection Hdel as <-. now split.
Qed.

End RunRows.

Section RunRowsTheorems.

Variable sn : SheetNames.

(** What a successful run did to one of its records, when the later
    records that the container sends to its sheet have its sheet name, and
    its sheet is the default sheet only under the name [Sheet1]. *)
Lemma write_record_inv (pre post : list SheetModel) (m : SheetModel)
  (opts : list Option) (out : File) :
  write sn (pre ++ m :: post) opts = Ok out ->
  ownSheet sn m post ->
  defaultByName sn (SheetName m) ->
  let opt := resolveOptions opts in
  let l := expectedLines opt (recordsOf (SheetName m) pre) in
  exists (f0 f1 : File) (c0 c1 : gmap string Z),
    appendRow sn f0 m l opt = Ok f1
    /\ linesOf c1 (SheetName m) = dataLine l opt
    /\ (forall cell r col,
          cell = cellAt col r -> inDomain col r -> r <= dataLine l opt ->
          GetCell sn out (SheetName m) cell = GetCell sn f1 (SheetName m) cell)
    /\ hasSheet sn out (SheetName m).
Proof.
  intros H Hown Hdef opt l. unfold write in H. fold opt in H.
  destruct (writeLoop sn opt (NewFile, ∅) (pre ++ m :: post))
    as [[f cnt]|e|] eqn:El; [|discriminate..].
  pose proof El as Hall.
  rewrite writeLoop_app in El.
  destruct (writeLoop sn opt (NewFile, ∅) pre) as [[f0 c0]|e|] eqn:E0;
    [|discriminate..].
  cbn [writeLoop] in El.
  destruct (writeRecord sn opt (f0, c0) m) as [[f1 c1]|e|] eqn:E1;
    [|discriminate..].
  assert (E01 : writeLoop sn opt (NewFile, ∅) (pre ++ [m]) = Ok (f1, c1)).
  { rewrite writeLoop_app, E0. cbn [writeLoop]. now rewrite E1. }
  pose proof (writeLoop_counter _ _ _ [] _ _ E0 (fun s => eq_refl) (SheetName m)) as Hl.
  simpl in Hl. fold l in Hl.
  pose proof E1 as E1'.
  apply writeRecord_inv in E1' as (_ & _ & Hrow & Hc1). rewrite Hl in Hrow, Hc1.
  assert (Hcnt : linesOf c1 (SheetName m) = dataLine l opt).
  { rewrite Hc1, linesOf_insert, dataLine_counter.
    destruct (decide _); [reflexivity|congruence]. }
  destruct (writeLoop_file _ _ _ _ _ Hall (wfFile_NewFile sn)) as [Hwf _]. simpl in Hwf.
  assert (Hs1 : hasSheet sn f1 (SheetName m)).
  { apply (appendRow_sheet_elem _ _ _ _ _ _ _ Hrow). now right. }
  pose proof (writeLoop_sheets_kept _ _ _ _ _ _ El Hs1) as Hs. simpl in Hs.
  destruct (setNoDataSheetHeaders sn f opt) as [f'|e|] eqn:Eset;
    [|discriminate..].
  assert (Hin : m ∈ (pre ++ m :: post)%list).
  { apply elem_of_app. right. left. }
  exists f0, f1, c0, c1. split; [assumption|]. split; [assumption|].
  split.
  - intros cell r col -> D Hr.
    destruct (write_tail_keeps _ _ _ _ _ _ _ (cellAt col r) Hwf Hin Hs Hdef Eset H)
      as [-> _].
    apply (writeLoop_keeps_cell _ _ _ _ _ _ _ _ El);
      [exact (writeLoop_counter_nonneg _ _ _ _ E01)|exact Hown|assumption|simpl; lia].
  - now destruct (write_tail_keeps _ _ _ _ _ _ _ "" Hwf Hin Hs Hdef Eset H).
Qed.

(** The rows of a sheet follow the order of the records: the record that
    comes after [n] records of its sheet name has its data in row [n + 1],
    or [n + 2] when the header row is written, each field in the column of
    its position, and the cells are still there when the run is over.  The
    container compares sheet names without regard to case: the later
    records that it sends to the same sheet are required to have the same
    sheet name (a record whose name differs by case has a line counter of
    its own and writes over these rows), and the sheet to be the default
    sheet only under the name [Sheet1] (under another spelling write
    deletes it with its rows). *)
Theorem rows_in_input_order (pre post : list SheetModel) (m : SheetModel)
  (opts : list Option) (out : File) (fields : list StructField) (k : nat)
  (field : StructField) :
  write sn (pre ++ m :: post) opts = Ok out ->
  ownSheet sn m post ->
  defaultByName sn (SheetName m) ->
  modelFields m = Ok fields ->
  fields !! k = Some field ->
  let opt := resolveOptions opts in
  let row :=
    recordsOf (SheetName m) pre + 1 + (if headless opt then 0 else 1) in
  hasSheet sn out (SheetName m)
  /\ exists v,
      fieldCell opt (IsExported field) (Val field) = Ok v
      /\ GetCell sn out (SheetName m) (cellAt (Z.of_nat k + 1) row) = Some v.
Proof.
  intros H Hown Hdef Hm Hk opt row.
  destruct (write_record_inv _ _ _ _ _ H Hown Hdef)
    as (f0 & f1 & c0 & c1 & Hrow & _ & Hkeep & Hs).
  fold opt in Hrow, Hkeep.
  pose proof (dataLine_expected opt _ (recordsOf_nonneg (SheetName m) pre)) as Hline.
  fold row in Hline. rewrite Hline in Hkeep.
  split; [assumption|].
  destruct (appendRow_cells _ _ _ _ _ _ Hrow) as (fields' & Hm' & Hcells).
  rewrite Hm in Hm'. injection Hm' as <-.
  destruct (Hcells k field Hk) as (v & Hv & Hc). rewrite Hline in Hc.
  exists v. split; [assumption|].
  destruct (appendRow_domain _ _ _ _ _ _ _ _ _ Hrow Hm Hk) as [D _]. rewrite Hline in D.
  rewrite (Hkeep _ row (Z.of_nat k + 1) eq_refl D); [assumption|lia].
Qed.

(** The header row of a sheet comes from the first record that goes to it:
    unless headers are suppressed, row 1 holds, at each field's position,
    the field's [excel_header] tag, or the field name when the tag is
    empty, and it is still there when the run is over.  As for the rows,
    the later records that the container sends to the sheet have the same
    sheet name, and the sheet is the default one only under the name
    [Sheet1]. *)
Theorem header_row_from_first_record (pre post : list SheetModel) (m : SheetModel)
  (opts : list Option) (out : File) (fields : list StructField) (k : nat)
  (field : StructField) :
  write sn (pre ++ m :: post) opts = Ok out ->
  ownSheet sn m post ->
  defaultByName sn (SheetName m) ->
  headless (resolveOptions opts) = false ->
  recordsOf (SheetName m) pre = 0 ->
  modelFields m = Ok fields ->
  fields !! k = Some field ->
  GetCell sn out (SheetName m) (cellAt (Z.of_nat k + 1) 1)
  = Some (CString (if String.eqb (excel_header field) ""
                   then Name field else excel_header field)).
Proof.
  intros H Hown Hdef Hh Hfirst Hm Hk.
  destruct (write_record_inv _ _ _ _ _ H Hown Hdef)
    as (f0 & f1 & c0 & c1 & Hrow & _ & Hkeep & _).
  rewrite Hfirst in Hrow, Hkeep. change (expectedLines _ 0) with 0 in Hrow, Hkeep.
  destruct (appendRow_header_cells _ _ _ _ _ Hrow Hh) as (fields' & Hm' & Hhead).
  rewrite Hm in Hm'. injection Hm' as <-.
  destruct (appendRow_domain _ _ _ _ _ _ _ _ _ Hrow Hm Hk) as [_ D].
  rewrite Hh in D. specialize (D eq_refl).
  rewrite (Hkeep _ 1 (Z.of_nat k + 1) eq_refl D).
  - now apply Hhead.
  - rewrite dataLine_counter. rewrite Hh. simpl. lia.
Qed.

End RunRowsTheorems.

(** Of records that all have one sheet name, each has the sheet to
    itself. *)
Lemma ownSheet_same_name (sn : SheetNames) (m : SheetModel) (ms : list SheetModel) :
  Forall (fun m' => SheetName m' = SheetName m) ms -> ownSheet sn m ms.
Proof.
  intros Hall m' Hin _. rewrite Forall_forall in Hall. now apply Hall.
Qed.

Lemma rows_in_input_order_witness :
  let out :=
    okOr NewFile
      (write acceptAll
         ([bar2; Item "c" "l" true] ++ Foo 7 "Bar7" (mkTime 0 "UTC") VNilPointer :: [bar2])
         [WithIfNullValue "-"]) in
  GetCell acceptAll out "foo sheet name" "B3" = Some (CString "Bar7").
Proof.
  intros out.
  assert (H : write acceptAll
                ([bar2; Item "c" "l" true]
                 ++ Foo 7 "Bar7" (mkTime 0 "UTC") VNilPointer :: [bar2])
                [WithIfNullValue "-"] = Ok out) by (vm_compute; reflexivity).
  assert (Hown : ownSheet acceptAll (Foo 7 "Bar7" (mkTime 0 "UTC") VNilPointer) [bar2]).
  { apply ownSheet_same_name. repeat constructor. }
  assert (Hdef : defaultByName acceptAll "foo sheet name").
  { intros E. vm_compute in E. discriminate. }
  destruct (rows_in_input_order acceptAll _ _ _ _ _ _ 1%nat _ H Hown Hdef eq_refl eq_refl)
    as (_ & v & Hv & Hc).
  injection Hv as <-. exact Hc.
Defined.

Lemma header_row_from_first_record_witness :
  let out :=
    okOr NewFile
      (write acceptAll ([Item "c" "l" true] ++ bar2 :: [bar2]) []) in
  GetCell acceptAll out "foo sheet name" "D1" = Some (CString "deleted_at").
Proof.
  intros out.
  assert (H : write acceptAll ([Item "c" "l" true] ++ bar2 :: [bar2]) [] = Ok out)
    by (vm_compute; reflexivity).
  assert (Hown : ownSheet acceptAll bar2 [bar2]).
  { apply ownSheet_same_name. repeat constructor. }
  assert (Hdef : defaultByName acceptAll "foo sheet name").
  { intros E. vm_compute in E. discriminate. }
  exact (header_row_from_first_record acceptAll _ _ _ _ _ _ 3%nat _ H Hown Hdef
           eq_refl eq_refl eq_refl eq_refl).
Defined.

(** ** Runs that succeed *)

Lemma fieldCell_supported (opt : options) (v : Value) :
  supportedValue v = true -> exists c, fieldCell opt true v = Ok c.
Proof.
  induction v as [t n|t n|s|b|x|x|t| |elem IH|typeName k]; intros H;
    try discriminate; try (simpl; eauto; fail).
  - destruct t; simpl; destruct (integerAsString opt); eauto.
  - destruct t; simpl; destruct (integerAsString opt); eauto.
  - simpl. destruct (trueValue opt), (falseValue opt), b; eauto.
Qed.

Lemma modelFields_callSheetName (m : SheetModel) (fields : list StructField) :
  modelFields m = Ok fields -> callSheetName m = Ok (SheetName m).
Proof. destruct m as [|n fs|[] n [fs|]|n k|[] n []]; simpl; congruence. Qed.

Section Success.

Variable sn : SheetNames.

Lemma writeFields_ok (skip : StructField -> bool)
  (value : StructField -> outcome CellValue) (sheetName : string) (line : Z)
  (fields : list StructField) (f : File) (i : Z) :
  indexOf sn sheetName (sheetList f) 0 <> -1 ->
  (forall (k : nat) (field : StructField),
      fields !! k = Some field -> skip field = false ->
      (exists v, value field = Ok v) /\ inDomain (i + Z.of_nat k + 1) line) ->
  exists f', writeFields sn skip value f sheetName line i fields = Ok f'.
Proof.
  revert f i. induction fields as [|fld rest IH]; intros f i Hs Hall; [simpl; eauto|].
  assert (Hrest : forall f0, indexOf sn sheetName (sheetList f0) 0 <> -1 ->
                    exists f', writeFields sn skip value f0 sheetName line (i + 1) rest = Ok f').
  { intros f0 Hs0. apply IH; [assumption|]. intros k field Hk Hsk.
    replace (i + 1 + Z.of_nat k + 1) with (i + Z.of_nat (S k) + 1) by lia.
    now apply Hall. }
  simpl. destruct (skip fld) eqn:Hsk; [now apply Hrest|].
  destruct (Hall 0%nat fld eq_refl Hsk) as [[v Hv] D].
  replace (i + Z.of_nat 0 + 1) with (i + 1) in D by lia.
  rewrite (coordinatesToCellName_ok _ _ D), Hv. unfold SetCellValue.
  destruct (indexOf sn sheetName (sheetList f) 0 =? -1) eqn:E;
    [apply Z.eqb_eq in E; contradiction|].
  now apply Hrest.
Qed.

(** The sheet is there once it was looked up and created if absent. *)
Lemma ensure_sheet (f : File) (sheetName : string) :
  checkSheetName sn sheetName = None ->
  exists f1 idx,
    (if indexOf sn sheetName (sheetList f) 0 =? -1
     then NewSheet sn f sheetName
     else (f, (indexOf sn sheetName (sheetList f) 0, None))) = (f1, (idx, None))
    /\ indexOf sn sheetName (sheetList f1) 0 <> -1.
Proof.
  intros Hc. destruct (indexOf sn sheetName (sheetList f) 0 =? -1) eqn:E.
  - unfold NewSheet. rewrite Hc, E. do 2 eexists. split; [reflexivity|].
    apply indexOf_present, sheetKeys_new_sheet. now right.
  - do 2 eexists. split; [reflexivity|]. now apply Z.eqb_neq in E.
Qed.

Lemma appendRow_ok (f : File) (name : string) (fields : list StructField)
  (line : Z) (opt : options) :
  checkSheetName sn name = None ->
  writableFields fields ->
  0 <= line -> dataLine line opt <= totalRows ->
  exists f', appendRow sn f (StructModel name fields) line opt = Ok f'.
Proof.
  intros Hc [Hlen Hfields] Hline Hmax.
  unfold appendRow, GetSheetIndex. cbn [callSheetName SheetName modelFields]. rewrite Hc.
  destruct (ensure_sheet f name Hc) as (f1 & idx & -> & Hs1).
  assert (Hcol : forall (k : nat) (field : StructField),
             fields !! k = Some field -> 1 <= 0 + Z.of_nat k + 1 <= maxColumns).
  { intros k field Hk. apply lookup_lt_Some in Hk. lia. }
  assert (Hdata : forall fa ln, indexOf sn name (sheetList fa) 0 <> -1 ->
                    1 <= ln <= totalRows ->
                    exists f', appendCells sn fa name ln opt 0 fields = Ok f').
  { intros fa ln Hsa Hln. rewrite appendCells_writeFields.
    apply writeFields_ok; [assumption|]. intros k field Hk _. split.
    - rewrite Forall_forall in Hfields.
      destruct (Hfields field) as [He Hv]; [now apply (list_elem_of_lookup_2 _ k)|].
      unfold dataCell. rewrite He. now apply fieldCell_supported.
    - split; [now apply (Hcol k field)|assumption]. }
  unfold dataLine in Hmax.
  destruct ((line + 1 =? 1) && negb (headless opt)).
  - rewrite appendHeaders_writeFields.
    destruct (writeFields_ok noSkip headerCell name 1 fields f1 0 Hs1) as [f2 Hf2].
    { intros k field Hk _. split; [unfold headerCell; eauto|].
      split; [now apply (Hcol k field)|unfold totalRows; lia]. }
    rewrite Hf2. apply Hdata; [|lia].
    now rewrite <- (writeFields_sheets _ _ _ _ _ _ _ _ _ Hf2) in Hs1.
  - apply Hdata; [assumption|lia].
Qed.

Lemma recordsOf_le_length (name : string) (ms : list SheetModel) :
  recordsOf name ms <= Z.of_nat (length ms).
Proof.
  unfold recordsOf. apply inj_le. apply length_filter.
Qed.

Lemma writeLoop_ok (opt : options) (rest done : list SheetModel)
  (st : File * gmap string Z) :
  writeLoop sn opt (NewFile, ∅) done = Ok st ->
  Forall (writableRecord sn) rest ->
  Z.of_nat (length (done ++ rest)) < totalRows ->
  exists st', writeLoop sn opt st rest = Ok st'.
Proof.
  revert done st. induction rest as [|m rest IH]; intros done st Hdone Hgood Hlen;
    [simpl; eauto|].
  apply Forall_cons in Hgood as [(name & fields & -> & Hname & Hc & Hw) Hgood].
  rewrite length_app in Hlen. simpl in Hlen.
  pose proof (writeLoop_counter _ _ _ [] _ _ Hdone (fun s => eq_refl) name) as Hl.
  simpl in Hl.
  pose proof (recordsOf_nonneg name done) as Hn0.
  pose proof (recordsOf_le_length name done) as Hn1.
  destruct st as [f cnt]. simpl in Hl.
  destruct (appendRow_ok f name fields (linesOf cnt name) opt Hc Hw) as [f' Hrow].
  { rewrite Hl. unfold expectedLines. destruct (_ =? 0); [lia|].
    destruct (headless opt); lia. }
  { rewrite Hl, dataLine_expected by assumption. destruct (headless opt); lia. }
  assert (exists st1, writeRecord sn opt (f, cnt) (StructModel name fields)
                      = Ok st1) as [st1 Hst1].
  { unfold writeRecord. cbn [callSheetName SheetName SheetModel_Kind].
    destruct (String.eqb_spec name ""); [contradiction|]. rewrite Hrow.
    destruct (_ && _); eauto. }
  cbn [writeLoop]. rewrite Hst1. apply (IH (done ++ [StructModel name fields])%list).
  - rewrite writeLoop_app, Hdone. cbn [writeLoop]. now rewrite Hst1.
  - assumption.
  - rewrite <- app_assoc. simpl. rewrite length_app. simpl. lia.
Qed.

Lemma setNoDataSheetHeadersLoop_ok (models : list SheetModel) (f : File) :
  Forall (declarablePrototype sn) models ->
  exists f', setNoDataSheetHeadersLoop sn f models = Ok f'.
Proof.
  revert f. induction models as [|m models IH]; intros f Hgood; [simpl; eauto|].
  apply Forall_cons in Hgood as [(fields & Hm & Hc & Hlen) Hgood].
  assert (exists f1, setNoDataSheetHeader sn f m = Ok f1) as [f1 Hf1].
  { unfold setNoDataSheetHeader, GetSheetIndex.
    rewrite (modelFields_callSheetName _ _ Hm), Hc.
    destruct (indexOf sn (SheetName m) (sheetList f) 0 =? -1) eqn:E; [|simpl; eauto].
    simpl. destruct (ensure_sheet f (SheetName m) Hc) as (fa & idx & Hfa & Hs).
    rewrite E in Hfa. rewrite Hfa, Hm, setHeaders_writeFields.
    apply writeFields_ok; [assumption|]. intros k field Hk _.
    split; [unfold headerCell; eauto|].
    apply lookup_lt_Some in Hk. unfold inDomain, totalRows. lia. }
  cbn [setNoDataSheetHeadersLoop]. rewrite Hf1. now apply IH.
Qed.

Lemma nonNil_Some (opts : list Option) : nonNil (map Some opts) = Some opts.
Proof. induction opts as [|o opts IH]; simpl; [|rewrite IH]; reflexivity. Qed.

Lemma nonNil_None (before after : list (option Option)) :
  nonNil (before ++ None :: after) = None.
Proof.
  induction before as [|[o|] before IH]; simpl; [|rewrite IH|]; reflexivity.
Qed.

(** When a run returns a file: the records are writable (a struct with a
    sheet name that is not empty and that the container accepts, at most
    16384 fields, each exported and of a supported type), the declared
    prototypes are declarable (a struct, or a pointer to one that is not
    nil, with a sheet name that the container accepts and at most 16384
    fields), the container accepts the name [Sheet1], and there are fewer
    records than a sheet has rows.  The overrides are functions: a nil
    one among them makes the run panic, whatever the records are. *)
Theorem write_succeeds (sheetModels : list SheetModel) (opts : list Option) :
  Forall (writableRecord sn) sheetModels ->
  Forall (declarablePrototype sn) (sheetHeaders (resolveOptions opts)) ->
  checkSheetName sn "Sheet1" = None ->
  Z.of_nat (length sheetModels) < totalRows ->
  (exists out, write sn sheetModels opts = Ok out)
  /\ writeNilable sn sheetModels (map Some opts) = write sn sheetModels opts
  /\ (forall ms before after,
        writeNilable sn ms (before ++ None :: after) = Panic).
Proof.
  intros Hrec Hproto Hdefault Hlen.
  split; [|split; [unfold writeNilable; now rewrite nonNil_Some
                  |intros; unfold writeNilable; now rewrite nonNil_None]].
  unfold write.
  destruct (writeLoop_ok (resolveOptions opts) sheetModels [] (NewFile, ∅) eq_refl
              Hrec Hlen) as [[f cnt] ->].
  assert (exists f', setNoDataSheetHeaders sn f (resolveOptions opts)
                     = Ok f') as [f' ->].
  { unfold setNoDataSheetHeaders. destruct (_ =? 0)%nat; [eauto|].
    now apply setNoDataSheetHeadersLoop_ok. }
  destruct (negb _); [|eauto].
  unfold DeleteSheet. rewrite Hdefault. destruct (_ || _); eauto.
Qed.

End Success.

Lemma write_succeeds_witness :
  (exists out,
      write acceptAll [bar2; Item "c" "l" true; bar2]
        [WithSheetHeaders [Item "" "" false; PtrModel ValueReceiver "empty" (Some [])]]
      = Ok out)
  /\ writeNilable acceptAll [bar2] [Some WithHeadless; None] = Panic.
Proof.
  split; [|reflexivity].
  apply (write_succeeds acceptAll).
  - repeat constructor; do 2 eexists;
      (split; [reflexivity|]); (split; [discriminate|]); (split; [reflexivity|]);
      (split; [vm_compute; discriminate|repeat constructor]).
  - repeat constructor; eexists; (split; [reflexivity|]); (split; [reflexivity|]);
      vm_compute; discriminate.
  - reflexivity.
  - vm_compute. reflexivity.
Defined.

(** ** Pointers, unsupported types, unexported fields *)

(** The jump back to the switch follows a chain of pointers of any depth:
    the cell is that of the value the chain ends in, which is no pointer
    with a target, and the null text when a pointer of the chain is nil. *)
Theorem pointer_chain_followed (opt : options) (exported : bool) (v : Value) :
  fieldCell opt exported v = fieldCell opt exported (pointee v)
  /\ (forall elem, pointee v <> VPointer elem)
  /\ (pointee v = VNilPointer ->
      fieldCell opt exported v = Ok (CString (ifNullValue opt))).
Proof.
  split; [apply fieldCell_pointee|]. split.
  - induction v as [t n|t n|s|b|x|x|t| |elem IH|typeName k]; intros e;
      try discriminate. apply IH.
  - intros H. now rewrite fieldCell_pointee, H.
Qed.

Lemma fieldCell_other (opt : options) (exported : bool) (v : Value)
  (typeName : string) (k : reflect.Kind) :
  pointee v = VOther typeName k ->
  k <> reflect.Pointer ->
  exported = true \/ typeSwitchKind k = false ->
  fieldCell opt exported v
  = Err ("unsupported type "
         ++ (if typeSwitchKind k then typeName else reflect.Kind_String k)).
Proof.
  intros Hp Hk He. rewrite fieldCell_pointee, Hp.
  destruct k; try reflexivity; try contradiction;
    destruct He as [->|He]; try reflexivity; discriminate He.
Qed.

Lemma fieldCell_unexported (opt : options) (v : Value) :
  typeSwitchKind (Value_Kind (pointee v)) = true ->
  fieldCell opt false v = Panic.
Proof.
  intros H. rewrite fieldCell_pointee.
  destruct (pointee v) as [t n|t n|s|b|x|x|t| |elem|typeName k];
    try reflexivity; try discriminate H.
  - now destruct t.
  - now destruct t.
  - simpl in H. destruct k; try reflexivity; discriminate H.
Qed.

Section FirstFailure.

Variable sn : SheetNames.

(** A field loop stops at the first field whose value is refused, with the
    error or the panic of that field. *)
Lemma writeFields_fails (skip : StructField -> bool)
  (value : StructField -> outcome CellValue) (sheetName : string) (line : Z)
  (pre post : list StructField) (fld : StructField) (bad : outcome File)
  (f : File) (i : Z) :
  indexOf sn sheetName (sheetList f) 0 <> -1 ->
  (forall (k : nat) (field : StructField),
      pre !! k = Some field -> skip field = false ->
      (exists v, value field = Ok v) /\ inDomain (i + Z.of_nat k + 1) line) ->
  skip fld = false ->
  inDomain (i + Z.of_nat (length pre) + 1) line ->
  (exists e, value fld = Err e /\ bad = Err e) \/ (value fld = Panic /\ bad = Panic) ->
  writeFields sn skip value f sheetName line i (pre ++ fld :: post) = bad.
Proof.
  revert f i. induction pre as [|p pre IH]; intros f i Hs Hall Hsk D He.
  - simpl. rewrite Hsk. simpl in D.
    replace (i + Z.of_nat 0 + 1) with (i + 1) in D by lia.
    rewrite (coordinatesToCellName_ok _ _ D).
    destruct He as [(e & -> & ->)|[-> ->]]; reflexivity.
  - assert (Hrest : forall f0, indexOf sn sheetName (sheetList f0) 0 <> -1 ->
              writeFields sn skip value f0 sheetName line (i + 1) (pre ++ fld :: post) = bad).
    { intros f0 Hs0. apply IH; try assumption.
      - intros k field Hk Hskf.
        replace (i + 1 + Z.of_nat k + 1) with (i + Z.of_nat (S k) + 1) by lia.
        now apply Hall.
      - replace (i + 1 + Z.of_nat (length pre) + 1)
          with (i + Z.of_nat (length (p :: pre)) + 1) by (simpl; lia).
        assumption. }
    simpl. destruct (skip p) eqn:Hp; [now apply Hrest|].
    destruct (Hall 0%nat p eq_refl Hp) as [[v Hv] D0].
    replace (i + Z.of_nat 0 + 1) with (i + 1) in D0 by lia.
    rewrite (coordinatesToCellName_ok _ _ D0), Hv. unfold SetCellValue.
    destruct (indexOf sn sheetName (sheetList f) 0 =? -1) eqn:E;
      [apply Z.eqb_eq in E; contradiction|].
    now apply Hrest.
Qed.

(** The run stops at the first field that is refused, in the first record
    that has one. *)
Lemma write_field_fails (done rest : list SheetModel) (opts : list Option)
  (name : string) (pre post : list StructField) (field : StructField)
  (bad : outcome File) :
  Forall (writableRecord sn) done ->
  Z.of_nat (length done) + 1 < totalRows ->
  name <> "" ->
  checkSheetName sn name = None ->
  writableFields pre ->
  Z.of_nat (length (pre ++ field :: post)) <= maxColumns ->
  (exists e, dataCell (resolveOptions opts) field = Err e /\ bad = Err e)
  \/ (dataCell (resolveOptions opts) field = Panic /\ bad = Panic) ->
  write sn (done ++ StructModel name (pre ++ field :: post) :: rest) opts
  = bad.
Proof.
  intros Hdone Hlen Hname Hc [_ Hpre] Hcols Hbad.
  destruct (writeLoop_ok sn (resolveOptions opts) done [] (NewFile, ∅)
              eq_refl Hdone) as [[f cnt] Hloop]; [cbn [app]; lia|].
  set (opt := resolveOptions opts) in *. set (fields := (pre ++ field :: post)%list) in *.
  assert (Hrow : match appendRow sn f (StructModel name fields)
                         (linesOf cnt name) opt with
                 | Ok _ => False
                 | Err e => bad = Err e
                 | Panic => bad = Panic
                 end).
  { pose proof (writeLoop_counter _ _ _ [] _ _ Hloop (fun s => eq_refl) name) as Hl.
    simpl in Hl. pose proof (recordsOf_nonneg name done) as Hn0.
    pose proof (recordsOf_le_length name done) as Hn1.
    assert (Hline : 1 <= dataLine (linesOf cnt name) opt <= totalRows).
    { rewrite Hl, dataLine_expected by assumption. destruct (headless opt); lia. }
    unfold appendRow, GetSheetIndex. cbn [callSheetName SheetName modelFields].
    rewrite Hc. destruct (ensure_sheet sn f name Hc) as (f1 & idx & -> & Hs1).
    assert (Hcol : forall (j : nat) (fld : StructField),
               fields !! j = Some fld -> 1 <= 0 + Z.of_nat j + 1 <= maxColumns).
    { intros j fld Hj. apply lookup_lt_Some in Hj. lia. }
    assert (Hdata : forall fa ln, indexOf sn name (sheetList fa) 0 <> -1 ->
                      1 <= ln <= totalRows ->
                      appendCells sn fa name ln opt 0 fields = bad).
    { intros fa ln Hsa Hln. rewrite appendCells_writeFields.
      apply writeFields_fails; try assumption; try reflexivity.
      - intros j fld Hj _. split.
        + rewrite Forall_forall in Hpre.
          destruct (Hpre fld) as [He Hv]; [now apply (list_elem_of_lookup_2 _ j)|].
          unfold dataCell. rewrite He. now apply fieldCell_supported.
        + split; [|assumption]. apply (Hcol j fld).
          unfold fields. now rewrite lookup_app_l by now apply lookup_lt_Some in Hj.
      - split; [|assumption]. apply (Hcol (length pre) field).
        unfold fields. now rewrite list_lookup_middle. }
    assert (Hshape : forall r : outcome File, r = bad ->
              match r with Ok _ => False | Err e => bad = Err e | Panic => bad = Panic end).
    { intros r ->. destruct Hbad as [(e & _ & ->)|[_ ->]]; reflexivity. }
    unfold dataLine in Hline.
    destruct ((linesOf cnt name + 1 =? 1) && negb (headless opt)).
    - rewrite appendHeaders_writeFields.
      destruct (writeFields_ok sn noSkip headerCell name 1 fields f1 0 Hs1) as [f2 Hf2].
      { intros j fld Hj _. split; [unfold headerCell; eauto|].
        split; [now apply (Hcol j fld)|unfold totalRows; lia]. }
      rewrite Hf2. apply Hshape, Hdata; [|lia].
      now rewrite <- (writeFields_sheets _ _ _ _ _ _ _ _ _ Hf2) in Hs1.
    - now apply Hshape, Hdata. }
  unfold write. fold opt. rewrite writeLoop_app, Hloop. cbn [writeLoop].
  unfold writeRecord. cbn [callSheetName SheetName SheetModel_Kind].
  destruct (String.eqb_spec name ""); [contradiction|]. fold fields.
  destruct (appendRow sn f (StructModel name fields) (linesOf cnt name) opt);
    [contradiction|now subst bad..].
Qed.

(** A field of a type outside the table makes the run fail with an error
    that names the type: the kind for a map, a slice, an array, a channel,
    a function, an interface, a complex number or a [uintptr], whether the
    field is exported or not; the type itself for a defined type or a
    struct other than [time.Time] in an exported field; a pointer to such a
    value does the same.  The records and the fields before it are
    writable. *)
Theorem unsupported_field_type (done rest : list SheetModel) (opts : list Option)
  (name : string) (pre post : list StructField) (field : StructField)
  (typeName : string) (k : reflect.Kind) :
  Forall (writableRecord sn) done ->
  Z.of_nat (length done) + 1 < totalRows ->
  name <> "" ->
  checkSheetName sn name = None ->
  writableFields pre ->
  Z.of_nat (length (pre ++ field :: post)) <= maxColumns ->
  pointee (Val field) = VOther typeName k ->
  k <> reflect.Pointer ->
  IsExported field = true \/ typeSwitchKind k = false ->
  write sn (done ++ StructModel name (pre ++ field :: post) :: rest) opts
  = Err ("unsupported type "
         ++ (if typeSwitchKind k then typeName else reflect.Kind_String k)).
Proof.
  intros Hdone Hlen Hname Hc Hpre Hcols Hp Hk He.
  apply write_field_fails; try assumption.
  left. eexists. split; [|reflexivity].
  unfold dataCell. now apply fieldCell_other.
Qed.

(** An unexported field whose value reaches the type switch (its kind, or
    that of the value its pointers lead to, is a struct, an integer, a
    string, a boolean or a float) makes the run panic: [Interface] is
    called on a value obtained from an unexported field. *)
Theorem unexported_field_panics (done rest : list SheetModel) (opts : list Option)
  (name : string) (pre post : list StructField) (field : StructField) :
  Forall (writableRecord sn) done ->
  Z.of_nat (length done) + 1 < totalRows ->
  name <> "" ->
  checkSheetName sn name = None ->
  writableFields pre ->
  Z.of_nat (length (pre ++ field :: post)) <= maxColumns ->
  IsExported field = false ->
  typeSwitchKind (Value_Kind (pointee (Val field))) = true ->
  write sn (done ++ StructModel name (pre ++ field :: post) :: rest) opts
  = Panic.
Proof.
  intros Hdone Hlen Hname Hc Hpre Hcols He Hk.
  apply write_field_fails; try assumption.
  right. split; [|reflexivity].
  unfold dataCell. rewrite He. now apply fieldCell_unexported.
Qed.

End FirstFailure.

Lemma unsupported_field_type_witness :
  write acceptAll
    ([bar2] ++ StructModel "tags"
                 ([mkField "ID" "" true (VInt TInt 1)]
                  ++ mkField "Tags" "" true
                       (VPointer (VOther "map[string]string" reflect.Map))
                  :: [mkField "Name" "" true (VString "n")])
            :: [bar2]) []
  = Err "unsupported type map".
Proof.
  apply (unsupported_field_type acceptAll [bar2] [bar2] [] "tags"
           [mkField "ID" "" true (VInt TInt 1)] [mkField "Name" "" true (VString "n")]
           (mkField "Tags" "" true (VPointer (VOther "map[string]string" reflect.Map)))
           "map[string]string" reflect.Map).
  - repeat constructor. do 2 eexists.
    split; [reflexivity|]. split; [discriminate|]. split; [reflexivity|].
    split; [vm_compute; discriminate|repeat constructor].
  - vm_compute. reflexivity.
  - discriminate.
  - reflexivity.
  - split; [vm_compute; discriminate|repeat constructor].
  - vm_compute. discriminate.
  - reflexivity.
  - discriminate.
  - now left.
Defined.

Lemma unexported_field_panics_witness :
  write acceptAll
    ([bar2] ++ StructModel "users"
                 ([mkField "ID" "" true (VInt TInt 1)]
                  ++ mkField "secret" "" false (VString "s") :: [])
            :: []) []
  = Panic.
Proof.
  apply (unexported_field_panics acceptAll [bar2] [] [] "users"
           [mkField "ID" "" true (VInt TInt 1)] []
           (mkField "secret" "" false (VString "s"))).
  - repeat constructor. do 2 eexists.
    split; [reflexivity|]. split; [discriminate|]. split; [reflexivity|].
    split; [vm_compute; discriminate|repeat constructor].
  - vm_compute. reflexivity.
  - discriminate.
  - reflexivity.
  - split; [vm_compute; discriminate|repeat constructor].
  - vm_compute. discriminate.
  - reflexivity.
  - reflexivity.
Defined.

(** ** Records the loop refuses *)

(** The checks of the record loop, in their order: a nil record is refused
    as a nil reference; then [SheetName] is called, which panics on a nil
    pointer whose method has a value receiver; then an empty
    sheet name is refused, whatever the record is; then a record that is no
    struct.  The run returns the error of the first record refused, once
    the records before it were accepted; the records after it are not
    looked at. *)
Theorem invalid_record_stops_run (sn : SheetNames)
  (pre post : list SheetModel) (opts : list Option) (m : SheetModel)
  (st : File * gmap string Z) :
  writeLoop sn (resolveOptions opts) (NewFile, ∅) pre = Ok st ->
  let run := write sn (pre ++ m :: post) opts in
  (m = NilModel -> run = Err "nil reference row append is not allowed")
  /\ (m <> NilModel -> callSheetName m = Panic -> run = Panic)
  /\ (callSheetName m = Ok "" -> run = Err "sheetModel must have a sheet name")
  /\ (forall name, callSheetName m = Ok name -> name <> "" ->
        SheetModel_Kind m <> reflect.Struct ->
        run = Err "sheetModel must be struct").
Proof.
  intros Hpre run. subst run. unfold write. rewrite writeLoop_app, Hpre.
  cbn [writeLoop]. destruct st as [f cnt]. unfold writeRecord.
  split; [now intros ->|]. split; [|split].
  - intros Hn Hcall. destruct m; [contradiction|now rewrite Hcall..].
  - intros Hcall. destruct m; [discriminate Hcall|now rewrite Hcall..].
  - intros name Hcall Hname Hkind.
    destruct m as [|n fields|r n elem|n k|r n b]; [discriminate Hcall|..];
      rewrite Hcall; destruct (String.eqb_spec name ""); try contradiction;
      cbn [SheetModel_Kind] in *; try reflexivity; try contradiction.
    destruct k; try reflexivity. contradiction.
Qed.

Lemma invalid_record_stops_run_witness :
  write acceptAll ([bar2] ++ NilModel :: [bar2]) []
  = Err "nil reference row append is not allowed"
  /\ write acceptAll ([bar2] ++ StructModel "" [] :: [bar2]) []
     = Err "sheetModel must have a sheet name"
  /\ write acceptAll ([bar2] ++ OtherModel "ages" reflect.Int :: [bar2]) []
     = Err "sheetModel must be struct".
Proof.
  assert (H : writeLoop acceptAll (resolveOptions []) (NewFile, ∅) [bar2]
              = Ok (okOr (NewFile, ∅)
                      (writeLoop acceptAll (resolveOptions []) (NewFile, ∅) [bar2])))
    by (vm_compute; reflexivity).
  split; [|split].
  - exact (proj1 (invalid_record_stops_run acceptAll [bar2] [bar2] [] NilModel _ H)
             eq_refl).
  - exact (proj1 (proj2 (proj2
             (invalid_record_stops_run acceptAll [bar2] [bar2] [] (StructModel "" []) _ H)))
             eq_refl).
  - refine (proj2 (proj2 (proj2
             (invalid_record_stops_run acceptAll [bar2] [bar2] []
                (OtherModel "ages" reflect.Int) _ H))) "ages" eq_refl _ _);
      discriminate.
Defined.

(** ** Coordinates out of range *)

(** The translation returns no error exactly on the domain, columns 1 to
    16384 and rows 1 to 1048576.  Outside of it the checks are made in this
    order: a column or a row below 1 (the error shows both numbers), a row
    above the last one, a column above the last one; the first three
    return the empty string, the last one the decimal text of the row. *)
Theorem coordinate_error_cases (col row : Z) :
  (snd (coordinatesToCellName col row) = None <-> inDomain col row)
  /\ (col < 1 \/ row < 1 ->
      coordinatesToCellName col row
      = ("", Some ("invalid cell reference [" ++ strconv.Itoa col ++ ", "
                   ++ strconv.Itoa row ++ "]")))
  /\ (1 <= col -> totalRows < row ->
      coordinatesToCellName col row = ("", Some "row number exceeds maximum limit"))
  /\ (maxColumns < col -> 1 <= row <= totalRows ->
      coordinatesToCellName col row
      = (strconv.Itoa row,
         Some "the column number must be greater than or equal to 1 and less than or equal to 16384")).
Proof.
  split; [|split; [|split]].
  - split.
    + destruct (coordinatesToCellName col row) as [name err] eqn:E. simpl.
      intros ->. now apply coordinatesToCellName_domain in E.
    + intros D. now rewrite coordinatesToCellName_ok.
  - intros H. unfold coordinatesToCellName.
    destruct (col <? 1) eqn:E1; [reflexivity|].
    destruct (row <? 1) eqn:E2; [reflexivity|].
    apply Z.ltb_ge in E1, E2. lia.
  - intros Hc Hr. unfold coordinatesToCellName, totalRows in *.
    destruct (col <? 1) eqn:E1; [apply Z.ltb_lt in E1; lia|].
    destruct (row <? 1) eqn:E2; [apply Z.ltb_lt in E2; lia|].
    destruct (1048576 <? row) eqn:E3; [reflexivity|apply Z.ltb_ge in E3; lia].
  - intros Hc Hr. unfold coordinatesToCellName, columnNumberToName, minColumns,
      maxColumns, totalRows in *.
    destruct (col <? 1) eqn:E1; [apply Z.ltb_lt in E1; lia|].
    destruct (row <? 1) eqn:E2; [apply Z.ltb_lt in E2; lia|].
    destruct (1048576 <? row) eqn:E3; [apply Z.ltb_lt in E3; lia|].
    destruct (16384 <? col) eqn:E4; [|apply Z.ltb_ge in E4; lia].
    reflexivity.
Qed.

(** ** Column names as numerals *)

Lemma columnNumber_app (acc : Z) (a b : string) :
  columnNumber acc (a ++ b) = columnNumber (columnNumber acc a) b.
Proof.
  revert acc. induction a as [|c a IH]; intros acc; [reflexivity|].
  rewrite append_cons. simpl. apply IH.
Qed.

Lemma columnNumber_columnName (num : Z) : 0 <= num -> columnNumber 0 (columnName num) = num.
Proof.
  intros H. pattern num. apply Zlt_0_ind; [|exact H].
  clear num H. intros n IH H.
  destruct (Z.eq_dec n 0) as [->|N]; [reflexivity|].
  rewrite columnName_step, columnNumber_app by lia.
  pose proof (quot26_bound n ltac:(lia)).
  rewrite IH by lia. simpl. rewrite columnLetter_code by lia.
  pose proof (Z.quot_rem' (n - 1) 26). lia.
Qed.

Lemma length_append (a b : string) :
  String.length (a ++ b) = (String.length a + String.length b)%nat.
Proof.
  induction a as [|c a IH]; [reflexivity|]. rewrite append_cons. simpl. now rewrite IH.
Qed.

Lemma columnName_length (num : Z) :
  1 <= num <= maxColumns ->
  Z.of_nat (String.length (columnName num))
  = (if num <=? 26 then 1 else if num <=? 702 then 2 else 3).
Proof.
  unfold maxColumns. intros H.
  assert (Hq : forall n, 0 < n -> Z.quot (n - 1) 26 = (n - 1) / 26).
  { intros n Hn. apply Z.quot_div_nonneg; lia. }
  assert (Hstep : forall n, 0 < n ->
            String.length (columnName n)
            = S (String.length (columnName ((n - 1) / 26)))).
  { intros n Hn. rewrite columnName_step, length_append, Hq by lia. simpl. lia. }
  rewrite Hstep by lia.
  destruct (num <=? 26) eqn:E1.
  - apply Z.leb_le in E1. replace ((num - 1) / 26) with 0; [reflexivity|].
    symmetry. apply Z.div_small. lia.
  - apply Z.leb_gt in E1.
    assert (1 <= (num - 1) / 26) by (apply Z.div_le_lower_bound; lia).
    rewrite Hstep by lia.
    destruct (num <=? 702) eqn:E2.
    + apply Z.leb_le in E2.
      replace (((num - 1) / 26 - 1) / 26) with 0; [reflexivity|].
      symmetry. apply Z.div_small.
      assert ((num - 1) / 26 < 27) by (apply Z.div_lt_upper_bound; lia). lia.
    + apply Z.leb_gt in E2.
      assert (27 <= (num - 1) / 26) by (apply Z.div_le_lower_bound; lia).
      assert (1 <= ((num - 1) / 26 - 1) / 26) by (apply Z.div_le_lower_bound; lia).
      rewrite Hstep by lia.
      replace ((((num - 1) / 26 - 1) / 26 - 1) / 26) with 0; [reflexivity|].
      symmetry. apply Z.div_small.
      assert ((num - 1) / 26 < 631) by (apply Z.div_lt_upper_bound; lia).
      assert (((num - 1) / 26 - 1) / 26 < 25) by (apply Z.div_lt_upper_bound; lia).
      lia.
Qed.

(** The name of a column in range is the numeral of the column number in
    base 26 with the digits A = 1 to Z = 26 and no zero: reading the
    letters back gives the number.  It has one letter up to column 26, two
    up to column 702 and three beyond. *)
Theorem column_name_round_trip (num : Z) :
  1 <= num <= maxColumns ->
  let name := fst (columnNumberToName num) in
  snd (columnNumberToName num) = None
  /\ columnNumber 0 name = num
  /\ allChars isUpperLetter name = true
  /\ Z.of_nat (String.length name)
     = (if num <=? 26 then 1 else if num <=? 702 then 2 else 3).
Proof.
  intros H name. subst name. rewrite (columnNumberToName_ok num H). simpl.
  split; [reflexivity|].
  split; [apply columnNumber_columnName; lia|].
  split; [apply columnName_upper; lia|now apply columnName_length].
Qed.

Lemma column_name_round_trip_witness :
  columnNumberToName 703 = ("AAA", None)
  /\ columnNumber 0 (fst (columnNumberToName 703)) = 703
  /\ Z.of_nat (String.length (fst (columnNumberToName 703))) = 3.
Proof.
  assert (H : 1 <= 703 <= maxColumns) by (unfold maxColumns; lia).
  destruct (column_name_round_trip 703 H) as (_ & H2 & _ & H4).
  split; [reflexivity|]. split; [exact H2|exact H4].
Defined.

(** ** Overrides of different options *)

Lemma setsField_commute (o1 o2 : Option) (k1 k2 : optionField) (s : options) :
  setsField o1 k1 -> setsField o2 k2 -> k1 <> k2 -> o2 (o1 s) = o1 (o2 s).
Proof.
  intros H1 H2 N. destruct H1; destruct H2; try reflexivity; contradiction.
Qed.

(** Two overrides that assign different options can be exchanged: the
    configuration a run works with depends on the order of the overrides
    only among those of the same option. *)
Theorem different_options_commute (pre post : list Option) (o1 o2 : Option)
  (k1 k2 : optionField) :
  setsField o1 k1 -> setsField o2 k2 -> k1 <> k2 ->
  resolveOptions (pre ++ o1 :: o2 :: post) = resolveOptions (pre ++ o2 :: o1 :: post).
Proof.
  intros H1 H2 N. unfold resolveOptions.
  rewrite !applyOptions_app, !applyOptions_cons. f_equal.
  now apply setsField_commute with k1 k2.
Qed.

Lemma different_options_commute_witness :
  resolveOptions ([WithIfNullValue "-"] ++ WithHeadless :: WithBoolValueAs "Y" "N" :: [])
  = resolveOptions ([WithIfNullValue "-"] ++ WithBoolValueAs "Y" "N" :: WithHeadless :: []).
Proof.
  apply (different_options_commute _ _ _ _ FHeadless FBoolValues).
  - constructor.
  - constructor.
  - discriminate.
Defined.

(** ** The sheets and the cells of a run, exactly *)

Lemma containsModelSheetNameEqSheet1_false (ms : list SheetModel) (opt : options) :
  containsModelSheetNameEqSheet1 ms opt = false
  <-> "Sheet1" ∉ map SheetName (ms ++ sheetHeaders opt).
Proof.
  assert (H : forall l, existsb (fun m => String.eqb (SheetName m) "Sheet1") l = false
                        <-> "Sheet1" ∉ map SheetName l).
  { induction l as [|m l IH]; simpl.
    - split; [intros _; apply not_elem_of_nil|reflexivity].
    - rewrite orb_false_iff, IH, not_elem_of_cons.
      destruct (String.eqb_spec (SheetName m) "Sheet1"); intuition congruence. }
  unfold containsModelSheetNameEqSheet1.
  rewrite orb_false_iff, !H, map_app, not_elem_of_app. reflexivity.
Qed.

Lemma modelKeys_app (sn : SheetNames) (a b : list SheetModel) (key : string) :
  key ∈ modelKeys sn (a ++ b) <-> key ∈ modelKeys sn a \/ key ∈ modelKeys sn b.
Proof. unfold modelKeys. rewrite map_app. apply elem_of_app. Qed.

Lemma modelKeys_elem (sn : SheetNames) (m : SheetModel) (ms : list SheetModel) :
  m ∈ ms -> foldSheetName sn (SheetName m) ∈ modelKeys sn ms.
Proof.
  induction ms as [|x ms IH]; intros H.
  - now apply elem_of_nil in H.
  - apply elem_of_cons in H as [->|H]; simpl; [left|right; now apply IH].
Qed.

Section RunSheets.

Variable sn : SheetNames.

Lemma writeLoop_sheet_iff (opt : options) (ms : list SheetModel)
  (st st' : File * gmap string Z) (key : string) :
  writeLoop sn opt st ms = Ok st' ->
  key ∈ sheetKeys sn st'.1 <-> key ∈ sheetKeys sn st.1 \/ key ∈ modelKeys sn ms.
Proof.
  revert st. induction ms as [|m ms IH]; intros st H.
  - injection H as <-. simpl. split; [now left|].
    intros [Hs|Hs]; [assumption|now apply elem_of_nil in Hs].
  - simpl in H. destruct (writeRecord sn opt st m) as [st1|e|] eqn:E;
      [|discriminate..].
    rewrite (IH _ H). destruct st as [f cnt], st1 as [f1 cnt1].
    apply writeRecord_inv in E as (_ & _ & Hrow & _). simpl.
    rewrite (appendRow_sheet_elem _ _ _ _ _ _ key Hrow), elem_of_cons. tauto.
Qed.

Lemma setNoDataSheetHeadersLoop_sheet_iff (models : list SheetModel) (f f' : File)
  (key : string) :
  setNoDataSheetHeadersLoop sn f models = Ok f' ->
  wfFile sn f ->
  key ∈ sheetKeys sn f' <-> key ∈ sheetKeys sn f \/ key ∈ modelKeys sn models.
Proof.
  revert f. induction models as [|m models IH]; intros f H Hwf.
  - injection H as <-. simpl. split; [now left|].
    intros [Hs|Hs]; [assumption|now apply elem_of_nil in Hs].
  - simpl in H. destruct (setNoDataSheetHeader sn f m) as [f1|e|] eqn:E;
      [|discriminate..].
    destruct (setNoDataSheetHeader_file _ _ _ _ E Hwf) as (Hwf1 & Hs1 & _).
    rewrite (IH _ H Hwf1), Hs1. simpl. rewrite elem_of_cons. tauto.
Qed.

(** The sheets and the well-formedness of the file when the record loop
    and the pass over the prototypes are over. *)
Lemma write_before_delete (ms : list SheetModel) (opt : options)
  (f f' : File) (cnt : gmap string Z) :
  writeLoop sn opt (NewFile, ∅) ms = Ok (f, cnt) ->
  setNoDataSheetHeaders sn f opt = Ok f' ->
  wfFile sn f
  /\ (forall key, key ∈ sheetKeys sn f' <->
        key = foldSheetName sn "Sheet1"
        \/ key ∈ modelKeys sn (ms ++ sheetHeaders opt))
  /\ (forall key c, key ∈ sheetKeys sn f ->
        cellStore f' !! (key, c) = cellStore f !! (key, c)).
Proof.
  intros Hl Hset.
  destruct (writeLoop_file _ _ _ _ _ Hl (wfFile_NewFile sn)) as [Hwf _]. simpl in Hwf.
  split; [assumption|].
  assert (Hf : forall key, key ∈ sheetKeys sn f
                           <-> key = foldSheetName sn "Sheet1" \/ key ∈ modelKeys sn ms).
  { intros key. rewrite (writeLoop_sheet_iff _ _ _ _ key Hl).
    change (sheetKeys sn (NewFile, ∅).1) with [foldSheetName sn "Sheet1"].
    now rewrite list_elem_of_singleton. }
  unfold setNoDataSheetHeaders in Hset.
  destruct (length (sheetHeaders opt) =? 0)%nat eqn:E.
  - injection Hset as <-. apply Nat.eqb_eq in E.
    destruct (sheetHeaders opt); [|discriminate]. split; [|reflexivity].
    intros key. rewrite Hf, app_nil_r. reflexivity.
  - split.
    + intros key.
      rewrite (setNoDataSheetHeadersLoop_sheet_iff _ _ _ key Hset Hwf), Hf, modelKeys_app.
      tauto.
    + now destruct (setNoDataSheetHeadersLoop_file _ _ _ _ Hset Hwf) as (_ & _ & _ & Hc).
Qed.

(** Records whose sheets the container finds add no sheet. *)
Lemma writeLoop_same_sheets (opt : options) (ms : list SheetModel)
  (st st' : File * gmap string Z) :
  writeLoop sn opt st ms = Ok st' ->
  (forall key, key ∈ modelKeys sn ms -> key ∈ sheetKeys sn st.1) ->
  sheetList st'.1 = sheetList st.1.
Proof.
  revert st. induction ms as [|m ms IH]; intros st H Hall.
  - now injection H as <-.
  - simpl in H. destruct (writeRecord sn opt st m) as [st1|e|] eqn:E;
      [|discriminate..].
    destruct st as [f cnt], st1 as [f1 cnt1].
    apply writeRecord_inv in E as (_ & _ & Hrow & _). simpl in *.
    assert (E1 : sheetList f1 = sheetList f).
    { rewrite (appendRow_sheets _ _ _ _ _ _ Hrow).
      destruct (indexOf sn (SheetName m) (sheetList f) 0 =? -1) eqn:Ei; [|reflexivity].
      apply Z.eqb_eq in Ei. exfalso.
      assert (Hh : hasSheet sn f (SheetName m)) by (apply Hall; left).
      now apply indexOf_present in Hh. }
    rewrite (IH _ H); [assumption|]. simpl. intros key Hk.
    unfold sheetKeys. rewrite E1. apply Hall. now right.
Qed.

Lemma setNoDataSheetHeadersLoop_same_sheets (models : list SheetModel) (f f' : File) :
  setNoDataSheetHeadersLoop sn f models = Ok f' ->
  (forall key, key ∈ modelKeys sn models -> key ∈ sheetKeys sn f) ->
  f' = f.
Proof.
  revert f. induction models as [|m models IH]; intros f H Hall.
  - now injection H as <-.
  - simpl in H. destruct (setNoDataSheetHeader sn f m) as [f1|e|] eqn:E;
      [|discriminate..].
    apply setNoDataSheetHeader_inv in E as [[_ ->]|[Hout _]].
    + apply (IH _ H). intros key Hk. apply Hall. now right.
    + exfalso. apply Hout. apply Hall. left.
Qed.

(** The sheets of the file a run returns, as the container finds them.  A
    sheet other than the default one is there exactly when a record or a
    declared prototype names it.  The default sheet [Sheet1] is there
    exactly when a record or a prototype has the name [Sheet1], letter for
    letter, or when every record and every prototype goes to it, so that it
    is the only sheet: under another spelling of its name it is deleted as
    soon as there is another sheet. *)
Theorem sheets_of_run (sheetModels : list SheetModel) (opts : list Option)
  (out : File) (s : string) :
  write sn sheetModels opts = Ok out ->
  let named := (sheetModels ++ sheetHeaders (resolveOptions opts))%list in
  (foldSheetName sn s <> foldSheetName sn "Sheet1" ->
   (hasSheet sn out s <-> foldSheetName sn s ∈ modelKeys sn named))
  /\ (hasSheet sn out "Sheet1"
      <-> "Sheet1" ∈ map SheetName named
          \/ Forall (fun m => foldSheetName sn (SheetName m)
                              = foldSheetName sn "Sheet1") named).
Proof.
  intros H named. unfold write in H.
  destruct (writeLoop sn (resolveOptions opts) (NewFile, ∅) sheetModels)
    as [[f cnt]|e|] eqn:El; [|discriminate..].
  destruct (setNoDataSheetHeaders sn f (resolveOptions opts))
    as [f'|e|] eqn:Eset; [|discriminate..].
  destruct (write_before_delete _ _ _ _ _ El Eset) as (_ & Hs & _).
  fold named in Hs.
  assert (Hd : hasSheet sn f' "Sheet1") by (apply Hs; now left).
  destruct (containsModelSheetNameEqSheet1 sheetModels (resolveOptions opts)) eqn:Econ;
    simpl in H.
  - injection H as <-. split.
    + intros N. unfold hasSheet. rewrite Hs. tauto.
    + split; [intros _; left|intros _; exact Hd].
      destruct (decide ("Sheet1" ∈ map SheetName named)) as [|N]; [assumption|].
      apply containsModelSheetNameEqSheet1_false in N. congruence.
  - apply containsModelSheetNameEqSheet1_false in Econ. fold named in Econ.
    unfold DeleteSheet in H.
    destruct (checkSheetName sn "Sheet1"); [discriminate|].
    destruct (length (sheetList f') =? 1)%nat eqn:Elen.
    + simpl in H. injection H as <-. apply Nat.eqb_eq in Elen. split.
      * intros N. unfold hasSheet. rewrite Hs. tauto.
      * split; [intros _; right|intros _; exact Hd].
        unfold hasSheet, sheetKeys in Hd. unfold sheetKeys in Hs.
        destruct (sheetList f') as [|x [|y l]]; try discriminate Elen.
        simpl in Hd, Hs. apply list_elem_of_singleton in Hd.
        apply Forall_forall. intros m Hm.
        assert (Hk : foldSheetName sn (SheetName m) ∈ [foldSheetName sn x]).
        { apply Hs. right. now apply modelKeys_elem. }
        apply list_elem_of_singleton in Hk. congruence.
    + apply Nat.eqb_neq in Elen.
      assert (Ei : (indexOf sn "Sheet1" (sheetList f') 0 =? -1) = false).
      { apply Z.eqb_neq. now apply indexOf_present. }
      rewrite Ei in H. simpl in H. injection H as <-.
      unfold hasSheet, sheetKeys. simpl. rewrite !sheetKeys_filter. split.
      * intros N. fold (sheetKeys sn f'). rewrite Hs. tauto.
      * split; [intros [_ N]; now contradiction N|].
        intros [Hin|Hall]; [contradiction|]. exfalso. apply Elen.
        rewrite Forall_forall in Hall.
        assert (Hkeys : forall ms key, (forall m, m ∈ ms -> m ∈ named) ->
                          key ∈ modelKeys sn ms -> key = foldSheetName sn "Sheet1").
        { intros ms key Hsub Hk. unfold modelKeys in Hk.
          apply list_elem_of_fmap in Hk as (m & -> & Hm). apply Hall. now apply Hsub. }
        assert (E1 : sheetList f = ["Sheet1"]).
        { apply (writeLoop_same_sheets _ _ _ _ El). simpl. intros key Hk.
          apply list_elem_of_singleton.
          apply (Hkeys sheetModels); [|assumption].
          intros m Hm. apply elem_of_app. now left. }
        assert (E2 : f' = f).
        { unfold setNoDataSheetHeaders in Eset.
          destruct (_ =? 0)%nat; [now injection Eset as <-|].
          apply (setNoDataSheetHeadersLoop_same_sheets _ _ _ Eset).
          intros key Hk. unfold sheetKeys. rewrite E1. simpl.
          apply list_elem_of_singleton.
          apply (Hkeys (sheetHeaders (resolveOptions opts))); [|assumption].
          intros m Hm. apply elem_of_app. now right. }
        now rewrite E2, E1.
Qed.

End RunSheets.

Lemma sheets_of_run_witness :
  let out :=
    okOr NewFile (write acceptAll [bar2] [WithSheetHeaders [Item "" "" false]]) in
  hasSheet acceptAll out "ITEMS"
  /\ sheetList out = ["foo sheet name"; "items"].
Proof.
  intros out.
  assert (H : write acceptAll [bar2] [WithSheetHeaders [Item "" "" false]] = Ok out)
    by (vm_compute; reflexivity).
  split; [|vm_compute; reflexivity].
  apply (proj1 (sheets_of_run acceptAll _ _ _ "ITEMS" H)).
  - vm_compute. discriminate.
  - vm_compute. right. left.
Defined.

Lemma DeleteSheet_cell (sn : SheetNames) (f f' : File)
  (sheet key c : string) (v : CellValue) :
  DeleteSheet sn f sheet = (f', None) ->
  cellStore f' !! (key, c) = Some v -> cellStore f !! (key, c) = Some v.
Proof.
  unfold DeleteSheet. intros H.
  destruct (checkSheetName sn sheet); [discriminate|].
  destruct (_ || _); injection H as <-; [trivial|].
  simpl. rewrite map_lookup_filter_Some. tauto.
Qed.

Lemma expectedLines_zero (opt : options) (n : Z) :
  0 <= n -> expectedLines opt n = 0 -> n = 0.
Proof.
  unfold expectedLines. intros Hn. destruct (n =? 0) eqn:E; [now apply Z.eqb_eq in E|].
  destruct (headless opt); lia.
Qed.

Section RunCells.

Variable sn : SheetNames.

(** A cell present after [appendRow] was there before, or is a cell of the
    data row or of the header row the call wrote. *)
Lemma appendRow_only (f f' : File) (m : SheetModel) (line : Z) (opt : options)
  (s c : string) (v : CellValue) :
  appendRow sn f m line opt = Ok f' ->
  GetCell sn f' s c = Some v ->
  GetCell sn f s c = Some v
  \/ (foldSheetName sn s = foldSheetName sn (SheetName m)
      /\ exists (fields : list StructField) (k : nat) (field : StructField),
          modelFields m = Ok fields
          /\ fields !! k = Some field
          /\ ((c = cellAt (Z.of_nat k + 1) (dataLine line opt)
               /\ fieldCell opt (IsExported field) (Val field) = Ok v)
              \/ ((line + 1 =? 1) && negb (headless opt) = true
                  /\ c = cellAt (Z.of_nat k + 1) 1
                  /\ v = CString (headerOf field)))).
Proof.
  intros H Hv. apply appendRow_inv in H as (fields & f1 & Hm & _ & Hc & _ & H).
  unfold GetCell in *. rewrite <- Hc. unfold dataLine.
  destruct ((line + 1 =? 1) && negb (headless opt)).
  - destruct H as (f2 & H1 & H2).
    destruct (writeFields_only _ _ _ _ _ _ _ _ _ _ _ H2 Hv)
      as [(k & field & Hk & _ & [= Ek ->] & Hval)|Hold].
    { right. split; [assumption|]. exists fields, k, field. auto. }
    destruct (writeFields_only _ _ _ _ _ _ _ _ _ _ _ H1 Hold)
      as [(k & field & Hk & _ & [= Ek ->] & [= <-])|Hold1]; [|now left].
    right. split; [assumption|]. exists fields, k, field. auto 6.
  - destruct (writeFields_only _ _ _ _ _ _ _ _ _ _ _ H Hv)
      as [(k & field & Hk & _ & [= Ek ->] & Hval)|Hold]; [|now left].
    right. split; [assumption|]. exists fields, k, field. auto.
Qed.

(** Every cell the record loop leaves comes from one of its records, one
    that the container sends to the sheet of the cell. *)
Lemma writeLoop_cells_only (opt : options) (rest done : list SheetModel)
  (st st' : File * gmap string Z) :
  writeLoop sn opt (NewFile, ∅) done = Ok st ->
  writeLoop sn opt st rest = Ok st' ->
  (forall s c v, GetCell sn st.1 s c = Some v ->
     exists pre m post,
       done = (pre ++ m :: post)%list
       /\ foldSheetName sn (SheetName m) = foldSheetName sn s
       /\ recordCell opt pre m c v) ->
  forall s c v, GetCell sn st'.1 s c = Some v ->
    exists pre m post,
      (done ++ rest)%list = (pre ++ m :: post)%list
      /\ foldSheetName sn (SheetName m) = foldSheetName sn s
      /\ recordCell opt pre m c v.
Proof.
  revert done st. induction rest as [|m rest IH]; intros done st Hdone H Inv s c v Hv.
  - injection H as <-. rewrite app_nil_r. now apply Inv.
  - cbn [writeLoop] in H.
    destruct (writeRecord sn opt st m) as [st1|e|] eqn:E; [|discriminate..].
    replace (done ++ m :: rest)%list with ((done ++ [m]) ++ rest)%list
      by now rewrite <- app_assoc.
    apply (IH (done ++ [m])%list st1); try assumption.
    { rewrite writeLoop_app, Hdone. cbn [writeLoop]. now rewrite E. }
    clear s c v Hv. intros s c v Hv.
    destruct st as [f cnt], st1 as [f1 cnt1].
    pose proof (writeLoop_counter _ _ _ [] _ _ Hdone (fun n => eq_refl) (SheetName m)) as Hl.
    apply writeRecord_inv in E as (_ & _ & Hrow & _). simpl in *. rewrite Hl in Hrow.
    pose proof (recordsOf_nonneg (SheetName m) done) as Hn.
    destruct (appendRow_only _ _ _ _ _ _ _ _ Hrow Hv)
      as [Hold|(Ek & fields & k & field & Hm & Hk & Hcell)].
    + destruct (Inv s c v Hold) as (pre & m0 & post & -> & Hs & Hrc).
      exists pre, m0, (post ++ [m])%list. split; [|now split].
      now rewrite <- app_assoc.
    + exists done, m, []. split; [reflexivity|]. split; [now symmetry|].
      exists fields, k, field. split; [assumption|]. split; [assumption|].
      rewrite dataLine_expected in Hcell by assumption.
      destruct Hcell as [Hdata|(Hfirst & -> & ->)]; [now left|right].
      apply andb_prop in Hfirst as [E0 Eh]. apply negb_true_iff in Eh.
      apply Z.eqb_eq in E0.
      split; [assumption|]. split; [|now split].
      apply (expectedLines_zero opt); [assumption|lia].
Qed.

(** The steps of [write] after the record loop add no cell to a sheet that
    exists when the loop is over. *)
Lemma write_tail_cell (sheetModels : list SheetModel) (opts : list Option)
  (f out : File) (cnt : gmap string Z) (s cell : string) (v : CellValue) :
  writeLoop sn (resolveOptions opts) (NewFile, ∅) sheetModels = Ok (f, cnt) ->
  write sn sheetModels opts = Ok out ->
  hasSheet sn f s ->
  GetCell sn out s cell = Some v ->
  GetCell sn f s cell = Some v.
Proof.
  intros El H Hs Hv. unfold write in H. rewrite El in H.
  destruct (setNoDataSheetHeaders sn f (resolveOptions opts))
    as [f'|e|] eqn:Eset; [|discriminate..].
  destruct (write_before_delete _ _ _ _ _ _ El Eset) as (_ & _ & Hc).
  unfold GetCell in *. rewrite <- (Hc _ cell Hs).
  destruct (negb _) in H; [|now injection H as <-].
  destruct (DeleteSheet sn f' "Sheet1") as [f2 [e|]] eqn:Ed; [discriminate|].
  injection H as <-. now apply (DeleteSheet_cell _ _ _ _ _ _ _ Ed).
Qed.

(** A sheet that receives records holds nothing but what was written for
    them: every cell of it in the file the run returns is the value of a
    field of a record that the container sends to this sheet, in the row
    of that record, or a header cell written with the first record of a
    sheet name.  The declared prototypes add nothing to such a sheet. *)
Theorem cells_of_data_sheet (sheetModels : list SheetModel) (opts : list Option)
  (out : File) (s cell : string) (v : CellValue) :
  write sn sheetModels opts = Ok out ->
  foldSheetName sn s ∈ modelKeys sn sheetModels ->
  GetCell sn out s cell = Some v ->
  exists pre m post,
    sheetModels = (pre ++ m :: post)%list
    /\ foldSheetName sn (SheetName m) = foldSheetName sn s
    /\ recordCell (resolveOptions opts) pre m cell v.
Proof.
  intros H Hin Hv. pose proof H as H0. unfold write in H.
  destruct (writeLoop sn (resolveOptions opts) (NewFile, ∅) sheetModels)
    as [[f cnt]|e|] eqn:El; [|discriminate..].
  clear H.
  assert (Hs : hasSheet sn f s).
  { apply (writeLoop_sheet_iff _ _ _ _ _ _ El). now right. }
  pose proof (write_tail_cell _ _ _ _ _ _ _ _ El H0 Hs Hv) as Hv'.
  apply (writeLoop_cells_only _ sheetModels [] (NewFile, ∅) (f, cnt) eq_refl El);
    [|exact Hv'].
  intros s0 c0 v0 Hc0. discriminate Hc0.
Qed.

(** One record too many for a sheet: when the sheet of a record with at
    least one field already holds 1048576 lines, the header counted, the
    run fails with the error of the coordinate translation for the row. *)
Theorem row_limit_stops_run (done rest : list SheetModel) (opts : list Option)
  (name : string) (field : StructField) (fields : list StructField)
  (st : File * gmap string Z) :
  writeLoop sn (resolveOptions opts) (NewFile, ∅) done = Ok st ->
  name <> "" ->
  checkSheetName sn name = None ->
  totalRows <= recordsOf name done + (if headless (resolveOptions opts) then 0 else 1) ->
  write sn (done ++ StructModel name (field :: fields) :: rest) opts
  = Err "row number exceeds maximum limit".
Proof.
  intros Hdone Hname Hc Hfull. unfold write. rewrite writeLoop_app, Hdone.
  cbn [writeLoop]. destruct st as [f cnt].
  pose proof (writeLoop_counter _ _ _ [] _ _ Hdone (fun n => eq_refl) name) as Hl.
  simpl in Hl. unfold writeRecord. cbn [callSheetName SheetName SheetModel_Kind].
  destruct (String.eqb_spec name ""); [contradiction|].
  assert (Hrow : appendRow sn f (StructModel name (field :: fields))
                   (linesOf cnt name) (resolveOptions opts)
                 = Err "row number exceeds maximum limit").
  { unfold appendRow, GetSheetIndex. cbn [callSheetName SheetName modelFields].
    rewrite Hc. destruct (ensure_sheet sn f name Hc) as (f1 & idx & -> & _).
    assert (Hline : totalRows <= linesOf cnt name).
    { rewrite Hl. unfold expectedLines, totalRows in *.
      destruct (recordsOf name done =? 0) eqn:E0;
        [apply Z.eqb_eq in E0; destruct (headless _); lia|].
      destruct (headless _); lia. }
    unfold totalRows in Hline.
    destruct (linesOf cnt name + 1 =? 1) eqn:E1; [apply Z.eqb_eq in E1; lia|].
    cbn [andb appendCells]. unfold coordinatesToCellName, totalRows.
    replace (0 + 1 <? 1) with false by reflexivity.
    destruct (linesOf cnt name + 1 <? 1) eqn:E2; [apply Z.ltb_lt in E2; lia|].
    destruct (1048576 <? linesOf cnt name + 1) eqn:E3; [reflexivity|].
    apply Z.ltb_ge in E3. lia. }
  now rewrite Hrow.
Qed.

End RunCells.

Lemma cells_of_data_sheet_witness :
  exists pre m post,
    [bar2; Foo 7 "Bar7" (mkTime 0 "UTC") VNilPointer] = (pre ++ m :: post)%list
    /\ foldSheetName acceptAll (SheetName m) = foldSheetName acceptAll "FOO sheet name"
    /\ recordCell (resolveOptions []) pre m "B3" (CString "Bar7").
Proof.
  apply (cells_of_data_sheet acceptAll _ []
           (okOr NewFile
              (write acceptAll [bar2; Foo 7 "Bar7" (mkTime 0 "UTC") VNilPointer] []))).
  - vm_compute. reflexivity.
  - vm_compute. left.
  - vm_compute. reflexivity.
Defined.

Lemma recordsOf_replicate (m : SheetModel) (n : nat) :
  recordsOf (SheetName m) (replicate n m) = Z.of_nat n.
Proof.
  unfold recordsOf. f_equal. induction n as [|n IH]; [reflexivity|].
  simpl. rewrite filter_cons. destruct (decide _); [|congruence]. simpl. now rewrite IH.
Qed.

Lemma row_limit_stops_run_witness :
  write acceptAll (replicate (Z.to_nat 1048575) bar2 ++ bar2 :: []) []
  = Err "row number exceeds maximum limit".
Proof.
  assert (Hgood : Forall (writableRecord acceptAll) (replicate (Z.to_nat 1048575) bar2)).
  { apply Forall_replicate. do 2 eexists.
    split; [reflexivity|]. split; [discriminate|]. split; [reflexivity|].
    split; [vm_compute; discriminate|repeat constructor]. }
  destruct (writeLoop_ok acceptAll (resolveOptions []) (replicate (Z.to_nat 1048575) bar2)
              [] (NewFile, ∅) eq_refl Hgood) as [st Hst].
  { cbn [app]. rewrite length_replicate. unfold totalRows. lia. }
  apply (row_limit_stops_run acceptAll _ [] [] "foo sheet name" _ _ st Hst).
  - discriminate.
  - reflexivity.
  - change "foo sheet name" with (SheetName bar2). rewrite recordsOf_replicate.
    unfold totalRows. simpl. lia.
Defined.

(** ** Sheets are independent *)


Section RunSheetsApart.

Variable sn : SheetNames.




(** The default sheet [Sheet1] never receives a cell unless the container
    sends a record to it: in the file a successful run returns it is
    absent or empty, whatever prototypes are declared for it. *)
Theorem default_sheet_stays_empty (sheetModels : list SheetModel)
  (opts : list Option) (out : File) (cell : string) :
  write sn sheetModels opts = Ok out ->
  foldSheetName sn "Sheet1" ∉ modelKeys sn sheetModels ->
  GetCell sn out "Sheet1" cell = None.
Proof.
  intros H Hnot.
  destruct (GetCell sn out "Sheet1" cell) as [v|] eqn:Hv; [exfalso|reflexivity].
  pose proof H as H'. unfold write in H'.
  destruct (writeLoop sn (resolveOptions opts) (NewFile, ∅) sheetModels)
    as [[f cnt]|e|] eqn:El; [|discriminate..]. clear H'.
  assert (Hs : hasSheet sn f "Sheet1").
  { apply (writeLoop_sheet_iff _ _ _ _ _ _ El). left.
    change (sheetKeys sn (NewFile, ∅).1) with [foldSheetName sn "Sheet1"].
    now apply list_elem_of_singleton. }
  pose proof (write_tail_cell _ _ _ _ _ _ _ _ _ El H Hs Hv) as Hv'.
  destruct (writeLoop_cells_only _ _ sheetModels [] (NewFile, ∅) (f, cnt) eq_refl El
              ltac:(intros s0 c0 v0 Hc0; discriminate Hc0) "Sheet1" cell v Hv')
    as (pre & m & post & E & Hm & _).
  simpl in E. apply Hnot. rewrite E, <- Hm. apply modelKeys_elem.
  apply elem_of_app. right. left.
Qed.

End RunSheetsApart.



Lemma default_sheet_stays_empty_witness :
  GetCell acceptAll
    (okOr NewFile
       (write acceptAll [bar2] [WithSheetHeaders [StructModel "Sheet1" [mkField "ID" "" true (VInt TInt 0)]]]))
    "Sheet1" "A1"
  = None.
Proof.
  apply (default_sheet_stays_empty acceptAll [bar2]
           [WithSheetHeaders [StructModel "Sheet1" [mkField "ID" "" true (VInt TInt 0)]]]).
  - vm_compute. reflexivity.
  - intros Hin. apply list_elem_of_singleton in Hin. vm_compute in Hin. discriminate.
Defined.
